(** * Sermon recommendation bot: retrieval, ranking, cache, sessions, store

    A shallow embedding of the retrieval / ranking / pagination core of the
    bot ([utils.py], [telegram_bot.py], [db_handler.py], [config.py]) and the
    properties of it that the specification states.

    Conventions of the embedding:
    - Python exceptions are explicit: a computation yields an [outcome],
      either [Ret v] or [Raise e]; [try ... except Exception] is [try_except].
    - Python [float] is IEEE binary64, embedded as the primitive [float],
      whose operations are specified on [spec_float].
    - Python [str] is a [string] of UTF-8 bytes.
    - The file system under the cache directory, the bot's session dict and
      the SQLite database are explicit state, passed in and returned; the
      state of the database includes the write lock that a connection left
      open keeps, until the garbage collector closes it.
    - External services (the chat model, the vector index, the clock) are
      inputs of the calls that consult them; the calls made to the chat
      model and to [CacheManager.set] are counted in the state, so that
      "no call is made" can be stated. *)

From Stdlib Require Import ZArith List String Ascii Bool Lia PrimFloat Uint63 DecimalString.
From Stdlib Require Import DecimalPos DecimalZ.
From Stdlib Require FloatOps FloatAxioms SpecFloat.
From stdpp Require Import gmap strings list fin_maps sorting.
Import ListNotations.
Open Scope string_scope.
Open Scope list_scope.
Open Scope Z_scope.

(** ** Python runtime vocabulary *)

Module Py.

(** The exception classes that the modelled code can meet. *)
Inductive exn : Type :=
| KeyError
| TypeError
| ValueError
| JSONDecodeError
| IndexError
| IntegrityError
| OSError
| RuntimeError.

Inductive outcome (A : Type) : Type :=
| Ret (a : A)
| Raise (e : exn).
Arguments Ret {A} a.
Arguments Raise {A} e.

Definition bind {A B : Type} (m : outcome A) (k : A -> outcome B) : outcome B :=
  match m with
  | Ret a => k a
  | Raise e => Raise e
  end.

(** [try: body  except Exception as e: handler(e)] *)
Definition try_except {A : Type} (body : outcome A) (handler : exn -> A) : A :=
  match body with
  | Ret a => a
  | Raise e => handler e
  end.

Definition raises {A : Type} (m : outcome A) : Prop :=
  exists e, m = Raise e.

(** [f"{n}"] for an [int]. *)
Definition str_of_int (n : Z) : string :=
  NilZero.string_of_int (Z.to_int n).

(** [s.startswith(c)] and [s.endswith(c)] for a one-character [c]. *)
Definition startswith (c : ascii) (s : string) : bool :=
  match s with
  | String a _ => Ascii.eqb a c
  | EmptyString => false
  end.

Fixpoint endswith (c : ascii) (s : string) : bool :=
  match s with
  | EmptyString => false
  | String a EmptyString => Ascii.eqb a c
  | String _ rest => endswith c rest
  end.

(** A file name: a text without the path separator. *)
Fixpoint is_file_name (s : string) : bool :=
  match s with
  | EmptyString => true
  | String a rest => (negb (Ascii.eqb a "/") && is_file_name rest)%bool
  end.

(** [os.path.join(a, b)] on POSIX, for a non-empty [a]. *)
Definition os_path_join (a b : string) : string :=
  if startswith "/" b then b
  else if endswith "/" a then (a ++ b)%string
  else (a ++ "/" ++ b)%string.

(** [l[i:j]] for [0 <= i <= j]. *)
Definition slice {A : Type} (l : list A) (i j : nat) : list A :=
  firstn (j - i) (skipn i l).

End Py.
Export Py.

Notation "x <- m ;; k" := (Py.bind m (fun x => k))
  (at level 100, m at next level, right associativity, only parsing).

(** ** [hashlib.md5(...).hexdigest()] (RFC 1321) *)

Module MD5.

Definition mask32 (x : Z) : Z := x mod 2 ^ 32.
Definition not32 (x : Z) : Z := Z.lxor x 4294967295.
Definition rotl (x c : Z) : Z :=
  mask32 (Z.lor (Z.shiftl x c) (Z.shiftr x (32 - c))).

Definition shifts : list Z :=
  [7; 12; 17; 22; 7; 12; 17; 22; 7; 12; 17; 22; 7; 12; 17; 22;
   5; 9; 14; 20; 5; 9; 14; 20; 5; 9; 14; 20; 5; 9; 14; 20;
   4; 11; 16; 23; 4; 11; 16; 23; 4; 11; 16; 23; 4; 11; 16; 23;
   6; 10; 15; 21; 6; 10; 15; 21; 6; 10; 15; 21; 6; 10; 15; 21].

Definition sines : list Z :=
  [3614090360; 3905402710; 606105819; 3250441966; 4118548399; 1200080426;
   2821735955; 4249261313; 1770035416; 2336552879; 4294925233; 2304563134;
   1804603682; 4254626195; 2792965006; 1236535329; 4129170786; 3225465664;
   643717713; 3921069994; 3593408605; 38016083; 3634488961; 3889429448;
   568446438; 3275163606; 4107603335; 1163531501; 2850285829; 4243563512;
   1735328473; 2368359562; 4294588738; 2272392833; 1839030562; 4259657740;
   2763975236; 1272893353; 4139469664; 3200236656; 681279174; 3936430074;
   3572445317; 76029189; 3654602809; 3873151461; 530742520; 3299628645;
   4096336452; 1126891415; 2878612391; 4237533241; 1700485571; 2399980690;
   4293915773; 2240044497; 1873313359; 4264355552; 2734768916; 1309151649;
   4149444226; 3174756917; 718787259; 3951481745].

Definition bytes_of_string (s : string) : list Z :=
  map (fun a => Z.of_N (N_of_ascii a)) (list_ascii_of_string s).

Fixpoint le_bytes (n : nat) (x : Z) : list Z :=
  match n with
  | O => []
  | S n' => (x mod 256) :: le_bytes n' (x / 256)
  end.

Definition pad (msg : list Z) : list Z :=
  let len := Z.of_nat (length msg) in
  msg ++ [128] ++ repeat 0 (Z.to_nat ((55 - len) mod 64))
      ++ le_bytes 8 ((8 * len) mod 2 ^ 64).

Fixpoint words (n : nat) (bs : list Z) : list Z :=
  match n, bs with
  | S n', b0 :: b1 :: b2 :: b3 :: rest =>
      (b0 + 256 * b1 + 65536 * b2 + 16777216 * b3) :: words n' rest
  | _, _ => []
  end.

Definition state : Type := (Z * Z * Z * Z)%type.

Definition round (M : list Z) (st : state) (i : nat) : state :=
  let '(A, B, C, D) := st in
  let iz := Z.of_nat i in
  let '(F, g) :=
    if Nat.ltb i 16 then (Z.lor (Z.land B C) (Z.land (not32 B) D), iz)
    else if Nat.ltb i 32 then
      (Z.lor (Z.land D B) (Z.land (not32 D) C), (5 * iz + 1) mod 16)
    else if Nat.ltb i 48 then (Z.lxor (Z.lxor B C) D, (3 * iz + 5) mod 16)
    else (Z.lxor C (Z.lor B (not32 D)), (7 * iz) mod 16) in
  let F' := mask32 (F + A + nth i sines 0 + nth (Z.to_nat g) M 0) in
  (D, mask32 (B + rotl F' (nth i shifts 0)), B, C).

Definition compress (st : state) (M : list Z) : state :=
  let '(a0, b0, c0, d0) := st in
  let '(A, B, C, D) := fold_left (round M) (seq 0 64) st in
  (mask32 (a0 + A), mask32 (b0 + B), mask32 (c0 + C), mask32 (d0 + D)).

Fixpoint chunks (n : nat) (bs : list Z) : list (list Z) :=
  match n with
  | O => []
  | S n' => words 16 (firstn 64 bs) :: chunks n' (skipn 64 bs)
  end.

Definition init : state := (1732584193, 4023233417, 2562383102, 271733878).

Definition digest (msg : list Z) : list Z :=
  let p := pad msg in
  let '(a, b, c, d) := fold_left compress (chunks (length p / 64) p) init in
  le_bytes 4 a ++ le_bytes 4 b ++ le_bytes 4 c ++ le_bytes 4 d.

Definition hex_digit (n : Z) : ascii :=
  if n <? 10 then ascii_of_N (Z.to_N (48 + n)) else ascii_of_N (Z.to_N (87 + n)).

Fixpoint hex (bs : list Z) : string :=
  match bs with
  | [] => EmptyString
  | b :: rest => String (hex_digit (b / 16)) (String (hex_digit (b mod 16)) (hex rest))
  end.

Definition hexdigest (s : string) : string := hex (digest (bytes_of_string s)).

End MD5.

(** ** [config.py] *)

Module config.

Definition CACHE_PATH : string := "cache".
Definition CACHE_DURATION_HOURS : Z := 6.
Definition TOP_K_SEARCH : Z := 20.
(** The literal [0.7]: the binary64 value nearest to 7/10. *)
Definition MIN_RELEVANCE_SCORE : float := 0x1.6666666666666p-1%float.
Definition DEFAULT_RECOMMENDATIONS : nat := 5.

End config.

(** ** Binary64 values in [0, 1]

    The primitive operations on [float] are specified on [spec_float], the
    sign, mantissa and exponent of a binary64 value.  One is the mantissa
    2^52 at exponent -52. *)

Module binary64.



End binary64.

(** ** [utils.py]: [CacheManager] *)

(** The cache directory is a finite map from paths to file contents.  A
    file is seen through what [get] does with it: whether it opens, whether
    it decodes, and what sits under the two keys of the decoded object.  The
    cached value has any type [V].  Opening for writing, writing and
    removing an existing file are taken to succeed.

    A path stands for the file that it names.  This is exact for the keys
    that are file names ([is_file_name]: no separator), on a file system
    that tells upper case from lower case: their paths are
    [cache/<key>.json], one file of the cache directory for each key.  The
    keys that the bot uses are of this form.  For a key with a separator
    the path may leave the directory or name the file of another key, and
    statements about two keys are made for file names only. *)

Module CacheManager.

(** A naive [datetime] is a point of one linear time line: the number of
    microseconds since a fixed origin.  [timedelta(hours=h)] is [hours h]. *)
Definition hours (h : Z) : Z := h * 3600 * 1000000.

Inductive datetime : Type :=
| Naive (t : Z)
| Aware (t : Z) (utcoffset : Z).

(** What [datetime.fromisoformat] makes of the value stored under
    ['expires_at']. *)
Inductive expires_raw : Type :=
| NotIso                         (* not a str, or not an ISO-8601 text *)
| Iso (d : datetime).

(** A JSON object, seen through the two keys that [get] subscripts.
    [None] is an absent key. *)
Record document (V : Type) : Type := Document {
  doc_value : option V;
  doc_expires_at : option expires_raw
}.
Arguments Document {V} _ _.
Arguments doc_value {V} _.
Arguments doc_expires_at {V} _.

(** The content of an existing path under the cache directory. *)
Inductive cache_file (V : Type) : Type :=
| Unreadable                     (* [open] raises: a directory, no permission *)
| NotJSON                        (* [json.load] raises *)
| NotObject                      (* JSON, but not an object *)
| Object (d : document V).
Arguments Unreadable {V}.
Arguments NotJSON {V}.
Arguments NotObject {V}.
Arguments Object {V} d.

(** What [json.load] returns. *)
Inductive data (V : Type) : Type :=
| NonDict
| Dict (d : document V).
Arguments NonDict {V}.
Arguments Dict {V} d.

Section Generic.
Context {V : Type}.

Definition cache_path (key : string) : string :=
  os_path_join config.CACHE_PATH (key ++ ".json")%string.

(** [with open(cache_file) as f: data = json.load(f)] *)
Definition json_load (f : cache_file V) : outcome (data V) :=
  match f with
  | Unreadable => Raise OSError
  | NotJSON => Raise JSONDecodeError
  | NotObject => Ret NonDict
  | Object d => Ret (Dict d)
  end.

(** [data['expires_at']] *)
Definition getitem_expires_at (d : data V) : outcome expires_raw :=
  match d with
  | NonDict => Raise TypeError
  | Dict o => match doc_expires_at o with
              | Some r => Ret r
              | None => Raise KeyError
              end
  end.

(** [data['value']] *)
Definition getitem_value (d : data V) : outcome V :=
  match d with
  | NonDict => Raise TypeError
  | Dict o => match doc_value o with
              | Some v => Ret v
              | None => Raise KeyError
              end
  end.

Definition fromisoformat (r : expires_raw) : outcome datetime :=
  match r with
  | NotIso => Raise ValueError
  | Iso d => Ret d
  end.

(** [datetime.now() > expires_at]; [now()] is naive. *)
Definition now_gt (now : Z) (expires_at : datetime) : outcome bool :=
  match expires_at with
  | Naive t => Ret (t <? now)
  | Aware _ _ => Raise TypeError
  end.

(** The body of the [try] of [get]: the value returned, and the files
    left behind. *)
Definition get_try (now : Z) (path : string) (f : cache_file V)
    (files : gmap string (cache_file V))
  : outcome (option V * gmap string (cache_file V)) :=
  d <- json_load f ;;
  raw <- getitem_expires_at d ;;
  expires_at <- fromisoformat raw ;;
  expired <- now_gt now expires_at ;;
  if (expired : bool) then Ret (None, delete path files)
  else v <- getitem_value d ;; Ret (Some v, files).

Definition get (now : Z) (key : string) (files : gmap string (cache_file V))
  : option V * gmap string (cache_file V) :=
  let path := cache_path key in
  match files !! path with
  | None => (None, files)
  | Some f => try_except (get_try now path f files) (fun _ => (None, files))
  end.

Definition set (now : Z) (key : string) (value : V)
    (files : gmap string (cache_file V)) : gmap string (cache_file V) :=
  let expires_at := now + hours config.CACHE_DURATION_HOURS in
  <[cache_path key :=
      Object (Document (Some value) (Some (Iso (Naive expires_at))))]> files.

End Generic.

End CacheManager.

(** ** [utils.py]: [RAGEngine.search] and [RecommendationEngine.rank_sermons] *)

Module utils.

(** The dict that [search] builds for a hit. *)
Record Sermon : Type := {
  title : string;
  description : string;
  message_link : string;
  image_url : option string;
  channel : string;
  date : string;
  theme : string;
  similarity_score : float
}.

(** A stored [Document]: only its [metadata] dict is read. *)
Record Document : Type := { metadata : gmap string string }.

(** [d.get(k, default)] *)
Definition dict_get (d : gmap string string) (k default : string) : string :=
  match d !! k with
  | Some v => v
  | None => default
  end.

Definition hit (r : Document * float) : Sermon :=
  let '(doc, score) := r in
  {| title := dict_get (metadata doc) "title" "Untitled";
     description := dict_get (metadata doc) "description" "";
     message_link := dict_get (metadata doc) "message_link" "";
     image_url := metadata doc !! "image_url";
     channel := dict_get (metadata doc) "channel" "";
     date := dict_get (metadata doc) "date" "";
     theme := dict_get (metadata doc) "theme" "";
     similarity_score := (1 - score)%float |}.

(** [RAGEngine.search].  [similarity_search_with_score] is the vector
    store's method: given the query and [k] it yields (document, distance)
    pairs, or raises. *)
Definition search
    (similarity_search_with_score : string -> Z -> outcome (list (Document * float)))
    (query : string) (k : Z) : list Sermon :=
  try_except
    (results <- similarity_search_with_score query k ;;
     Ret (map hit results))
    (fun _ => []).

#[local] Unset Elimination Schemes.
(** A decoded JSON value, as [json.loads] returns it. *)
Inductive json : Type :=
| JNull
| JBool (b : bool)
| JInt (n : Z)
| JFloat (x : float)
| JStr (s : string)
| JArr (l : list json)
| JObj (l : list (string * json)).
#[local] Set Elimination Schemes.

(** The process state that [rank_sermons] touches: the files of the cache
    directory, and counters of the calls made to the chat model and to
    [CacheManager.set]. *)
Record world : Type := World {
  files : gmap string (CacheManager.cache_file (list Sermon));
  llm_calls : nat;
  cache_sets : nat
}.

(** What the environment answers during one call of [rank_sermons]:
    [llm_reply] is the outcome of [llm.invoke(prompt)] followed by
    [response.content.strip()]; [now_get] and [now_set] are the clock
    readings inside [cache.get] and [cache.set]. *)
Record env : Type := Env {
  llm_reply : outcome string;
  now_get : Z;
  now_set : Z
}.

Definition cache_key (user_id : Z) (query : string) : string :=
  ("rank_" ++ str_of_int user_id ++ "_" ++ MD5.hexdigest query)%string.

Definition float_of_nat (n : nat) : float :=
  PrimFloat.of_uint63 (Uint63.of_Z (Z.of_nat n)).

(** For one element [idx] of the decoded array: the guard
    [0 <= idx < len(sermons)] and, where it holds, the position that
    [sermons[idx]] reads.  [Ret None]: the guard is false.  A [bool] is an
    [int]; a [float] passes the comparison and fails as a subscript; the
    other JSON types do not compare with [0].  (The comparison of a float
    with [len(sermons)] is exact below 2^53 elements.) *)
Definition guarded_index (len : nat) (idx : json) : outcome (option nat) :=
  let of_int (i : Z) :=
    if (0 <=? i) && (i <? Z.of_nat len) then Some (Z.to_nat i) else None in
  match idx with
  | JInt i => Ret (of_int i)
  | JBool b => Ret (of_int (if b then 1 else 0))
  | JFloat x =>
      if ((0 <=? x)%float && (x <? float_of_nat len)%float)%bool
      then Raise TypeError else Ret None
  | JNull | JStr _ | JArr _ | JObj _ => Raise TypeError
  end.

(** The re-ordering loop, from the state [(ranked_sermons, seen_links)]. *)
Fixpoint reorder (sermons : list Sermon) (ranked_indexes : list json)
    (ranked_sermons : list Sermon) (seen_links : gset string)
  : outcome (list Sermon) :=
  match ranked_indexes with
  | [] => Ret ranked_sermons
  | idx :: rest =>
      i <- guarded_index (length sermons) idx ;;
      match i with
      | None => reorder sermons rest ranked_sermons seen_links
      | Some i =>
          match sermons !! i with
          | None => Raise IndexError
          | Some sermon =>
              let link := message_link sermon in
              if decide (link ∈ seen_links)
              then reorder sermons rest ranked_sermons seen_links
              else reorder sermons rest (ranked_sermons ++ [sermon])
                           ({[link]} ∪ seen_links)
          end
      end
  end.

(** [list(range(min(10, len(sermons))))] *)
Definition original_order (sermons : list Sermon) : list json :=
  map (fun i => JInt (Z.of_nat i)) (seq 0 (Nat.min 10 (length sermons))).

(** [[s for s in sermons if s.get('similarity_score', 0) >= config.MIN_RELEVANCE_SCORE]] *)
Definition fallback (sermons : list Sermon) : list Sermon :=
  List.filter
    (fun s => (config.MIN_RELEVANCE_SCORE <=? similarity_score s)%float) sermons.

Section Rank.
(** [json.loads], on a text that starts with '[' and ends with ']': the
    elements of the array, or [JSONDecodeError]. *)
Variable json_loads : string -> outcome (list json).

(** The [try] body after the model call: parse, then re-order. *)
Definition rank_try (sermons : list Sermon) (reply : outcome string)
  : outcome (list Sermon) :=
  content <- reply ;;
  ranked_indexes <-
    (if startswith "[" content && endswith "]" content
     then json_loads content
     else Ret (original_order sermons)) ;;
  reorder sermons ranked_indexes [] ∅.

(** [RecommendationEngine.rank_sermons].  The prompt text is built from
    string fields only and is consumed by the chat model alone, whose
    answer is [llm_reply e]. *)
Definition rank_sermons (e : env) (query : string) (sermons : list Sermon)
    (user_id : Z) (w : world) : list Sermon * world :=
  match sermons with
  | [] => ([], w)
  | _ :: _ =>
      let key := cache_key user_id query in
      let '(cached, files1) := CacheManager.get (now_get e) key (files w) in
      let w1 := World files1 (llm_calls w) (cache_sets w) in
      match cached with
      | Some ((_ :: _) as hit_list) => (hit_list, w1)
      | _ =>
          let w2 := World files1 (S (llm_calls w)) (cache_sets w) in
          match rank_try sermons (llm_reply e) with
          | Ret ranked_sermons =>
              (ranked_sermons,
               World (CacheManager.set (now_set e) key ranked_sermons files1)
                     (S (llm_calls w)) (S (cache_sets w)))
          | Raise _ => (fallback sermons, w2)
          end
      end
  end.
End Rank.

End utils.

(** ** [telegram_bot.py]: the session dict and [_handle_more] *)

Module telegram_bot.
Import utils.

(** [{'sermons': ranked_sermons, 'index': n}] *)
Record Session : Type := {
  sermons : list Sermon;
  index : nat
}.

(** The messages that the bot sends back to the chat. *)
Inductive Reply : Type :=
| PleaseSearchFirst              (* "Please search for sermons first ..." *)
| ThatsAllIFound                 (* "That's all the sermons I found ..." *)
| HereAreMore                    (* "Here are more sermons for you:" *)
| SermonMessage (s : Sermon)     (* one sermon, as photo or text *)
| StillMoreAvailable             (* "Still more available! ..." *)
| ThatsAll.                      (* "That's all! Try a new search ..." *)

(** [_send_sermon_recommendations]: one message per sermon, in order.
    Sending a message to the chat is taken to succeed. *)
Definition _send_sermon_recommendations (batch : list Sermon) : list Reply :=
  map SermonMessage batch.

(** [_handle_more]: the replies sent, and the session dict afterwards. *)
Definition _handle_more (user_id : Z) (user_sessions : gmap Z Session)
  : list Reply * gmap Z Session :=
  match user_sessions !! user_id with
  | None => ([PleaseSearchFirst], user_sessions)
  | Some session =>
      let current_index := index session in
      let next_batch :=
        slice (sermons session) current_index (current_index + 5) in
      match next_batch with
      | [] => ([ThatsAllIFound], user_sessions)
      | _ :: _ =>
          let session' :=
            {| sermons := sermons session; index := (current_index + 5)%nat |} in
          (([HereAreMore] ++ _send_sermon_recommendations next_batch
             ++ [if (index session' <? length (sermons session))%nat
                 then StillMoreAvailable else ThatsAll])%list,
           <[user_id := session']> user_sessions)
      end
  end.

End telegram_bot.

(** ** [db_handler.py]: the [sermons] table and [add_sermon] *)

Module db_handler.

(** A row of the table created by [_init_db]; [None] is SQL NULL in the
    three nullable columns. *)
Record Row : Type := {
  id : Z;
  title : string;
  description : string;
  channel : string;
  message_link : string;
  image_url : option string;
  date : option string;
  theme : option string;
  created_at : string;
  updated_at : string
}.

(** The database file: the table in rowid order, the AUTOINCREMENT
    high-water mark that SQLite keeps in [sqlite_sequence], and whether a
    connection that [add_sermon] left open holds the write lock.  The
    [except] branches of [add_sermon] return without closing the
    connection; after an insert that SQLite aborted, the transaction that
    the [sqlite3] module had begun stays open with its lock, until the
    garbage collector finalises the connection. *)
Record Db : Type := {
  rows : list Row;
  sqlite_sequence : Z;
  write_locked : bool
}.

(** The garbage collector has finalised the connections left open. *)
Definition collected (db : Db) : Db :=
  {| rows := rows db; sqlite_sequence := sqlite_sequence db; write_locked := false |}.

(** A failed insert has left its connection open, with the lock. *)
Definition left_open (db : Db) : Db :=
  {| rows := rows db; sqlite_sequence := sqlite_sequence db; write_locked := true |}.

(** [sermon_data]: a dict from str keys to str or [None]. *)
Definition sermon_dict : Type := gmap string (option string).

(** [d.get(k, default)] and [d.get(k)] *)
Definition get_default (d : sermon_dict) (k default : string) : option string :=
  match d !! k with
  | Some v => v
  | None => Some default
  end.

Definition get_none (d : sermon_dict) (k : string) : option string :=
  match d !! k with
  | Some v => v
  | None => None
  end.

Definition max_rowid (rs : list Row) : Z :=
  fold_right (fun r m => Z.max (id r) m) 0 rs.

(** The values bound to the four NOT NULL columns [title], [description],
    [channel], [message_link]; [None] if one of them is Python's [None]. *)
Definition not_null_columns (d : sermon_dict)
  : option (string * string * string * string) :=
  match get_default d "title" "", get_default d "description" "",
        get_default d "channel" "", get_default d "message_link" "" with
  | Some t, Some de, Some c, Some l => Some (t, de, c, l)
  | _, _, _, _ => None
  end.

Definition new_row (d : sermon_dict) (current_timestamp : string) (rowid : Z)
    (cols : string * string * string * string) : Row :=
  let '(t, de, c, l) := cols in
  {| id := rowid; title := t; description := de; channel := c;
     message_link := l; image_url := get_none d "image_url";
     date := get_none d "date"; theme := get_default d "theme" "";
     created_at := current_timestamp; updated_at := current_timestamp |}.

(** AUTOINCREMENT: one more than the largest rowid ever used. *)
Definition next_rowid (db : Db) : Z :=
  Z.max (sqlite_sequence db) (max_rowid (rows db)) + 1.

(** The rows that survive REPLACE on the UNIQUE column: those whose
    [message_link] differs from the new one. *)
Definition other_links (l : string) (rs : list Row) : list Row :=
  List.filter (fun r => negb (String.eqb (message_link r) l)) rs.

(** [INSERT OR REPLACE INTO sermons (...) VALUES (?, ?, ?, ?, ?, ?, ?)]:
    a NULL in a NOT NULL column aborts with [IntegrityError]; a row that
    holds the same [message_link] (the UNIQUE column) is deleted first;
    the new row gets a fresh [id] above every id ever used, and the two
    timestamps default to CURRENT_TIMESTAMP. *)
Definition insert_or_replace (d : sermon_dict) (current_timestamp : string)
    (db : Db) : outcome (Z * Db) :=
  match not_null_columns d with
  | Some (t, de, c, l) =>
      let rowid := next_rowid db in
      Ret (rowid,
           {| rows := other_links l (rows db)
                      ++ [new_row d current_timestamp rowid (t, de, c, l)];
              sqlite_sequence := rowid;
              write_locked := false |})
  | None => Raise IntegrityError
  end.

(** [add_sermon]: [cursor.lastrowid], or [None] when the insert failed.
    While the write lock is held by a connection left open, [execute]
    raises "database is locked" once the busy timeout has passed, which is
    caught like any exception.  Otherwise the insert runs; when it is
    aborted the function returns without [close], and its connection keeps
    the lock. *)
Definition add_sermon (sermon_data : sermon_dict) (current_timestamp : string)
    (db : Db) : option Z * Db :=
  if write_locked db then (None, db)
  else
    try_except
      (r <- insert_or_replace sermon_data current_timestamp db ;;
       Ret (Some (fst r), snd r))
      (fun _ => (None, left_open db)).

(** [SELECT COUNT( * ) FROM sermons] *)
Definition get_sermon_count (db : Db) : nat := length (rows db).

(** [SELECT * FROM sermons WHERE message_link = ?] *)
Definition select_by_link (db : Db) (link : string) : list Row :=
  List.filter (fun r => String.eqb (message_link r) link) (rows db).

(** [get_sermon_by_link]: [fetchone()] *)
Definition get_sermon_by_link (db : Db) (link : string) : option Row :=
  head (select_by_link db link).

End db_handler.

(** ** A decoder for the examples

    [json.loads] is a parameter of [rank_sermons].  The examples below run
    it on arrays of integer literals and of the literals [null], [true]
    and [false], and on text that is not JSON at all; on these,
    [json_ints.loads] gives what [json.loads] gives. *)

Module json_ints.
Import utils.

Definition is_ws (a : ascii) : bool :=
  let n := N_of_ascii a in
  (N.eqb n 32 || N.eqb n 9 || N.eqb n 10 || N.eqb n 13)%bool.

Definition is_digit (a : ascii) : bool :=
  let n := N_of_ascii a in (N.leb 48 n && N.leb n 57)%bool.

Fixpoint lstrip (s : list ascii) : list ascii :=
  match s with
  | a :: rest => if is_ws a then lstrip rest else s
  | [] => []
  end.

Definition strip (s : list ascii) : list ascii :=
  rev (lstrip (rev (lstrip s))).

Fixpoint split_commas (s cur : list ascii) : list (list ascii) :=
  match s with
  | [] => [rev cur]
  | a :: rest =>
      if Ascii.eqb a "," then rev cur :: split_commas rest []
      else split_commas rest (a :: cur)
  end.

Definition digits_value (ds : list ascii) : Z :=
  fold_left (fun acc a => 10 * acc + (Z.of_N (N_of_ascii a) - 48)) ds 0.

(** [-? (0 | [1-9][0-9]* )] *)
Definition int_literal (s : list ascii) : outcome json :=
  let '(neg, ds) :=
    match s with
    | a :: rest => if Ascii.eqb a "-" then (true, rest) else (false, s)
    | [] => (false, [])
    end in
  match ds with
  | [] => Raise JSONDecodeError
  | d :: more =>
      if (forallb is_digit ds
          && (negb (Ascii.eqb d "0") || Nat.eqb (length more) 0))%bool
      then Ret (JInt (if neg then - digits_value ds else digits_value ds))
      else Raise JSONDecodeError
  end.

(** An element: one of the literals [null], [true], [false], or an
    integer. *)
Definition literal (s : list ascii) : outcome json :=
  let word := string_of_list_ascii s in
  if String.eqb word "null" then Ret JNull
  else if String.eqb word "true" then Ret (JBool true)
  else if String.eqb word "false" then Ret (JBool false)
  else int_literal s.

Fixpoint traverse (parts : list (list ascii)) : outcome (list json) :=
  match parts with
  | [] => Ret []
  | p :: rest =>
      v <- literal (strip p) ;;
      vs <- traverse rest ;;
      Ret (v :: vs)
  end.

Definition loads (content : string) : outcome (list json) :=
  match list_ascii_of_string content with
  | a :: rest =>
      match rev rest with
      | z :: inner_rev =>
          if (Ascii.eqb a "[" && Ascii.eqb z "]")%bool then
            match strip (rev inner_rev) with
            | [] => Ret []
            | inner => traverse (split_commas inner [])
            end
          else Raise JSONDecodeError
      | [] => Raise JSONDecodeError
      end
  | [] => Raise JSONDecodeError
  end.

End json_ints.

(** ** Vocabulary of the statements *)

Module cases.
Import CacheManager.

(** The ways in which the entry under a cache path can fail to hold a
    usable document: no file; a file that cannot be opened or decoded; a
    document without ['expires_at'], with one that is not an ISO-8601
    text, or without ['value']. *)
Inductive unusable {V : Type} : option (cache_file V) -> Prop :=
| no_file : unusable None
| unreadable_file : unusable (Some Unreadable)
| malformed_json : unusable (Some NotJSON)
| not_an_object : unusable (Some NotObject)
| no_expires_at v : unusable (Some (Object (Document v None)))
| bad_timestamp v : unusable (Some (Object (Document v (Some NotIso))))
| no_value e : unusable (Some (Object (Document None e))).

End cases.

Module ranking.
Import utils.

(** [if cached:] is false for [None] and for the empty list. *)
Definition falsy (cached : option (list Sermon)) : Prop :=
  cached = None \/ cached = Some [].

(** The cache lookup of [rank_sermons] yields nothing to return. *)
Definition cache_miss (e : env) (query : string) (user_id : Z) (w : world) : Prop :=
  falsy (fst (CacheManager.get (now_get e) (cache_key user_id query) (files w))).

(** The stripped response is delimited by square brackets. *)
Definition bracketed (content : string) : bool :=
  startswith "[" content && endswith "]" content.

Definition in_range (len : nat) (i : Z) : bool :=
  (0 <=? i) && (i <? Z.of_nat len).

(** The candidates named by the in-range indexes, in the order of the
    indexes. *)
Fixpoint picked (sermons : list Sermon) (idxs : list Z) : list Sermon :=
  match idxs with
  | [] => []
  | i :: rest =>
      if in_range (length sermons) i then
        match sermons !! Z.to_nat i with
        | Some s => s :: picked sermons rest
        | None => picked sermons rest
        end
      else picked sermons rest
  end.

(** An element of the decoded array on which the loop raises: [None], a
    [str], a list or a dict (they do not compare with [0]), and a [float]
    for which the guard holds (it is no subscript).  A [bool] is an
    integer. *)
Definition not_an_index (len : nat) (idx : json) : bool :=
  match idx with
  | JNull | JStr _ | JArr _ | JObj _ => true
  | JFloat x => ((0 <=? x)%float && (x <? float_of_nat len)%float)%bool
  | JInt _ | JBool _ => false
  end.

(** Keep the first candidate of each link that is not in [seen]. *)
Fixpoint dedup_from (seen : gset string) (l : list Sermon) : list Sermon :=
  match l with
  | [] => []
  | s :: rest =>
      if decide (message_link s ∈ seen) then dedup_from seen rest
      else s :: dedup_from ({[message_link s]} ∪ seen) rest
  end.

End ranking.

(** Concrete data for the examples. *)
Module sample.
Import CacheManager.

Definition files0 : gmap string (cache_file nat) := ∅.

(** An entry written at time 0, hence expiring 6 hours later. *)
Definition files1 : gmap string (cache_file nat) := set 0 "k" 7%nat files0.

Definition after_expiry : Z := hours 6 + 1.

(** A file the cache did not write. *)
Definition files_bad : gmap string (cache_file nat) :=
  <[cache_path "k" := NotJSON]> files0.

Definition sermon (t link : string) (score : float) : utils.Sermon :=
  {| utils.title := t; utils.description := "A teaching.";
     utils.message_link := link; utils.image_url := None;
     utils.channel := "@pst_tara"; utils.date := "2024-01-01";
     utils.theme := "Faith"; utils.similarity_score := score |}.

(** Three hits with scores 0.9, 0.5 and 0.8. *)
Definition c0 : utils.Sermon :=
  sermon "Faith that moves" "https://t.me/pst_tara/1" 0x1.ccccccccccccdp-1.
Definition c1 : utils.Sermon :=
  sermon "Weekly notice" "https://t.me/pst_tara/2" 0.5.
Definition c2 : utils.Sermon :=
  sermon "Trusting God" "https://t.me/pst_tara/3" 0x1.999999999999ap-1.
Definition candidates : list utils.Sermon := [c0; c1; c2].

(** A hit whose score is exactly the minimum, 0.7. *)
Definition c3 : utils.Sermon :=
  sermon "Grace" "https://t.me/pst_tara/4" 0x1.6666666666666p-1.
Definition candidates4 : list utils.Sermon := [c0; c1; c2; c3].

(** A second chunk of the document behind [c0]: same link, score 0.8. *)
Definition c0' : utils.Sermon :=
  sermon "Faith that moves" "https://t.me/pst_tara/1" 0x1.999999999999ap-1.

(** A hit of an earlier search that is not among [candidates]. *)
Definition old_hit : utils.Sermon :=
  sermon "On healing" "https://t.me/pst_tara/9" 0x1.ccccccccccccdp-1.

(** The start of the process: an empty cache directory, no call made. *)
Definition world0 : utils.world := utils.World ∅ 0 0.

(** The cache as [rank_sermons] left it at time 0 for user 42 and the
    query "faith", holding [v]. *)
Definition world_cached (v : list utils.Sermon) : utils.world :=
  utils.World (set 0 (utils.cache_key 42 "faith") v ∅) 1 1.

(** One call, at clock readings 100 and 200, with the given model reply. *)
Definition env_of (reply : outcome string) : utils.env := utils.Env reply 100 200.

(** Nine ranked sermons with distinct links, and a session that has
    shown the first five of them to user 42. *)
Definition numbered (n : Z) : utils.Sermon :=
  sermon "Sermon" ("https://t.me/pst_tara/" ++ str_of_int n)%string
         0x1.ccccccccccccdp-1.
Definition nine : list utils.Sermon := map numbered [1; 2; 3; 4; 5; 6; 7; 8; 9].
Definition sessions5 : gmap Z telegram_bot.Session :=
  {[ 42 := {| telegram_bot.sermons := nine; telegram_bot.index := 5 |} ]}.

(** Two scrapes of one Telegram message, the second with a new title. *)
Definition scrape (t : string) : db_handler.sermon_dict :=
  {[ "title" := Some t; "description" := Some "A teaching.";
     "channel" := Some "@pst_tara";
     "message_link" := Some "https://t.me/pst_tara/1";
     "image_url" := None; "date" := Some "2024-01-01";
     "theme" := Some "Faith" ]}.



End sample.

(** ** [db_handler.py]: the table over a run of calls *)

Module db_runs.
Import db_handler.

(** [_init_db]: [CREATE TABLE IF NOT EXISTS] keeps the table of an existing
    database file and creates an empty one otherwise. *)
Definition _init_db (existing : option Db) : Db :=
  match existing with
  | Some db => db
  | None => {| rows := []; sqlite_sequence := 0; write_locked := false |}
  end.

(** What happens to the database in a run: a call of [add_sermon], with
    its record and the value of CURRENT_TIMESTAMP at the call, or a run of
    the garbage collector. *)
Inductive call : Type :=
| Add (sermon_data : sermon_dict) (current_timestamp : string)
| Collect.

Definition after (db : Db) (c : call) : Db :=
  match c with
  | Add sermon_data current_timestamp =>
      snd (add_sermon sermon_data current_timestamp db)
  | Collect => collected db
  end.

(** A run of [add_sermon] calls, the collector running in between. *)
Definition add_all (calls : list call) (db : Db) : Db :=
  fold_left after calls db.

(** What SQLite maintains for the table: [message_link] is UNIQUE, [id] is
    a key that grows with the rowid order, and no [id] exceeds the
    AUTOINCREMENT high-water mark. *)
Definition consistent (db : Db) : Prop :=
  NoDup (message_link <$> rows db)
  /\ StronglySorted Z.lt (id <$> rows db)
  /\ Forall (fun r => 0 < id r <= sqlite_sequence db) (rows db).


End db_runs.

(** ** [telegram_bot.py], [utils.py]: a whole request *)

(** The [str] methods whose result depends on the Unicode tables of the
    Python runtime.  [int] is used on words for which [isdigit] holds, where
    it yields a natural number or raises ValueError (a digit such as a
    superscript is not a decimal). *)
Record str_methods : Type := {
  split : string -> list string;       (* [s.split()] *)
  isdigit : string -> bool;            (* [s.isdigit()] *)
  int : string -> outcome nat;         (* [int(s)] *)
  strip : string -> string;            (* [s.strip()] *)
  lower : string -> string;            (* [s.lower()] *)
  upper : string -> string             (* [s.upper()] *)
}.

Module bot_flow.
Import utils telegram_bot.

(** [sep.join(words)] *)
Fixpoint join (sep : string) (words : list string) : string :=
  match words with
  | [] => ""
  | [w] => w
  | w :: rest => (w ++ sep ++ join sep rest)%string
  end.

(** [ResponseGenerator.extract_intent]: the topic and the number of
    recommendations requested. *)
Definition extract_intent (m : str_methods) (message : string) : string * nat :=
  try_except
    (num <- match List.find (isdigit m) (split m message) with
            | Some word => n <- int m word ;; Ret (Nat.min n 20)
            | None => Ret config.DEFAULT_RECOMMENDATIONS
            end ;;
     Ret (message, num))
    (fun _ => (message, config.DEFAULT_RECOMMENDATIONS)).

(** The text of the pastoral response: what the model wrote, or the fixed
    blessing of the [except] branch. *)
Inductive response_text : Type :=
| Generated (content : string)
| DefaultBlessing.

(** [ResponseGenerator.generate_response], given the outcome of
    [llm.invoke(prompt)] followed by [response.content.strip()]. *)
Definition generate_response (reply : outcome string) : response_text :=
  try_except (content <- reply ;; Ret (Generated content)) (fun _ => DefaultBlessing).

(** What the bot sends while it handles a command or a text message. *)
Inductive Sent : Type :=
| TypingAction                    (* the "typing" chat action *)
| ProvideTopic                    (* "Please provide a topic!" *)
| NoMatchingSermons               (* "I couldn't find sermons matching that topic." *)
| NoRelevantSermons               (* "I couldn't find highly relevant sermons for that." *)
| AIResponse (text : response_text)
| Paging (r : Reply)              (* a message that [_handle_more] sends too *)
| WantMore.                       (* "Want more? Just say 'more' ..." *)

(** What the environment answers during one request: the vector store's
    search method, the answers to [rank_sermons], and the outcome of the
    model call of [generate_response]. *)
Record request : Type := Request {
  similarity_search_with_score : string -> Z -> outcome (list (Document * float));
  ranking : env;
  response_reply : outcome string
}.

(** The state of the bot process. *)
Record bot : Type := Bot {
  process : world;
  user_sessions : gmap Z Session
}.

Section WithDecoder.
Variable json_loads : string -> outcome (list json).

(** [_process_recommendation].  Sending is taken to succeed, so that the
    [except] branch of the function is not entered. *)
Definition _process_recommendation (rq : request) (user_id : Z)
    (topic : string) (num : nat) (st : bot) : list Sent * bot :=
  match search (similarity_search_with_score rq) topic config.TOP_K_SEARCH with
  | [] => ([TypingAction; NoMatchingSermons], st)
  | (_ :: _) as search_results =>
      let '(ranked_sermons, w1) :=
        rank_sermons json_loads (ranking rq) topic search_results user_id (process st) in
      match ranked_sermons with
      | [] => ([TypingAction; NoRelevantSermons], Bot w1 (user_sessions st))
      | _ :: _ =>
          let ai_response := generate_response (response_reply rq) in
          let w2 := World (files w1) (S (llm_calls w1)) (cache_sets w1) in
          ([TypingAction; AIResponse ai_response]
             ++ map Paging (_send_sermon_recommendations (take num ranked_sermons))
             ++ (if (num <? length ranked_sermons)%nat then [WantMore] else []),
           Bot w2 (<[user_id := {| sermons := ranked_sermons; index := num |}]>
                     (user_sessions st)))
      end
  end.

(** [recommend_command], after the framework has split the arguments:
    [None] when the usage message is sent.  A ValueError of [int] is not
    caught here. *)
Definition recommend_command (m : str_methods) (rq : request) (user_id : Z)
    (args : list string) (st : bot) : outcome (list Sent * bot) :=
  match last args with
  | None => Ret ([ProvideTopic], st)
  | Some w =>
      if isdigit m w then
        n <- int m w ;;
        Ret (_process_recommendation rq user_id (join " " (removelast args))
               (Nat.min n 20) st)
      else
        Ret (_process_recommendation rq user_id (join " " args)
               config.DEFAULT_RECOMMENDATIONS st)
  end.

Definition is_more_request (text : string) : bool :=
  existsb (String.eqb text) ["more"; "more sermons"; "show more"].

(** [handle_message] *)
Definition handle_message (m : str_methods) (rq : request) (user_id : Z)
    (text : string) (st : bot) : list Sent * bot :=
  let message_text := strip m text in
  if is_more_request (lower m message_text) then
    let '(replies, sessions') := _handle_more user_id (user_sessions st) in
    (map Paging replies, Bot (process st) sessions')
  else
    let '(topic, num) := extract_intent m message_text in
    _process_recommendation rq user_id topic num st.

End WithDecoder.

(** [k] "more" requests of one user in a row. *)
Fixpoint more_times (k : nat) (user_id : Z) (sessions : gmap Z Session)
  : list Reply * gmap Z Session :=
  match k with
  | O => ([], sessions)
  | S k' =>
      let '(replies, sessions1) := _handle_more user_id sessions in
      let '(later, sessions') := more_times k' user_id sessions1 in
      (replies ++ later, sessions')
  end.

(** The sermons among the messages sent. *)
Definition sermons_in (replies : list Reply) : list Sermon :=
  flat_map (fun r => match r with SermonMessage s => [s] | _ => [] end) replies.

Definition sermons_shown (sent : list Sent) : list Sermon :=
  flat_map (fun x => match x with Paging (SermonMessage s) => [s] | _ => [] end) sent.

End bot_flow.

(** The [str] methods on ASCII text, for the examples. *)
Module ascii_text.

Definition is_space (a : ascii) : bool :=
  let n := N_of_ascii a in
  ((N.leb 9 n && N.leb n 13) || (N.leb 28 n && N.leb n 32))%bool.

Fixpoint words (s : string) (cur : string) : list string :=
  let flush (rest : list string) :=
    match cur with EmptyString => rest | _ => String.rev cur :: rest end in
  match s with
  | EmptyString => flush []
  | String a rest =>
      if is_space a then flush (words rest EmptyString)
      else words rest (String a cur)
  end.

Definition all_digits (s : string) : bool :=
  match s with
  | EmptyString => false
  | _ => forallb json_ints.is_digit (list_ascii_of_string s)
  end.

Definition decimal (s : string) : outcome nat :=
  if all_digits s
  then Ret (Z.to_nat (json_ints.digits_value (list_ascii_of_string s)))
  else Raise ValueError.

Fixpoint lstrip (s : string) : string :=
  match s with
  | String a rest => if is_space a then lstrip rest else s
  | EmptyString => EmptyString
  end.

Definition to_lower (a : ascii) : ascii :=
  let n := N_of_ascii a in
  if (N.leb 65 n && N.leb n 90)%bool then ascii_of_N (n + 32) else a.

Fixpoint map_string (f : ascii -> ascii) (s : string) : string :=
  match s with
  | EmptyString => EmptyString
  | String a rest => String (f a) (map_string f rest)
  end.

Definition to_upper (a : ascii) : ascii :=
  let n := N_of_ascii a in
  if (N.leb 97 n && N.leb n 122)%bool then ascii_of_N (n - 32) else a.

Definition methods : str_methods :=
  {| split := fun s => words s EmptyString;
     isdigit := all_digits;
     int := decimal;
     strip := fun s => String.rev (lstrip (String.rev (lstrip s)));
     lower := map_string to_lower;
     upper := map_string to_upper |}.

End ascii_text.

(** ** [rag_ingest.py]: what counts as a teaching, and the metadata
    extracted without the model *)

(** A [str] is held as its UTF-8 bytes.  Its characters are counted, and
    cut, at the bytes that start a character (all but 10xxxxxx). *)
Module text.

Definition is_continuation (a : ascii) : bool :=
  let n := N_of_ascii a in (N.leb 128 n && N.leb n 191)%bool.

(** [len(s)] *)
Fixpoint len (s : string) : nat :=
  match s with
  | EmptyString => O
  | String a rest => if is_continuation a then len rest else S (len rest)
  end.

(** [s[:n]] *)
Fixpoint take (n : nat) (s : string) : string :=
  match s with
  | EmptyString => EmptyString
  | String a rest =>
      if is_continuation a then String a (take n rest)
      else match n with
           | O => EmptyString
           | S n' => String a (take n' rest)
           end
  end.

(** [needle in hay] *)
Fixpoint contains (needle hay : string) : bool :=
  if String.prefix needle hay then true
  else match hay with
       | EmptyString => false
       | String _ rest => contains needle rest
       end.

(** [s.split(sep)] for a one-character [sep] *)
Fixpoint split_on (sep : ascii) (s : string) : list string :=
  match s with
  | EmptyString => [EmptyString]
  | String a rest =>
      if Ascii.eqb a sep then EmptyString :: split_on sep rest
      else match split_on sep rest with
           | w :: ws => String a w :: ws
           | [] => [String a EmptyString]
           end
  end.

(** [s.replace(a, b)] for one-character [a] and [b] *)
Fixpoint replace (a b : ascii) (s : string) : string :=
  match s with
  | EmptyString => EmptyString
  | String c rest => String (if Ascii.eqb c a then b else c) (replace a b rest)
  end.

Definition newline : ascii := ascii_of_N 10.

(** [s[n:]] *)
Fixpoint drop_bytes (k : nat) (s : string) : string :=
  match k, s with
  | S k', String _ rest => drop_bytes k' rest
  | _, _ => s
  end.

Definition drop (n : nat) (s : string) : string :=
  drop_bytes (String.length (take n s)) s.

(** [s.split(sep)] for a non-empty [sep]: [skip] bytes of a separator
    just found are still to be passed, [cur] is the piece being read,
    backwards. *)
Fixpoint split_str_from (sep s : string) (skip : nat) (cur : string) : list string :=
  match s with
  | EmptyString => [String.rev cur]
  | String a rest =>
      match skip with
      | S skip' => split_str_from sep rest skip' cur
      | O =>
          if String.prefix sep s
          then String.rev cur :: split_str_from sep rest (String.length sep - 1) EmptyString
          else split_str_from sep rest O (String a cur)
      end
  end.

Definition split_str (sep s : string) : list string :=
  split_str_from sep s O EmptyString.

(** [s.rstrip(c)] for a one-character [c] *)
Fixpoint lstrip_char (c : ascii) (s : string) : string :=
  match s with
  | String a rest => if Ascii.eqb a c then lstrip_char c rest else s
  | EmptyString => EmptyString
  end.

Definition rstrip_char (c : ascii) (s : string) : string :=
  String.rev (lstrip_char c (String.rev s)).

(** [s.replace(c, '')] for a one-character [c] *)
Fixpoint remove_char (c : ascii) (s : string) : string :=
  match s with
  | EmptyString => EmptyString
  | String a rest =>
      if Ascii.eqb a c then remove_char c rest else String a (remove_char c rest)
  end.

End text.

Module rag_ingest.

Definition teaching_keywords : list string :=
  ["message"; "sermon"; "teaching"; "word"; "scripture";
   "bible"; "god"; "jesus"; "pastor"; "ministry"; "anointing";
   "faith"; "prayer"; "worship"; "spirit"; "church"; "kingdom";
   "testimony"; "revelation"; "prophetic"; "glory"; "grace"].

(** [sum(1 for keyword in teaching_keywords if keyword in text_lower)] *)
Definition keyword_count (text_lower : string) : nat :=
  length (List.filter (fun keyword => text.contains keyword text_lower) teaching_keywords).

(** [ChannelScraper._is_teaching]: the verdict, and the number of calls
    made to the model.  [reply] is the outcome of [llm.invoke(prompt)], the
    [content] of the response. *)
Definition _is_teaching (m : str_methods) (reply : outcome string) (message : string)
  : bool * nat :=
  if (text.len message <? 100)%nat then (false, O)
  else
    let text_lower := lower m message in
    let count := keyword_count text_lower in
    if (count <? 2)%nat then (false, O)
    else
      (try_except
         (content <- reply ;;
          Ret (text.contains "YES" (upper m (strip m content))))
         (fun _ => (2 <=? count)%nat),
       1%nat).

(** The dict [theme_keywords], in insertion order. *)
Definition theme_keywords : list (string * string) :=
  [("faith", "Faith"); ("healing", "Healing"); ("prosperity", "Prosperity");
   ("purpose", "Purpose"); ("prayer", "Prayer"); ("worship", "Worship");
   ("family", "Family"); ("business", "Business");
   ("breakthrough", "Breakthrough"); ("deliverance", "Deliverance");
   ("grace", "Grace"); ("love", "Love"); ("power", "Power");
   ("supernatural", "Supernatural")].

Definition nonempty (s : string) : bool :=
  match s with EmptyString => false | _ => true end.

(** [ChannelScraper._fallback_extract_metadata]: (title, description,
    theme). *)
Definition _fallback_extract_metadata (m : str_methods) (message : string)
  : string * string * string :=
  let lines :=
    map (strip m)
        (List.filter (fun line => nonempty (strip m line))
                     (text.split_on text.newline message)) in
  let title :=
    match lines with
    | [] => "Untitled Sermon"
    | first :: _ =>
        let title := text.take 200 first in
        if ((text.len title <? 20) && (50 <? text.len message))%nat then
          match text.split_on "." message with
          | sentence :: _ => text.take 200 sentence
          | [] => title
          end
        else title
    end in
  let description :=
    strip m (text.replace text.newline " " (text.take 500 message)) in
  let theme :=
    match List.find (fun kv => text.contains (fst kv) (lower m message)) theme_keywords with
    | Some kv => snd kv
    | None => "General"
    end in
  (title, description, theme).

(** A value that a slice of a decoded JSON value can be: a str or a
    list. *)
Inductive sliced : Type :=
| PStr (s : string)
| PList (l : list utils.json).

(** [len(v)] for such a value. *)
Definition sliced_len (v : sliced) : nat :=
  match v with
  | PStr s => text.len s
  | PList l => length l
  end.

(** What [_extract_metadata] can raise, in its [try] body and in its
    handlers. *)
Inductive metadata_error : Type :=
| Raised (e : exn)      (* raised by the model call or by [json.loads] *)
| AttributeError        (* the decoded value is no dict: it has no [get] *)
| NotSubscriptable      (* [TypeError]: the value cannot be sliced *)
| UnboundLocalError.    (* [content] is read before it is bound *)

Definition attempt (A : Type) : Type := metadata_error + A.

Definition and_then {A B : Type} (x : attempt A) (k : A -> attempt B) : attempt B :=
  match x with
  | inl e => inl e
  | inr a => k a
  end.

Definition of_outcome {A : Type} (x : outcome A) : attempt A :=
  match x with
  | Ret a => inr a
  | Raise e => inl (Raised e)
  end.

(** [v[:n]] for a decoded JSON value [v]: a str and a list can be sliced,
    the other types raise. *)
Definition slice_json (n : nat) (v : utils.json) : attempt sliced :=
  match v with
  | utils.JStr s => inr (PStr (text.take n s))
  | utils.JArr l => inr (PList (List.firstn n l))
  | utils.JNull | utils.JBool _ | utils.JInt _ | utils.JFloat _ | utils.JObj _ =>
      inl NotSubscriptable
  end.

(** [metadata.get(key, default)]: a decoded object is a dict, given by its
    items; the other JSON types have no [get]. *)
Definition json_get (metadata : utils.json) (key : string) (default : utils.json)
  : attempt utils.json :=
  match metadata with
  | utils.JObj items =>
      inr (match List.find (fun kv => String.eqb (fst kv) key) items with
           | Some kv => snd kv
           | None => default
           end)
  | _ => inl AttributeError
  end.

(** The clean-up of the model's answer before it is decoded: a Markdown
    code fence and trailing backticks are removed. *)
Definition unfence (m : str_methods) (content : string) : string :=
  let content :=
    if String.prefix "```" content then
      let content := nth 1 (text.split_str "```" content) EmptyString in
      let content := if String.prefix "json" content then text.drop 4 content
                     else content in
      strip m content
    else content in
  strip m (text.rstrip_char "`" content).

Section WithJson.
(** [json.loads] on any text. *)
Variable json_loads : string -> outcome utils.json.

(** The [try] body of [_extract_metadata]; [reply] is the outcome of
    [llm.invoke(prompt)], the [content] of the response. *)
Definition extract_metadata_try (m : str_methods) (reply : outcome string)
    (message : string) : attempt (sliced * sliced * sliced) :=
  and_then (of_outcome reply) (fun content =>
  let content := strip m content in
  and_then (of_outcome (json_loads (unfence m content))) (fun metadata =>
  and_then (json_get metadata "title" (utils.JStr "Untitled Sermon")) (fun t =>
  and_then (slice_json 200 t) (fun title =>
  and_then (json_get metadata "description" (utils.JStr (text.take 500 message))) (fun d =>
  and_then (slice_json 1000 d) (fun description =>
  and_then (json_get metadata "theme" (utils.JStr "General")) (fun th =>
  and_then (slice_json 50 th) (fun theme =>
  inr (title, description, theme))))))))).

(** [ChannelScraper._extract_metadata].  The handler of JSONDecodeError
    logs [content[:200]] before it returns what
    [_fallback_extract_metadata] gives; [content] is bound once the model
    call has returned, so when the call itself raised JSONDecodeError the
    handler raises UnboundLocalError, which leaves the function.  The
    handler of the other exceptions returns the fallback. *)
Definition _extract_metadata (m : str_methods) (reply : outcome string)
    (message : string) : attempt (sliced * sliced * sliced) :=
  let fallback :=
    let '(title, description, theme) := _fallback_extract_metadata m message in
    (PStr title, PStr description, PStr theme) in
  match extract_metadata_try m reply message with
  | inr r => inr r
  | inl (Raised JSONDecodeError) =>
      match reply with
      | Ret _ => inr fallback
      | Raise _ => inl UnboundLocalError
      end
  | inl _ => inr fallback
  end.

(** A channel message, as far as the scraper reads it, with what the model
    answers when it is asked about it. *)
Record message : Type := {
  msg_id : Z;
  msg_text : option string;            (* [message.text], [None] for media only *)
  msg_photo : bool;                    (* [isinstance(message.media, MessageMediaPhoto)] *)
  msg_date : option string;            (* [message.date.strftime("%Y-%m-%d")] *)
  teaching_reply : outcome string;     (* the model's answer in [_is_teaching] *)
  metadata_reply : outcome string;     (* the model's answer in [_extract_metadata] *)
  stored_at : string                   (* CURRENT_TIMESTAMP when it is stored *)
}.

(** The dict that [_extract_sermon_data] returns. *)
Record sermon_data : Type := {
  sd_title : sliced;
  sd_description : sliced;
  sd_channel : string;
  sd_message_link : string;
  sd_image_url : option string;
  sd_date : option string;
  sd_theme : sliced
}.

Definition message_link_of (channel_username : string) (msg : message) : string :=
  ("https://t.me/" ++ text.remove_char "@" channel_username ++ "/"
     ++ str_of_int (msg_id msg))%string.

(** [ChannelScraper._extract_sermon_data], for a message with text: the
    dict; or [None] for a message whose link is stored already, and when
    [_extract_metadata] raises ([except Exception: return None]); and the
    number of calls made to the model. *)
Definition _extract_sermon_data (m : str_methods) (db : db_handler.Db)
    (channel_username : string) (msg : message) (message_text : string)
  : option sermon_data * nat :=
  let message_link := message_link_of channel_username msg in
  match db_handler.get_sermon_by_link db message_link with
  | Some _ => (None, O)
  | None =>
      let image_url := if msg_photo msg then Some message_link else None in
      match _extract_metadata m (metadata_reply msg) message_text with
      | inr (title, description, theme) =>
          (Some {| sd_title := title; sd_description := description;
                   sd_channel := channel_username; sd_message_link := message_link;
                   sd_image_url := image_url; sd_date := msg_date msg;
                   sd_theme := theme |}, 1%nat)
      | inl _ => (None, 1%nat)
      end
  end.

(** [self.db.add_sermon(sermon_data)] for such a dict.  SQLite binds a str
    and [None]; a list makes [execute] raise before the statement runs,
    which [add_sermon] catches like any other exception; no lock is taken
    then. *)
Definition add_scraped (d : sermon_data) (current_timestamp : string)
    (db : db_handler.Db) : option Z * db_handler.Db :=
  match sd_title d, sd_description d, sd_theme d with
  | PStr t, PStr de, PStr th =>
      db_handler.add_sermon
        (<["title" := Some t]> (<["description" := Some de]>
         (<["channel" := Some (sd_channel d)]>
          (<["message_link" := Some (sd_message_link d)]>
           (<["image_url" := sd_image_url d]> (<["date" := sd_date d]>
            (<["theme" := Some th]> ∅)))))))
        current_timestamp db
  | _, _, _ => (None, db)
  end.

(** The row that a scraped dict with str values becomes. *)
Definition scraped_row (d : sermon_data) (t de th : string) (ts : string) (rowid : Z)
  : db_handler.Row :=
  {| db_handler.id := rowid; db_handler.title := t; db_handler.description := de;
     db_handler.channel := sd_channel d;
     db_handler.message_link := sd_message_link d;
     db_handler.image_url := sd_image_url d; db_handler.date := sd_date d;
     db_handler.theme := Some th; db_handler.created_at := ts;
     db_handler.updated_at := ts |}.

(** What the loop of [scrape_channel] has done so far: the table, the list
    [sermons], and the calls made to the model for classification and for
    metadata. *)
Record scrape : Type := Scrape {
  table : db_handler.Db;
  sermons : list sermon_data;
  teaching_calls : nat;
  metadata_calls : nat
}.

(** The body of the loop of [scrape_channel] for one message. *)
Definition scrape_message (m : str_methods) (channel_username : string)
    (st : scrape) (msg : message) : scrape :=
  match msg_text msg with
  | None | Some EmptyString => st
  | Some message_text =>
      let '(teaching, calls) := _is_teaching m (teaching_reply msg) message_text in
      let teaching_calls := (teaching_calls st + calls)%nat in
      if teaching then
        let '(data, calls) :=
          _extract_sermon_data m (table st) channel_username msg message_text in
        let metadata_calls := (metadata_calls st + calls)%nat in
        match data with
        | None => Scrape (table st) (sermons st) teaching_calls metadata_calls
        | Some d =>
            Scrape (snd (add_scraped d (stored_at msg) (table st)))
                   (sermons st ++ [d]) teaching_calls metadata_calls
        end
      else Scrape (table st) (sermons st) teaching_calls (metadata_calls st)
  end.

(** What happens while [scrape_channel] iterates: the channel yields a
    message, or the garbage collector runs. *)
Inductive event : Type :=
| Yields (msg : message)
| Collects.

Definition scrape_event (m : str_methods) (channel_username : string)
    (st : scrape) (ev : event) : scrape :=
  match ev with
  | Yields msg => scrape_message m channel_username st msg
  | Collects =>
      Scrape (db_handler.collected (table st)) (sermons st)
             (teaching_calls st) (metadata_calls st)
  end.

(** The events up to the end of the iteration, which yields at most
    [limit] messages. *)
Fixpoint read (limit : nat) (events : list event) : list event :=
  match events with
  | [] => []
  | Collects :: rest => Collects :: read limit rest
  | Yields msg :: rest =>
      match limit with
      | O => []
      | S limit' => Yields msg :: read limit' rest
      end
  end.

(** The messages among the events. *)
Fixpoint messages_of (events : list event) : list message :=
  match events with
  | [] => []
  | Yields msg :: rest => msg :: messages_of rest
  | Collects :: rest => messages_of rest
  end.

(** [ChannelScraper.scrape_channel]: [events] is what happens while
    [iter_messages(channel)] is consumed, without a limit, and [failure]
    says whether the iteration ends with an exception; the returned list is
    empty then, while the table keeps what was stored. *)
Definition scrape_channel (m : str_methods) (channel_username : string)
    (limit : nat) (events : list event) (failure : bool)
    (db : db_handler.Db) : list sermon_data * scrape :=
  let st := fold_left (scrape_event m channel_username)
                      (read limit events) (Scrape db [] O O) in
  (if failure then [] else sermons st, st).

End WithJson.

End rag_ingest.

(** ** [fix_vector_store.py]: from rows to documents, in batches *)

Module fix_vector_store.
Import db_handler.

(** [v or ''] *)
Definition or_empty (v : option string) : string :=
  match v with
  | Some s => s
  | None => ""
  end.

(** The [Document] built for a row; only its metadata is kept here. *)
Definition document_of (sermon : Row) : utils.Document :=
  {| utils.metadata :=
       {[ "title" := title sermon;
          "description" := description sermon;
          "channel" := channel sermon;
          "message_link" := message_link sermon;
          "image_url" := or_empty (image_url sermon);
          "date" := or_empty (date sermon);
          "theme" := or_empty (theme sermon) ]} |}.

Definition batch_size : nat := 50.

(** [range(0, n, step)] *)
Definition range_step (n step : nat) : list nat :=
  map (fun j => (j * step)%nat) (seq 0 ((n + step - 1) / step)).

(** The batches passed to [rag_engine.add_documents], one per turn of the
    loop. *)
Definition batches {A : Type} (documents : list A) : list (list A) :=
  map (fun i => slice documents i (i + batch_size))
      (range_step (length documents) batch_size).

End fix_vector_store.

(** ** [main.py]: the start of the bot *)

Module main.

(** How one turn of the retry loop ends: [run_polling] returned; TimedOut
    or NetworkError was raised; KeyboardInterrupt; any other exception. *)
Inductive attempt_result : Type :=
| PollingReturned
| NetworkFailure
| Interrupted
| OtherError.

Inductive ending : Type :=
| Returned
| SysExit (code : nat).

Definition max_retries : nat := 5.

(** The [while] loop from the state [retry_count], having slept [sleeps]:
    how [main] ends, the number of attempts made, and the sleeps in
    seconds.  [attempt i] is the result of the attempt made when
    [retry_count = i]. *)
Fixpoint retry_loop (fuel : nat) (attempt : nat -> attempt_result)
    (retry_count : nat) (sleeps : list nat) : ending * nat * list nat :=
  match fuel with
  | O => (Returned, retry_count, sleeps)
  | S fuel' =>
      if (retry_count <? max_retries)%nat then
        match attempt retry_count with
        | PollingReturned | Interrupted => (Returned, S retry_count, sleeps)
        | NetworkFailure =>
            let retry_count' := S retry_count in
            if (retry_count' <? max_retries)%nat
            then retry_loop fuel' attempt retry_count' (sleeps ++ [(retry_count' * 5)%nat])
            else (SysExit 1, retry_count', sleeps)
        | OtherError => (SysExit 1, S retry_count, sleeps)
        end
      else (Returned, retry_count, sleeps)
  end.

(** [not v] for an environment value: unset or empty. *)
Definition missing (v : option string) : bool :=
  match v with
  | None | Some EmptyString => true
  | Some _ => false
  end.

(** [main].  The loop runs at most [max_retries] times, which is the fuel
    it is given. *)
Definition main (TELEGRAM_TOKEN OPENAI_API_KEY : option string)
    (attempt : nat -> attempt_result) : ending * nat * list nat :=
  if missing TELEGRAM_TOKEN then (SysExit 1, O, [])
  else if missing OPENAI_API_KEY then (SysExit 1, O, [])
  else retry_loop max_retries attempt 0 [].

End main.

(** More concrete data for the examples. *)
Module sample_runs.
Import utils.

(** A record that binds [None] to the title. *)
Definition untitled : db_handler.sermon_dict :=
  <["title" := None]> (sample.scrape "Faith").

(** The table after one scrape. *)
Definition db1 : db_handler.Db :=
  snd (db_handler.add_sermon (sample.scrape "Faith") "2024-01-01 00:00:00"
         (db_runs._init_db None)).

(** A vector store that is down, and one that returns two documents. *)
Definition down_store (query : string) (k : Z) : outcome (list (Document * float)) :=
  Raise RuntimeError.

Definition doc (t link : string) : Document :=
  {| metadata := {[ "title" := t; "message_link" := link ]} |}.

Definition two_docs (query : string) (k : Z) : outcome (list (Document * float)) :=
  Ret [(doc "Faith that moves" "https://t.me/pst_tara/1", 0.125%float);
       (doc "Trusting God" "https://t.me/pst_tara/3", 0.25%float)].

(** A request served by [two_docs], in which the model ranks the second
    hit first and then writes a response. *)
Definition request2 : bot_flow.request :=
  bot_flow.Request two_docs (sample.env_of (Ret "[1, 0]")) (Ret "Be strong.").

Definition bot0 : bot_flow.bot := bot_flow.Bot sample.world0 ∅.

Definition hits2 : list Sermon := search two_docs "faith" config.TOP_K_SEARCH.

End sample_runs.

(** Four messages of a channel, newest first, for the examples of
    scraping. *)
Module sample_scrape.
Import rag_ingest.

Definition teaching_text : string :=
  "Pastor Tara shares a teaching on faith and prayer: how to keep trusting God when the answer is slow to come, from the book of James.".

Definition notice_text : string :=
  "Service times this Sunday: 8am and 10am. Come early, bring a friend, parking is available behind the main hall as usual.".

Definition fenced_empty_object : string :=
  ("```json" ++ String text.newline "{}" ++ String text.newline "```")%string.

(** On the two texts that the examples decode, [decoder] gives what
    [json.loads] gives: the empty object for its literal, and
    JSONDecodeError for a sentence. *)
Definition decoder (content : string) : outcome utils.json :=
  if String.eqb content "{}" then Ret (utils.JObj []) else Raise JSONDecodeError.

(** A teaching with a photo; the model says yes, and answers the metadata
    request with an empty object in a code fence. *)
Definition msg42 : message :=
  {| msg_id := 42; msg_text := Some teaching_text; msg_photo := true;
     msg_date := Some "2024-03-10"; teaching_reply := Ret "Yes.";
     metadata_reply := Ret fenced_empty_object;
     stored_at := "2024-03-11 06:00:00" |}.

(** A notice without any of the keywords. *)
Definition msg43 : message :=
  {| msg_id := 43; msg_text := Some notice_text; msg_photo := false;
     msg_date := Some "2024-03-12"; teaching_reply := Ret "NO";
     metadata_reply := Ret "{}"; stored_at := "2024-03-13 06:00:00" |}.

(** A teaching for which the classification call fails and the metadata
    answer is not JSON. *)
Definition msg44 : message :=
  {| msg_id := 44; msg_text := Some teaching_text; msg_photo := false;
     msg_date := None; teaching_reply := Raise RuntimeError;
     metadata_reply := Ret "I cannot tell"; stored_at := "2024-03-13 06:00:01" |}.

(** Message 42 again, as a later run sees it. *)
Definition msg42_again : message :=
  {| msg_id := 42; msg_text := Some teaching_text; msg_photo := true;
     msg_date := Some "2024-03-10"; teaching_reply := Ret "YES";
     metadata_reply := Ret "{}"; stored_at := "2024-03-14 06:00:00" |}.

Definition start : scrape := Scrape (db_runs._init_db None) [] O O.

(** A teaching for which the metadata call raises JSONDecodeError. *)
Definition msg45 : message :=
  {| msg_id := 45; msg_text := Some teaching_text; msg_photo := false;
     msg_date := None; teaching_reply := Ret "YES";
     metadata_reply := Raise JSONDecodeError; stored_at := "2024-03-13 06:00:02" |}.

Definition run : list sermon_data * scrape :=
  scrape_channel decoder ascii_text.methods "@pst_tara" 500
    [Yields msg42; Yields msg43; Collects; Yields msg44; Yields msg45;
     Yields msg42_again]
    false (db_runs._init_db None).

End sample_scrape.

(** * Properties *)

(** ** Sanity checks of the embedding *)

Example md5_empty : MD5.hexdigest "" = "d41d8cd98f00b204e9800998ecf8427e".
Proof. vm_compute. reflexivity. Qed.

Example md5_faith : MD5.hexdigest "faith" = "ecee7df9bbac50b9b428483bfea1dd7c".
Proof. vm_compute. reflexivity. Qed.

Example md5_two_blocks :
  MD5.hexdigest "aaaaaaaaaaaaaaaaaaaaaaaaaaaaaaaaaaaaaaaaaaaaaaaaaaaaaaaaaaaaaaaaaaaaaa"
  = "0f5c6c4e740bfcc08c3c26ccb2673d46".
Proof. vm_compute. reflexivity. Qed.

Example cache_key_example :
  utils.cache_key 42 "faith" = "rank_42_ecee7df9bbac50b9b428483bfea1dd7c".
Proof. vm_compute. reflexivity. Qed.

Example cache_path_example :
  CacheManager.cache_path "rank_42_x" = "cache/rank_42_x.json".
Proof. vm_compute. reflexivity. Qed.

Example loads_example :
  json_ints.loads "[3, 0, 7, 1]" = Ret [utils.JInt 3; utils.JInt 0; utils.JInt 7; utils.JInt 1]
  /\ json_ints.loads "[]" = Ret []
  /\ json_ints.loads "[oops]" = Raise JSONDecodeError
  /\ json_ints.loads "[1,,2]" = Raise JSONDecodeError.
Proof. vm_compute. repeat split; reflexivity. Qed.

(** The guard and the subscript of the re-ordering loop on the JSON types:
    an out-of-range integer is skipped, [true] reads position 1, an
    out-of-range float is skipped, an in-range float and [null] raise. *)
Example guarded_index_examples :
  utils.guarded_index 3 (utils.JInt 7) = Ret None
  /\ utils.guarded_index 3 (utils.JInt (-1)) = Ret None
  /\ utils.guarded_index 3 (utils.JInt 2) = Ret (Some 2%nat)
  /\ utils.guarded_index 3 (utils.JBool true) = Ret (Some 1%nat)
  /\ utils.guarded_index 3 (utils.JFloat 7.5) = Ret None
  /\ utils.guarded_index 3 (utils.JFloat 1.5) = Raise TypeError
  /\ utils.guarded_index 3 utils.JNull = Raise TypeError.
Proof. repeat split; vm_compute; reflexivity. Qed.

Example reorder_examples :
  utils.reorder sample.candidates [utils.JInt 2; utils.JInt 0; utils.JInt 2; utils.JInt 7] [] ∅
  = Ret [sample.c2; sample.c0]
  /\ utils.reorder sample.candidates [utils.JInt 0; utils.JNull] [] ∅ = Raise TypeError
  /\ utils.reorder [sample.c0; sample.c0'; sample.c2]
       [utils.JInt 1; utils.JInt 0; utils.JInt 2] [] ∅
     = Ret [sample.c0'; sample.c2].
Proof. repeat split; vm_compute; reflexivity. Qed.

(** ** [CacheManager] *)

Section CacheFacts.
Import CacheManager.
Context {V : Type}.
Implicit Types (files : gmap string (cache_file V)) (key : string) (now : Z).

Ltac run_get :=
  cbv [get_try json_load getitem_expires_at getitem_value fromisoformat
       now_gt Py.bind try_except doc_value doc_expires_at]; cbn [fst snd].

(** An exception raised inside the [try] of [get] is absorbed: the caller
    sees [None] and the files are untouched. *)
Lemma get_absorbs now key files f e :
  files !! cache_path key = Some f ->
  get_try now (cache_path key) f files = Raise e ->
  get now key files = (None, files).
Proof.
  intros Hf Hraise. unfold get. rewrite Hf, Hraise. reflexivity.
Qed.

(** [get] touches no path but its own, and there it can only delete. *)
Lemma get_files now key files :
  snd (get now key files) = files
  \/ snd (get now key files) = delete (cache_path key) files.
Proof.
  unfold get. destruct (files !! cache_path key) as [f|]; [|by left].
  destruct f as [| | |[v e]]; run_get; try (by left).
  destruct e as [[|[t|t o]]|]; try (by left).
  destruct (t <? now); [by right|].
  destruct v; by left.
Qed.

Lemma get_missing now key files :
  files !! cache_path key = None -> get now key files = (None, files).
Proof. intros H. unfold get. by rewrite H. Qed.

(** A live entry is returned and nothing changes. *)
Lemma get_live now key files v t :
  files !! cache_path key = Some (Object (Document (Some v) (Some (Iso (Naive t))))) ->
  now <= t ->
  get now key files = (Some v, files).
Proof.
  intros H Hle. unfold get. rewrite H. run_get.
  destruct (t <? now) eqn:E; [apply Z.ltb_lt in E; lia | reflexivity].
Qed.

(** What [get] returns came from a document under the key's path. *)
Lemma get_Some now key files v files' :
  get now key files = (Some v, files') ->
  files' = files /\ exists e, files !! cache_path key = Some (Object (Document (Some v) e)).
Proof.
  unfold get. destruct (files !! cache_path key) as [f|]; [|discriminate].
  destruct f as [| | |[v0 e]]; run_get; try discriminate.
  destruct e as [[|[t|t o]]|]; try discriminate.
  destruct (t <? now); [discriminate|].
  destruct v0; [|discriminate].
  intros [= -> ->]. eauto.
Qed.

(** Reading back what [set] wrote, within the time to live. *)
Lemma get_set now now' key files v :
  now' <= now + hours config.CACHE_DURATION_HOURS ->
  get now' key (set now key v files) = (Some v, set now key v files).
Proof.
  intros H. eapply get_live; [|exact H].
  unfold set. apply lookup_insert_eq.
Qed.

(** C6: an entry whose expiry timestamp is earlier than the current time
    reads as absent, the read removes its file, and a later read of the
    same key, with no write in between, is absent again. *)
Theorem get_expired_evicts now now' key files v t :
  files !! cache_path key = Some (Object (Document v (Some (Iso (Naive t))))) ->
  t < now ->
  let files' := snd (get now key files) in
  fst (get now key files) = None
  /\ files' = delete (cache_path key) files
  /\ files' !! cache_path key = None
  /\ get now' key files' = (None, files').
Proof.
  intros H Hlt. unfold get. rewrite H. run_get.
  assert (E : (t <? now) = true) by (apply Z.ltb_lt; exact Hlt).
  rewrite E. cbn [fst snd]. rewrite lookup_delete_eq. auto.
Qed.

(** C10: whatever is wrong with the file behind a key (it is missing, it
    cannot be opened, it is not JSON, it lacks ['expires_at'] or ['value'],
    its timestamp does not parse), [get] returns [None], leaving the files
    as they were or without the entry; and whatever exception the body of
    its [try] raises, [get] does not pass it on but returns [None]. *)
Theorem get_unusable_is_absent now key files :
  cases.unusable (files !! cache_path key) ->
  (exists files',
      get now key files = (None, files')
      /\ (files' = files \/ files' = delete (cache_path key) files))
  /\ (forall f e, files !! cache_path key = Some f ->
        get_try now (cache_path key) f files = Raise e ->
        get now key files = (None, files)).
Proof.
  intros H. split; [|intros f e; apply get_absorbs].
  unfold get.
  destruct (files !! cache_path key) as [f|] eqn:Hf; inversion H; subst; run_get;
    try (by eexists; split; [reflexivity|left]).
  destruct e as [[|[t|t o]]|];
    try (by eexists; split; [reflexivity|left]).
  destruct (t <? now); eexists; split; try reflexivity; auto.
Qed.

End CacheFacts.

Lemma get_expired_evicts_witness :
  fst (CacheManager.get sample.after_expiry "k" sample.files1) = None
  /\ snd (CacheManager.get sample.after_expiry "k" sample.files1) !! "cache/k.json" = None.
Proof.
  pose proof (get_expired_evicts (V := nat) sample.after_expiry sample.after_expiry
                "k" sample.files1 (Some 7%nat) (CacheManager.hours 6)) as H.
  simpl in H.
  destruct H as (H1 & _ & H3 & _); [reflexivity | reflexivity |].
  split; [exact H1 | exact H3].
Defined.

Lemma get_unusable_is_absent_witness :
  fst (CacheManager.get 0 "k" sample.files_bad) = None.
Proof.
  destruct (get_unusable_is_absent (V := nat) 0 "k" sample.files_bad)
    as ((fs & Hget & _) & _).
  - replace (sample.files_bad !! CacheManager.cache_path "k")
      with (Some (@CacheManager.NotJSON nat)) by reflexivity.
    constructor.
  - rewrite Hget. reflexivity.
Defined.

(** ** [RecommendationEngine.rank_sermons] *)

Section RankFacts.
Import utils ranking.
Variable json_loads : string -> outcome (list json).
Implicit Types (sermons acc : list Sermon) (seen : gset string).

(** The loop keeps what it has emitted, emits candidates only, and never
    emits a link twice. *)
Lemma reorder_invariant sermons idxs : forall acc seen out,
  reorder sermons idxs acc seen = Ret out ->
  (forall s, s ∈ acc -> s ∈ sermons) ->
  NoDup (message_link <$> acc) ->
  (forall s, s ∈ acc -> message_link s ∈ seen) ->
  (forall s, s ∈ out -> s ∈ sermons) /\ NoDup (message_link <$> out).
Proof.
  induction idxs as [|idx rest IH]; intros acc seen out Hrun Hin Hnd Hseen.
  - cbn in Hrun. injection Hrun as <-. auto.
  - cbn [reorder] in Hrun.
    destruct (guarded_index (length sermons) idx) as [[i|]|x]; cbn [Py.bind] in Hrun;
      [ | eauto | discriminate ].
    destruct (sermons !! i) as [s|] eqn:Hs; [|discriminate].
    destruct (decide (message_link s ∈ seen)) as [Hdup|Hnew]; [eauto|].
    eapply IH; [exact Hrun | | | ].
    + intros s' [H'|H']%elem_of_app; [auto|].
      apply list_elem_of_singleton in H'. subst s'.
      eapply list_elem_of_lookup_2; eauto.
    + rewrite fmap_app. apply NoDup_app. split; [exact Hnd|]. split.
      * intros l (s' & -> & Hs')%list_elem_of_fmap Hl.
        apply list_elem_of_singleton in Hl. apply Hnew. rewrite <- Hl. auto.
      * apply NoDup_singleton.
    + intros s' [H'|H']%elem_of_app; apply elem_of_union.
      * right. auto.
      * left. apply list_elem_of_singleton in H'. subst s'.
        by apply elem_of_singleton.
Qed.

(** On an array of integers the loop never raises: it yields the
    candidates at the in-range indexes, first occurrence of each link. *)
Lemma reorder_ints sermons idxs : forall acc seen,
  reorder sermons (map JInt idxs) acc seen
  = Ret (acc ++ dedup_from seen (picked sermons idxs)).
Proof.
  induction idxs as [|i rest IH]; intros acc seen.
  - cbn. by rewrite app_nil_r.
  - cbn [map reorder guarded_index Py.bind picked].
    fold (in_range (length sermons) i).
    destruct (in_range (length sermons) i) eqn:Hr; [|apply IH].
    destruct (sermons !! Z.to_nat i) as [s|] eqn:Hs.
    + cbn [dedup_from].
      destruct (decide (message_link s ∈ seen)); [apply IH|].
      rewrite IH, <- app_assoc. reflexivity.
    + exfalso. apply lookup_ge_None in Hs.
      unfold in_range in Hr. apply andb_true_iff in Hr as [H0 H1].
      apply Z.leb_le in H0. apply Z.ltb_lt in H1. lia.
Qed.

Lemma picked_seq sermons : forall k a,
  (a + k <= length sermons)%nat ->
  picked sermons (map Z.of_nat (seq a k)) = take k (drop a sermons).
Proof.
  induction k as [|k IH]; intros a Hle; [reflexivity|].
  cbn [seq map picked].
  assert (Hr : in_range (length sermons) (Z.of_nat a) = true).
  { unfold in_range. apply andb_true_iff. split; [apply Z.leb_le|apply Z.ltb_lt]; lia. }
  rewrite Hr, Nat2Z.id, IH by lia.
  destruct (lookup_lt_is_Some_2 sermons a) as [s Hs]; [lia|].
  rewrite Hs. rewrite (drop_S _ _ _ Hs). reflexivity.
Qed.

Lemma original_order_ints sermons :
  original_order sermons
  = map JInt (map Z.of_nat (seq 0 (Nat.min 10 (length sermons)))).
Proof. unfold original_order. by rewrite map_map. Qed.

(** The model answered and the loop completed: with a response that is
    not bracket-delimited, on the first ten candidates; with an array of
    integers, on the candidates it names. *)
Lemma rank_try_unbracketed sermons content :
  bracketed content = false ->
  rank_try json_loads sermons (Ret content)
  = Ret (dedup_from ∅ (take 10 sermons)).
Proof.
  intros Hb. unfold rank_try. cbn [Py.bind]. fold (bracketed content). rewrite Hb.
  cbn [Py.bind]. rewrite original_order_ints, reorder_ints.
  rewrite picked_seq by (pose proof (Nat.le_min_r 10 (length sermons)); lia).
  cbn [app]. rewrite drop_0. f_equal. f_equal.
  destruct (Nat.le_ge_cases 10 (length sermons)) as [H|H].
  - by rewrite Nat.min_l.
  - rewrite Nat.min_r by exact H. by rewrite !take_ge by lia.
Qed.

Lemma rank_try_ints sermons content idxs :
  bracketed content = true ->
  json_loads content = Ret (map JInt idxs) ->
  rank_try json_loads sermons (Ret content)
  = Ret (dedup_from ∅ (picked sermons idxs)).
Proof.
  intros Hb Hl. unfold rank_try. cbn [Py.bind]. fold (bracketed content).
  rewrite Hb, Hl. cbn [Py.bind]. by rewrite reorder_ints.
Qed.

(** The three ways in which the [try] block of [rank_sermons] raises. *)
Lemma rank_try_raises sermons reply :
  raises (rank_try json_loads sermons reply) <->
  raises reply
  \/ exists content, reply = Ret content /\ bracketed content = true
       /\ (raises (json_loads content)
           \/ exists idxs, json_loads content = Ret idxs
                /\ raises (reorder sermons idxs [] ∅)).
Proof.
  unfold rank_try, raises. split.
  - intros [x Hx]. destruct reply as [content|y]; [|left; eauto].
    right. exists content. cbn [Py.bind] in Hx. fold (bracketed content) in Hx.
    destruct (bracketed content) eqn:Hb.
    + split; [reflexivity|]. split; [reflexivity|].
      destruct (json_loads content) as [idxs|y]; [|left; eauto].
      right. exists idxs. eauto.
    + cbn [Py.bind] in Hx.
      rewrite original_order_ints, reorder_ints in Hx. discriminate.
  - intros [[x ->]|(content & -> & Hb & H)]; [cbn; eauto|].
    cbn [Py.bind]. fold (bracketed content). rewrite Hb.
    destruct H as [[x ->]|(idxs & -> & x & Hx)]; cbn [Py.bind]; eauto.
Qed.

(** [rank_sermons] past the cache lookup. *)
Lemma rank_sermons_miss e query sermons user_id w :
  sermons <> [] ->
  cache_miss e query user_id w ->
  let key := cache_key user_id query in
  let files1 := snd (CacheManager.get (now_get e) key (files w)) in
  rank_sermons json_loads e query sermons user_id w
  = match rank_try json_loads sermons (llm_reply e) with
    | Ret ranked =>
        (ranked, World (CacheManager.set (now_set e) key ranked files1)
                       (S (llm_calls w)) (S (cache_sets w)))
    | Raise _ => (fallback sermons, World files1 (S (llm_calls w)) (cache_sets w))
    end.
Proof.
  intros Hne Hmiss. unfold rank_sermons, cache_miss in *.
  destruct sermons as [|s0 rest]; [congruence|].
  destruct (CacheManager.get (now_get e) (cache_key user_id query) (files w))
    as [cached files1] eqn:Hget.
  cbn [fst snd] in *.
  destruct Hmiss as [-> | ->]; reflexivity.
Qed.

Lemma rank_sermons_raise e query sermons user_id w :
  sermons <> [] ->
  cache_miss e query user_id w ->
  raises (rank_try json_loads sermons (llm_reply e)) ->
  rank_sermons json_loads e query sermons user_id w
  = (fallback sermons,
     World (snd (CacheManager.get (now_get e) (cache_key user_id query) (files w)))
           (S (llm_calls w)) (cache_sets w)).
Proof.
  intros Hne Hmiss [x Hx]. rewrite rank_sermons_miss by assumption.
  by rewrite Hx.
Qed.

Lemma rank_sermons_ret e query sermons user_id w ranked :
  sermons <> [] ->
  cache_miss e query user_id w ->
  rank_try json_loads sermons (llm_reply e) = Ret ranked ->
  rank_sermons json_loads e query sermons user_id w
  = (ranked,
     World (CacheManager.set (now_set e) (cache_key user_id query) ranked
              (snd (CacheManager.get (now_get e) (cache_key user_id query) (files w))))
           (S (llm_calls w)) (S (cache_sets w))).
Proof.
  intros Hne Hmiss Hx. rewrite rank_sermons_miss by assumption.
  by rewrite Hx.
Qed.

Lemma rank_try_ret sermons reply ranked :
  rank_try json_loads sermons reply = Ret ranked ->
  exists idxs, reorder sermons idxs [] ∅ = Ret ranked.
Proof.
  unfold rank_try. destruct reply as [content|x]; [|discriminate].
  cbn [Py.bind].
  destruct (startswith "[" content && endswith "]" content).
  - destruct (json_loads content) as [idxs|x]; [|discriminate]. cbn [Py.bind]. eauto.
  - cbn [Py.bind]. eauto.
Qed.

Lemma fallback_sublist sermons s : s ∈ fallback sermons -> s ∈ sermons.
Proof.
  unfold fallback. rewrite !list_elem_of_In, filter_In. tauto.
Qed.

(** No candidate: the empty list, and neither the cache nor the model is
    consulted. *)
Lemma rank_sermons_no_candidates e query user_id w :
  rank_sermons json_loads e query [] user_id w = ([], w).
Proof. reflexivity. Qed.

(** A cache hit: a live, non-empty entry is returned and nothing else
    happens. *)
Lemma rank_sermons_hit e query sermons user_id w cached t :
  sermons <> [] ->
  cached <> [] ->
  files w !! CacheManager.cache_path (cache_key user_id query)
    = Some (CacheManager.Object
              (CacheManager.Document (Some cached)
                 (Some (CacheManager.Iso (CacheManager.Naive t))))) ->
  now_get e <= t ->
  rank_sermons json_loads e query sermons user_id w = (cached, w).
Proof.
  intros Hne Hc Hfile Hlive. unfold rank_sermons.
  destruct sermons as [|s0 rest]; [congruence|].
  rewrite (get_live _ _ _ _ _ Hfile Hlive).
  destruct cached as [|h0 hs]; [congruence|].
  destruct w; reflexivity.
Qed.

(** The eviction of an expired entry cannot be seen by later reads. *)
Lemma eviction_unobservable {V : Type} now key
    (files : gmap string (CacheManager.cache_file V)) now' key' :
  now <= now' ->
  fst (CacheManager.get now' key' (snd (CacheManager.get now key files)))
  = fst (CacheManager.get now' key' files).
Proof.
  intros Hle.
  destruct (files !! CacheManager.cache_path key) as [f|] eqn:Hf;
    [|by rewrite (get_missing _ _ _ Hf)].
  unfold CacheManager.get at 2. rewrite Hf.
  destruct f as [| | |[v ex]]; try reflexivity.
  destruct ex as [[|[t|t o]]|]; try reflexivity.
  cbv [CacheManager.get_try CacheManager.json_load CacheManager.getitem_expires_at
       CacheManager.getitem_value CacheManager.fromisoformat CacheManager.now_gt
       Py.bind try_except CacheManager.doc_value CacheManager.doc_expires_at].
  destruct (t <? now) eqn:Ht; [|destruct v; reflexivity].
  cbn [snd]. unfold CacheManager.get.
  destruct (decide (CacheManager.cache_path key' = CacheManager.cache_path key)) as [->|Hne].
  - rewrite lookup_delete_eq, Hf.
    cbv [CacheManager.get_try CacheManager.json_load CacheManager.getitem_expires_at
         CacheManager.getitem_value CacheManager.fromisoformat CacheManager.now_gt
         Py.bind try_except CacheManager.doc_value CacheManager.doc_expires_at].
    assert (Ht' : (t <? now') = true)
      by (apply Z.ltb_lt; apply Z.ltb_lt in Ht; lia).
    by rewrite Ht'.
  - rewrite lookup_delete_ne by congruence.
    destruct (files !! CacheManager.cache_path key') as [f'|]; [|reflexivity].
    destruct f' as [| | |[v' ex']]; try reflexivity.
    destruct ex' as [[|[t'|t' o']]|]; try reflexivity.
    cbv [CacheManager.get_try CacheManager.json_load CacheManager.getitem_expires_at
         CacheManager.getitem_value CacheManager.fromisoformat CacheManager.now_gt
         Py.bind try_except CacheManager.doc_value CacheManager.doc_expires_at].
    destruct (t' <? now'); [reflexivity|]. destruct v'; reflexivity.
Qed.

End RankFacts.

Section RankClaims.
Import utils ranking.
Variable json_loads : string -> outcome (list json).
Implicit Types (sermons : list Sermon) (e : env) (w : world).

(** The loop raises as soon as the decoded array holds an element that is
    not an integer index, wherever it stands, and only then. *)
Lemma reorder_raises sermons idxs ranked seen :
  raises (reorder sermons idxs ranked seen)
  <-> Exists (fun idx => not_an_index (length sermons) idx = true) idxs.
Proof.
  revert ranked seen. induction idxs as [|idx idxs IH]; intros ranked seen.
  { cbn [reorder]. split; [intros [x Hx]; discriminate|intros H; inversion H]. }
  cbn [reorder]. rewrite Exists_cons.
  destruct idx as [|b|i|x|t|l|l]; cbn [guarded_index not_an_index Py.bind];
    try (split; [intros _; by left|intros _; by eexists]).
  - (* a bool *)
    destruct ((0 <=? (if b then 1 else 0)) && ((if b then 1 else 0) <? Z.of_nat (length sermons)))
      eqn:Hg.
    + destruct (sermons !! Z.to_nat (if b then 1 else 0)) as [sermon|] eqn:Hs.
      * destruct (decide (message_link sermon ∈ seen)); rewrite IH;
          split; [by right|intros [|]; [discriminate|done]
                 |by right|intros [|]; [discriminate|done]].
      * exfalso. apply lookup_ge_None in Hs. destruct b; lia.
    + rewrite IH. split; [by right|intros [|]; [discriminate|done]].
  - (* an int *)
    destruct ((0 <=? i) && (i <? Z.of_nat (length sermons))) eqn:Hg.
    + destruct (sermons !! Z.to_nat i) as [sermon|] eqn:Hs.
      * destruct (decide (message_link sermon ∈ seen)); rewrite IH;
          split; [by right|intros [|]; [discriminate|done]
                 |by right|intros [|]; [discriminate|done]].
      * exfalso. apply lookup_ge_None in Hs. lia.
    + rewrite IH. split; [by right|intros [|]; [discriminate|done]].
  - (* a float *)
    destruct ((0 <=? x)%float && (x <? float_of_nat (length sermons))%float)%bool.
    + split; [intros _; by left|intros _; by eexists].
    + cbn [Py.bind]. rewrite IH. split; [by right|intros [|]; [discriminate|done]].
Qed.

(** C1 (amended): on a cache miss with a non-empty candidate list,
    [rank_sermons] returns the candidates of score at least 0.7
    (MIN_RELEVANCE_SCORE), in retrieval order, when its [try] block raises:
    the model call raised, or [json.loads] rejected a bracket-delimited
    response, or the decoded array holds an element that is not an integer
    index ([null], a string, an array, an object, or a float within the
    range).  A response that is not bracket-delimited yields the first ten
    candidates, one per link; an array of integers yields the candidates at
    its in-range indexes, one per link, the out-of-range ones being
    skipped. *)
Theorem rank_fallback_when_try_raises e query sermons user_id w :
  sermons <> [] ->
  cache_miss e query user_id w ->
  let result := fst (rank_sermons json_loads e query sermons user_id w) in
  let kept :=
    List.filter (fun s => (0x1.6666666666666p-1 <=? similarity_score s)%float)
                sermons in
  (raises (llm_reply e) -> result = kept)
  /\ (forall content, llm_reply e = Ret content -> bracketed content = true ->
        raises (json_loads content) -> result = kept)
  /\ (forall content idxs, llm_reply e = Ret content -> bracketed content = true ->
        json_loads content = Ret idxs ->
        Exists (fun idx => not_an_index (length sermons) idx = true) idxs ->
        result = kept)
  /\ (forall content, llm_reply e = Ret content -> bracketed content = false ->
        result = dedup_from ∅ (take 10 sermons))
  /\ (forall content idxs, llm_reply e = Ret content -> bracketed content = true ->
        json_loads content = Ret (map JInt idxs) ->
        result = dedup_from ∅ (picked sermons idxs)).
Proof.
  intros Hne Hmiss result kept. subst result kept.
  assert (Hraise : raises (rank_try json_loads sermons (llm_reply e)) ->
                   fst (rank_sermons json_loads e query sermons user_id w)
                   = List.filter
                       (fun s => (0x1.6666666666666p-1 <=? similarity_score s)%float)
                       sermons).
  { intros H. by rewrite rank_sermons_raise. }
  repeat split.
  - intros H. apply Hraise, rank_try_raises. by left.
  - intros content Hc Hb Hl. apply Hraise, rank_try_raises. right.
    exists content. auto.
  - intros content idxs Hc Hb Hl Hr. apply Hraise, rank_try_raises. right.
    exists content. split; [exact Hc|]. split; [exact Hb|]. right.
    exists idxs. split; [exact Hl|]. by apply reorder_raises.
  - intros content Hc Hb.
    erewrite rank_sermons_ret; [reflexivity|assumption..|].
    rewrite Hc. by apply rank_try_unbracketed.
  - intros content idxs Hc Hb Hl.
    erewrite rank_sermons_ret; [reflexivity|assumption..|].
    rewrite Hc. by apply rank_try_ints.
Qed.

(** C2 (amended): on a cache miss with a non-empty candidate list,
    [rank_sermons] calls [CacheManager.set] with its result, under the
    computed key, exactly when its [try] block completes, which includes
    the case of a response that is not bracket-delimited.  When the block
    raises, [set] is not called and the cache files are those that the
    preceding [get] left: the same, or the same without an expired entry
    under the key, which no later read can tell apart. *)
Theorem rank_caches_when_try_completes e query sermons user_id w :
  sermons <> [] ->
  cache_miss e query user_id w ->
  let key := cache_key user_id query in
  let files1 := snd (CacheManager.get (now_get e) key (files w)) in
  let r := rank_sermons json_loads e query sermons user_id w in
  (forall ranked, rank_try json_loads sermons (llm_reply e) = Ret ranked ->
     fst r = ranked
     /\ cache_sets (snd r) = S (cache_sets w)
     /\ files (snd r) = CacheManager.set (now_set e) key ranked files1
     /\ CacheManager.get (now_set e) key (files (snd r)) = (Some ranked, files (snd r)))
  /\ (forall content, llm_reply e = Ret content -> bracketed content = false ->
        cache_sets (snd r) = S (cache_sets w)
        /\ files (snd r)
           = CacheManager.set (now_set e) key (dedup_from ∅ (take 10 sermons)) files1)
  /\ (raises (rank_try json_loads sermons (llm_reply e)) ->
        fst r = fallback sermons
        /\ cache_sets (snd r) = cache_sets w
        /\ files (snd r) = files1
        /\ (files1 = files w
            \/ files1 = delete (CacheManager.cache_path key) (files w))
        /\ forall now' key', now_get e <= now' ->
             fst (CacheManager.get now' key' (files (snd r)))
             = fst (CacheManager.get now' key' (files w))).
Proof.
  intros Hne Hmiss key files1 r. subst r. repeat split.
  - rewrite (rank_sermons_ret _ _ _ _ _ _ _ Hne Hmiss H). reflexivity.
  - rewrite (rank_sermons_ret _ _ _ _ _ _ _ Hne Hmiss H). reflexivity.
  - rewrite (rank_sermons_ret _ _ _ _ _ _ _ Hne Hmiss H). reflexivity.
  - rewrite (rank_sermons_ret _ _ _ _ _ _ _ Hne Hmiss H). cbn [snd files].
    apply get_set. unfold CacheManager.hours, config.CACHE_DURATION_HOURS. lia.
  - assert (Hr := rank_try_unbracketed json_loads sermons content H0).
    rewrite <- H in Hr.
    rewrite (rank_sermons_ret _ _ _ _ _ _ _ Hne Hmiss Hr). reflexivity.
  - assert (Hr := rank_try_unbracketed json_loads sermons content H0).
    rewrite <- H in Hr.
    rewrite (rank_sermons_ret _ _ _ _ _ _ _ Hne Hmiss Hr). reflexivity.
  - rewrite (rank_sermons_raise _ _ _ _ _ _ Hne Hmiss H). reflexivity.
  - rewrite (rank_sermons_raise _ _ _ _ _ _ Hne Hmiss H). reflexivity.
  - rewrite (rank_sermons_raise _ _ _ _ _ _ Hne Hmiss H). reflexivity.
  - apply get_files.
  - intros now' key' Hle.
    rewrite (rank_sermons_raise _ _ _ _ _ _ Hne Hmiss H). cbn [snd files].
    by apply eviction_unobservable.
Qed.

(** C4 (amended): on a cache miss with a non-empty candidate list, every
    element that [rank_sermons] returns is one of the candidates, so the
    links returned are links of the input; and when the [try] block
    completes, no link is returned twice. *)
Theorem rank_output_drawn_from_input e query sermons user_id w :
  sermons <> [] ->
  cache_miss e query user_id w ->
  let result := fst (rank_sermons json_loads e query sermons user_id w) in
  (forall s, s ∈ result -> s ∈ sermons)
  /\ (forall l, l ∈ message_link <$> result -> l ∈ message_link <$> sermons)
  /\ (forall ranked, rank_try json_loads sermons (llm_reply e) = Ret ranked ->
        NoDup (message_link <$> result)).
Proof.
  intros Hne Hmiss result.
  assert (Hsub : forall s, s ∈ result -> s ∈ sermons).
  { subst result.
    destruct (rank_try json_loads sermons (llm_reply e)) as [ranked|x] eqn:Hrun.
    - rewrite (rank_sermons_ret _ _ _ _ _ _ _ Hne Hmiss Hrun). cbn [fst].
      destruct (rank_try_ret _ _ _ _ Hrun) as [idxs Hre].
      eapply reorder_invariant; [exact Hre | | constructor | ];
        intros s Hs; by apply elem_of_nil in Hs.
    - rewrite (rank_sermons_raise _ _ _ _ _ _ Hne Hmiss) by (rewrite Hrun; by eexists).
      cbn [fst]. apply fallback_sublist. }
  split; [exact Hsub|]. split.
  - intros l (s & -> & Hs)%list_elem_of_fmap. apply list_elem_of_fmap_2. auto.
  - intros ranked Hrun. subst result.
    rewrite (rank_sermons_ret _ _ _ _ _ _ _ Hne Hmiss Hrun). cbn [fst].
    destruct (rank_try_ret _ _ _ _ Hrun) as [idxs Hre].
    eapply reorder_invariant; [exact Hre | | constructor | ];
      intros s Hs; by apply elem_of_nil in Hs.
Qed.

(** C5 (amended): when the candidate list is not empty and the cache holds,
    under the computed key, a non-empty value whose expiry is not in the
    past, [rank_sermons] returns exactly that value; the chat model is not
    called, [CacheManager.set] is not called, and the files are the
    same. *)
Theorem rank_returns_live_cache_entry e query sermons user_id w cached t :
  sermons <> [] ->
  cached <> [] ->
  files w !! CacheManager.cache_path (cache_key user_id query)
    = Some (CacheManager.Object
              (CacheManager.Document (Some cached)
                 (Some (CacheManager.Iso (CacheManager.Naive t))))) ->
  now_get e <= t ->
  let r := rank_sermons json_loads e query sermons user_id w in
  fst r = cached
  /\ llm_calls (snd r) = llm_calls w
  /\ cache_sets (snd r) = cache_sets w
  /\ files (snd r) = files w.
Proof.
  intros Hne Hc Hfile Hlive r. subst r.
  rewrite (rank_sermons_hit _ _ _ _ _ _ _ _ Hne Hc Hfile Hlive). auto.
Qed.

End RankClaims.

(** *** The ranking claims on concrete calls *)

(** The model call raised: the two candidates of score at least 0.7. *)
Lemma rank_fallback_when_try_raises_witness :
  let rank reply :=
    fst (utils.rank_sermons json_ints.loads (sample.env_of reply)
           "faith" sample.candidates4 42 sample.world0) in
  rank (Raise RuntimeError) = [sample.c0; sample.c2; sample.c3]
  /\ rank (Ret "[0, oops]") = [sample.c0; sample.c2; sample.c3]
  /\ rank (Ret "[1, null, 0]") = [sample.c0; sample.c2; sample.c3].
Proof.
  destruct (rank_fallback_when_try_raises json_ints.loads
              (sample.env_of (Raise RuntimeError)) "faith" sample.candidates4 42
              sample.world0) as (H1 & _); [discriminate|left; reflexivity|].
  destruct (rank_fallback_when_try_raises json_ints.loads
              (sample.env_of (Ret "[0, oops]")) "faith" sample.candidates4 42
              sample.world0) as (_ & H2 & _); [discriminate|left; reflexivity|].
  destruct (rank_fallback_when_try_raises json_ints.loads
              (sample.env_of (Ret "[1, null, 0]")) "faith" sample.candidates4 42
              sample.world0) as (_ & _ & H3 & _); [discriminate|left; reflexivity|].
  cbv zeta. split; [|split].
  - rewrite H1; [reflexivity|eexists; reflexivity].
  - rewrite (H2 "[0, oops]"); [reflexivity..|eexists; reflexivity].
  - rewrite (H3 "[1, null, 0]" [utils.JInt 1; utils.JNull; utils.JInt 0]);
      [reflexivity..|].
    apply Exists_cons_tl, Exists_cons_hd. reflexivity.
Defined.

(** C1 as stated fails.  With the scores 0.9, 0.5, 0.8 the threshold filter
    keeps the first and the third candidate; the response ["not json"] is
    not parseable as a JSON array, and [rank_sermons] returns all three
    candidates; the response ["[7]"] holds an out-of-range index, and
    [rank_sermons] returns none. *)
Lemma rank_threshold_filter_counterexample :
  let rank reply :=
    fst (utils.rank_sermons json_ints.loads (sample.env_of (Ret reply))
           "faith" sample.candidates 42 sample.world0) in
  utils.fallback sample.candidates = [sample.c0; sample.c2]
  /\ rank "not json" = [sample.c0; sample.c1; sample.c2]
  /\ rank "not json" <> utils.fallback sample.candidates
  /\ rank "[7]" = []
  /\ rank "[7]" <> utils.fallback sample.candidates.
Proof.
  cbv zeta. repeat split; try (vm_compute; reflexivity);
    vm_compute; discriminate.
Qed.

Lemma rank_caches_when_try_completes_witness :
  let r := utils.rank_sermons json_ints.loads (sample.env_of (Raise RuntimeError))
             "faith" sample.candidates 42 sample.world0 in
  utils.cache_sets (snd r) = 0%nat /\ utils.files (snd r) = ∅.
Proof.
  destruct (rank_caches_when_try_completes json_ints.loads
              (sample.env_of (Raise RuntimeError)) "faith" sample.candidates 42
              sample.world0) as (_ & _ & H).
  - discriminate.
  - left. reflexivity.
  - destruct H as (_ & Hsets & Hfiles & _); [eexists; reflexivity|].
    cbv zeta. rewrite Hsets, Hfiles. split; reflexivity.
Defined.

(** C2 as stated fails.  The response ["not json"] is not parseable as a
    JSON array, yet the list returned for it is written to the cache under
    the computed key; the cache directory was empty before. *)
Lemma rank_unparseable_is_cached_counterexample :
  let r := utils.rank_sermons json_ints.loads (sample.env_of (Ret "not json"))
             "faith" sample.candidates 42 sample.world0 in
  utils.files sample.world0 !! "cache/rank_42_ecee7df9bbac50b9b428483bfea1dd7c.json" = None
  /\ utils.cache_sets (snd r) = 1%nat
  /\ utils.files (snd r) !! "cache/rank_42_ecee7df9bbac50b9b428483bfea1dd7c.json"
     = Some (CacheManager.Object
               (CacheManager.Document
                  (Some [sample.c0; sample.c1; sample.c2])
                  (Some (CacheManager.Iso (CacheManager.Naive 21600000200))))).
Proof.
  cbv zeta. repeat split; vm_compute; reflexivity.
Qed.

Lemma rank_output_drawn_from_input_witness :
  NoDup (utils.message_link <$>
           fst (utils.rank_sermons json_ints.loads (sample.env_of (Ret "[2, 0, 2, 7]"))
                  "faith" sample.candidates 42 sample.world0)).
Proof.
  destruct (rank_output_drawn_from_input json_ints.loads
              (sample.env_of (Ret "[2, 0, 2, 7]")) "faith" sample.candidates 42
              sample.world0) as (_ & _ & H).
  - discriminate.
  - left. reflexivity.
  - eapply H. vm_compute. reflexivity.
Defined.

(** C4 as stated fails, on two paths.  On a cache hit: the cache holds, for
    the same user and query, the list of an earlier search; [rank_sermons]
    returns it, and its link is not a link of the present candidates.  On
    the threshold-filter path: two chunks of one document, both of score at
    least 0.7, are both returned when the model call raises, although they
    carry the same link. *)
Lemma rank_output_counterexample :
  let stale :=
    fst (utils.rank_sermons json_ints.loads (sample.env_of (Ret "[0]"))
           "faith" sample.candidates 42 (sample.world_cached [sample.old_hit])) in
  let chunks :=
    fst (utils.rank_sermons json_ints.loads (sample.env_of (Raise RuntimeError))
           "faith" [sample.c0; sample.c0'] 42 sample.world0) in
  stale = [sample.old_hit]
  /\ ~ (forall l, l ∈ utils.message_link <$> stale ->
                  l ∈ utils.message_link <$> sample.candidates)
  /\ chunks = [sample.c0; sample.c0']
  /\ ~ NoDup (utils.message_link <$> chunks).
Proof.
  cbv zeta. split; [vm_compute; reflexivity|]. split; [|split].
  - intros H. specialize (H "https://t.me/pst_tara/9").
    assert (Hin : "https://t.me/pst_tara/9" ∈ utils.message_link <$> sample.candidates).
    { apply H. vm_compute. apply list_elem_of_here. }
    vm_compute in Hin.
    repeat (apply elem_of_cons in Hin as [Hin|Hin]; [discriminate|]).
    by apply elem_of_nil in Hin.
  - vm_compute. reflexivity.
  - intros H. vm_compute in H. apply NoDup_cons_1_1 in H.
    apply H, list_elem_of_here.
Qed.

Lemma rank_returns_live_cache_entry_witness :
  let r := utils.rank_sermons json_ints.loads (sample.env_of (Ret "[0]"))
             "faith" sample.candidates 42 (sample.world_cached [sample.old_hit]) in
  fst r = [sample.old_hit] /\ utils.llm_calls (snd r) = 1%nat
  /\ utils.cache_sets (snd r) = 1%nat.
Proof.
  destruct (rank_returns_live_cache_entry json_ints.loads
              (sample.env_of (Ret "[0]")) "faith" sample.candidates 42
              (sample.world_cached [sample.old_hit]) [sample.old_hit]
              (CacheManager.hours 6)) as (H1 & H2 & H3 & _).
  - discriminate.
  - discriminate.
  - vm_compute. reflexivity.
  - vm_compute. discriminate.
  - cbv zeta. rewrite H1, H2, H3. repeat split; reflexivity.
Defined.

(** C5 as stated fails.  A live entry that holds the empty list (the model
    had found nothing relevant) is not returned: the model is called again
    and the cache is written again.  And with no candidate, [rank_sermons]
    returns the empty list whatever the cache holds. *)
Lemma rank_ignores_empty_cache_entry_counterexample :
  let r := utils.rank_sermons json_ints.loads (sample.env_of (Ret "[0]"))
             "faith" sample.candidates 42 (sample.world_cached []) in
  let r' := utils.rank_sermons json_ints.loads (sample.env_of (Ret "[0]"))
              "faith" [] 42 (sample.world_cached [sample.old_hit]) in
  CacheManager.get 100 (utils.cache_key 42 "faith")
    (utils.files (sample.world_cached []))
  = (Some [], utils.files (sample.world_cached []))
  /\ fst r = [sample.c0]
  /\ utils.llm_calls (snd r) = S (utils.llm_calls (sample.world_cached []))
  /\ utils.cache_sets (snd r) = S (utils.cache_sets (sample.world_cached []))
  /\ CacheManager.get 100 (utils.cache_key 42 "faith")
       (utils.files (sample.world_cached [sample.old_hit]))
     = (Some [sample.old_hit], utils.files (sample.world_cached [sample.old_hit]))
  /\ fst r' = [].
Proof.
  cbv zeta. repeat split; vm_compute; reflexivity.
Qed.

(** ** [PastorTaraBot._handle_more] *)

Section MoreFacts.
Import utils telegram_bot.
Implicit Types (user_sessions : gmap Z Session) (user_id : Z).

Lemma slice_page {A : Type} (l : list A) (c : nat) :
  slice l c (c + 5) = take 5 (drop c l).
Proof. unfold slice. f_equal. lia. Qed.

Lemma page_length {A : Type} (l : list A) (c : nat) :
  length (slice l c (c + 5)) = Nat.min 5 (length l - c).
Proof. by rewrite slice_page, length_take, length_drop. Qed.

(** C3 (amended): a "more" request reads the page of at most five items
    that starts at the cursor.  If the page is empty it answers that there
    is nothing more and leaves the session dict as it is; otherwise it
    sends the page and advances the cursor by five, whatever the number
    of items sent, and touches no other user's session. *)
Theorem handle_more_advances_by_five user_id user_sessions session :
  user_sessions !! user_id = Some session ->
  let c := index session in
  let page := take 5 (drop c (sermons session)) in
  let replies := fst (_handle_more user_id user_sessions) in
  let sessions' := snd (_handle_more user_id user_sessions) in
  length page = Nat.min 5 (length (sermons session) - c)
  /\ (page = [] -> replies = [ThatsAllIFound] /\ sessions' = user_sessions)
  /\ (page <> [] ->
        replies = HereAreMore :: map SermonMessage page
                    ++ [if (c + 5 <? length (sermons session))%nat
                        then StillMoreAvailable else ThatsAll]
        /\ sessions' !! user_id
           = Some {| sermons := sermons session; index := (c + 5)%nat |}
        /\ forall u, u <> user_id -> sessions' !! u = user_sessions !! u).
Proof.
  intros Hs c page replies sessions'.
  subst replies sessions'. unfold _handle_more. rewrite Hs.
  fold c. rewrite slice_page. fold page.
  split; [subst page; by rewrite length_take, length_drop|].
  destruct page as [|s0 rest] eqn:Hpage.
  - split; [auto | congruence].
  - split; [discriminate|]. intros _. cbn [fst snd index sermons].
    split; [reflexivity|]. split.
    + apply lookup_insert_eq.
    + intros u Hu. by apply lookup_insert_ne.
Qed.

(** C9: without a session for the user, a "more" request answers "please
    search first" and nothing else (neither an empty answer nor any of
    the messages of a paging session), and the session dict is unchanged. *)
Theorem handle_more_without_session user_id user_sessions :
  user_sessions !! user_id = None ->
  let replies := fst (_handle_more user_id user_sessions) in
  replies = [PleaseSearchFirst]
  /\ replies <> []
  /\ (ThatsAllIFound ∉ replies)
  /\ snd (_handle_more user_id user_sessions) = user_sessions.
Proof.
  intros Hs replies. subst replies. unfold _handle_more. rewrite Hs.
  cbn [fst snd]. repeat split; [discriminate|].
  intros H. apply list_elem_of_singleton in H. discriminate.
Qed.

(** With a session, "please search first" is never among the replies. *)
Lemma handle_more_with_session user_id user_sessions session :
  user_sessions !! user_id = Some session ->
  PleaseSearchFirst ∉ fst (_handle_more user_id user_sessions).
Proof.
  intros Hs. unfold _handle_more. rewrite Hs.
  destruct (slice _ _ _) as [|s0 rest]; cbn [fst].
  - intros H. apply list_elem_of_singleton in H. discriminate.
  - intros H. apply elem_of_cons in H as [H|H]; [discriminate|].
    apply elem_of_app in H as [H|H].
    + unfold _send_sermon_recommendations in H.
      apply list_elem_of_In, in_map_iff in H as (x & Hx & _). discriminate.
    + apply list_elem_of_singleton in H.
      destruct (_ <? _)%nat; discriminate.
Qed.

End MoreFacts.

Lemma handle_more_advances_by_five_witness :
  telegram_bot.index <$> (snd (telegram_bot._handle_more 42 sample.sessions5) !! 42)
  = Some 10%nat.
Proof.
  destruct (handle_more_advances_by_five 42 sample.sessions5
              {| telegram_bot.sermons := sample.nine; telegram_bot.index := 5 |})
    as (_ & _ & H).
  - reflexivity.
  - destruct H as (_ & H & _); [discriminate|].
    rewrite H. reflexivity.
Defined.

(** C3 as stated fails.  With nine ranked sermons and the cursor at 5, a
    "more" request sends four sermons and leaves the cursor at 10, not 9. *)
Lemma handle_more_cursor_counterexample :
  let replies := fst (telegram_bot._handle_more 42 sample.sessions5) in
  let sessions' := snd (telegram_bot._handle_more 42 sample.sessions5) in
  replies = telegram_bot.HereAreMore
            :: map telegram_bot.SermonMessage (map sample.numbered [6; 7; 8; 9])
            ++ [telegram_bot.ThatsAll]
  /\ telegram_bot.index <$> (sessions' !! 42) = Some 10%nat
  /\ telegram_bot.index <$> (sessions' !! 42) <> Some (5 + 4)%nat.
Proof.
  cbv zeta. repeat split; try (vm_compute; reflexivity).
  vm_compute. discriminate.
Qed.

Lemma handle_more_without_session_witness :
  telegram_bot._handle_more 7 sample.sessions5
  = ([telegram_bot.PleaseSearchFirst], sample.sessions5).
Proof.
  destruct (handle_more_without_session 7 sample.sessions5) as (H1 & _ & _ & H2).
  - reflexivity.
  - rewrite (surjective_pairing (telegram_bot._handle_more 7 sample.sessions5)).
    cbv zeta in H1. rewrite H1, H2. reflexivity.
Defined.

(** ** [RAGEngine.search] *)

(** ** Binary64: [1 - d] for [d] in [0, 1] *)

Section Binary64.
Import SpecFloat FloatOps FloatAxioms binary64.

Lemma digits2_pos_size p : digits2_pos p = Pos.size p.
Proof. induction p; simpl; congruence. Qed.



















End Binary64.

Section SearchFacts.
Import utils.
Variable similarity_search_with_score :
  string -> Z -> outcome (list (Document * float)).


(** When the vector store raises, [search] returns no hit. *)
Lemma search_absorbs query k :
  raises (similarity_search_with_score query k) ->
  search similarity_search_with_score query k = [].
Proof. intros [x Hx]. unfold search. by rewrite Hx. Qed.

End SearchFacts.



(** ** [SermonDatabase.add_sermon] *)

Section StoreFacts.
Import db_handler.
Implicit Types (db : Db) (d : sermon_dict) (rs : list Row) (l : string).

Lemma add_sermon_ok d ts db t de c l :
  write_locked db = false ->
  not_null_columns d = Some (t, de, c, l) ->
  add_sermon d ts db
  = (Some (next_rowid db),
     {| rows := other_links l (rows db)
                ++ [new_row d ts (next_rowid db) (t, de, c, l)];
        sqlite_sequence := next_rowid db;
        write_locked := false |}).
Proof.
  intros Hfree H. unfold add_sermon, insert_or_replace. rewrite Hfree, H.
  reflexivity.
Qed.

Lemma add_sermon_rejected d ts db :
  write_locked db = false ->
  not_null_columns d = None -> add_sermon d ts db = (None, left_open db).
Proof.
  intros Hfree H. unfold add_sermon, insert_or_replace. rewrite Hfree, H.
  reflexivity.
Qed.

Lemma add_sermon_locked d ts db :
  write_locked db = true -> add_sermon d ts db = (None, db).
Proof. intros H. unfold add_sermon. by rewrite H. Qed.

(** The three ways in which a call ends. *)
Lemma add_sermon_cases d ts db :
  (write_locked db = true /\ add_sermon d ts db = (None, db))
  \/ (write_locked db = false /\ not_null_columns d = None
      /\ add_sermon d ts db = (None, left_open db))
  \/ (exists t de c l,
        write_locked db = false /\ not_null_columns d = Some (t, de, c, l)
        /\ add_sermon d ts db
           = (Some (next_rowid db),
              {| rows := other_links l (rows db)
                         ++ [new_row d ts (next_rowid db) (t, de, c, l)];
                 sqlite_sequence := next_rowid db;
                 write_locked := false |})).
Proof.
  destruct (write_locked db) eqn:Hlock; [left; split; [done|by apply add_sermon_locked]|].
  right. destruct (not_null_columns d) as [[[[t de] c] l]|] eqn:Hc.
  - right. exists t, de, c, l. split; [done|]. split; [done|].
    by apply add_sermon_ok.
  - left. split; [done|]. split; [done|]. by apply add_sermon_rejected.
Qed.

Lemma other_links_spec l rs r :
  r ∈ other_links l rs <-> r ∈ rs /\ message_link r <> l.
Proof.
  unfold other_links. rewrite !list_elem_of_In, filter_In, negb_true_iff.
  rewrite String.eqb_neq. tauto.
Qed.



Lemma select_other_links l rs :
  List.filter (fun r => String.eqb (message_link r) l) (other_links l rs) = [].
Proof.
  induction rs as [|r rs IH]; [reflexivity|].
  unfold other_links in *. cbn [List.filter].
  destruct (String.eqb (message_link r) l) eqn:E; cbn [negb]; [exact IH|].
  cbn [List.filter]. by rewrite E.
Qed.

Lemma select_snoc l rs r db :
  rows db = other_links l rs ++ [r] ->
  message_link r = l ->
  select_by_link db l = [r].
Proof.
  intros Hrows <-. unfold select_by_link. rewrite Hrows.
  rewrite List.filter_app, select_other_links. cbn [List.filter].
  by rewrite String.eqb_refl.
Qed.

Lemma other_links_nodup l rs :
  NoDup (message_link <$> rs) -> NoDup (message_link <$> other_links l rs).
Proof.
  induction rs as [|r rs IH]; [auto|].
  rewrite fmap_cons, NoDup_cons. intros [Hr Hnd].
  unfold other_links in *. cbn [List.filter].
  destruct (negb (String.eqb (message_link r) l)); [|auto].
  rewrite fmap_cons, NoDup_cons. split; [|auto].
  intros (r' & Heq & Hr')%list_elem_of_fmap. apply Hr.
  rewrite Heq. apply list_elem_of_fmap_2.
  apply (other_links_spec l rs r') in Hr'. tauto.
Qed.

Lemma new_row_link d ts rowid t de c l :
  message_link (new_row d ts rowid (t, de, c, l)) = l.
Proof. reflexivity. Qed.

Lemma lookup_after_insert d ts db t de c l :
  write_locked db = false ->
  not_null_columns d = Some (t, de, c, l) ->
  select_by_link (snd (add_sermon d ts db)) l
  = [new_row d ts (next_rowid db) (t, de, c, l)].
Proof.
  intros Hfree Hc. apply (select_snoc l (rows db)); [|reflexivity].
  by rewrite (add_sermon_ok _ _ _ _ _ _ _ Hfree Hc).
Qed.

(** Every [add_sermon] keeps the links of the table distinct. *)
Lemma add_sermon_keeps_links_unique d ts db :
  NoDup (message_link <$> rows db) ->
  NoDup (message_link <$> rows (snd (add_sermon d ts db))).
Proof.
  intros Hnd.
  destruct (add_sermon_cases d ts db)
    as [[_ ->]|[(_ & _ & ->)|(t & de & c & l & _ & _ & ->)]]; cbn [snd left_open rows];
    [done..|].
  rewrite fmap_app. apply NoDup_app. split; [by apply other_links_nodup|].
  split; [|apply NoDup_singleton].
  intros x (r & -> & Hr)%list_elem_of_fmap Hx.
  apply list_elem_of_singleton in Hx. apply other_links_spec in Hr.
  rewrite new_row_link in Hx. tauto.
Qed.



Lemma other_links_length l rs :
  NoDup (message_link <$> rs) ->
  length rs = (length (other_links l rs)
               + if decide (l ∈ message_link <$> rs) then 1 else 0)%nat.
Proof.
  induction rs as [|r rs IH]; [reflexivity|].
  rewrite fmap_cons, NoDup_cons. intros [Hr Hnd]. specialize (IH Hnd).
  unfold other_links in *. cbn [List.filter length].
  destruct (String.eqb (message_link r) l) eqn:E; cbn [negb length].
  - apply String.eqb_eq in E. subst l.
    destruct (decide (message_link r ∈ message_link <$> rs)) as [Hin|_]; [tauto|].
    destruct (decide (message_link r ∈ message_link r :: (message_link <$> rs)))
      as [_|Hout]; [lia|]. exfalso. apply Hout. constructor.
  - apply String.eqb_neq in E.
    destruct (decide (l ∈ message_link <$> rs)) as [Hin|Hout];
      destruct (decide (l ∈ message_link r :: (message_link <$> rs))) as [Hin'|Hout'];
      try lia.
    + exfalso. apply Hout'. by constructor.
    + exfalso. apply elem_of_cons in Hin' as [->|]; tauto.
Qed.


End StoreFacts.



(** * Further properties *)

(** ** [SermonDatabase]: ids, lookups, counts *)

Section StoreRuns.
Import db_handler db_runs.
Implicit Types (db : Db) (d : sermon_dict) (rs : list Row) (l : string).

Lemma max_rowid_bound rs r : r ∈ rs -> id r <= max_rowid rs.
Proof.
  induction rs as [|r0 rs IH]; intros Hr; [by apply elem_of_nil in Hr|].
  cbn [max_rowid fold_right]. fold (max_rowid rs).
  apply elem_of_cons in Hr as [->|Hr]; [lia|].
  specialize (IH Hr). lia.
Qed.

Lemma max_rowid_nonneg rs : 0 <= max_rowid rs.
Proof.
  induction rs as [|r0 rs IH]; cbn [max_rowid fold_right]; [lia|].
  fold (max_rowid rs). lia.
Qed.

Lemma next_rowid_fresh db :
  sqlite_sequence db < next_rowid db
  /\ 0 < next_rowid db
  /\ forall r, r ∈ rows db -> id r < next_rowid db.
Proof.
  unfold next_rowid. pose proof (max_rowid_nonneg (rows db)).
  split; [lia|]. split; [lia|].
  intros r Hr. apply max_rowid_bound in Hr. lia.
Qed.

Lemma other_links_sorted l rs :
  StronglySorted Z.lt (id <$> rs) -> StronglySorted Z.lt (id <$> other_links l rs).
Proof.
  induction rs as [|r rs IH]; [auto|].
  rewrite fmap_cons. intros [Hs Hall]%StronglySorted_inv.
  unfold other_links in *. cbn [List.filter].
  destruct (negb (String.eqb (message_link r) l)); [|auto].
  rewrite fmap_cons. constructor; [auto|].
  apply Forall_forall. intros x (r' & -> & Hr')%list_elem_of_fmap.
  rewrite Forall_forall in Hall. apply Hall, list_elem_of_fmap_2.
  apply (other_links_spec l rs r') in Hr'. tauto.
Qed.

Lemma add_sermon_consistent d ts db :
  consistent db -> consistent (snd (add_sermon d ts db)).
Proof.
  intros (Hnd & Hsorted & Hbound).
  destruct (add_sermon_cases d ts db)
    as [[_ E]|[(_ & _ & E)|(t & de & c & l & _ & Hc & E)]];
    [rewrite E; by repeat split..|].
  split; [by apply add_sermon_keeps_links_unique|].
  rewrite E. cbn [snd rows sqlite_sequence].
  destruct (next_rowid_fresh db) as (Hseq & Hpos & Hfresh).
  split.
  - rewrite fmap_app. apply StronglySorted_app_2.
    + intros x1 x2 (r & -> & Hr)%list_elem_of_fmap Hx2.
      apply list_elem_of_singleton in Hx2. subst x2. cbn [id new_row].
      apply Hfresh. apply other_links_spec in Hr. tauto.
    + by apply other_links_sorted.
    + repeat constructor.
  - apply Forall_app. split.
    + apply Forall_forall. intros r Hr. apply other_links_spec in Hr as [Hr _].
      rewrite Forall_forall in Hbound. specialize (Hbound r Hr).
      specialize (Hfresh r Hr). lia.
    + repeat constructor; cbn [id new_row]; lia.
Qed.

(** X1: starting from a new database file, whatever records are passed to
    [add_sermon] and in whatever order, and whenever the collector runs in
    between, the table keeps its links pairwise distinct, its ids strictly
    increasing in row order (so no id is shared or reused), and every id
    positive and at most the AUTOINCREMENT mark. *)
Theorem add_sermon_runs_consistent (calls : list call) :
  consistent (add_all calls (_init_db None)).
Proof.
  assert (Hgen : forall db, consistent db -> consistent (add_all calls db)).
  { induction calls as [|c calls IH]; intros db Hdb; [exact Hdb|].
    cbn [add_all fold_left]. apply IH. destruct c as [d ts|]; cbn [after].
    - by apply add_sermon_consistent.
    - exact Hdb. }
  apply Hgen. repeat split; constructor.
Qed.

(** X2: the id that a successful [add_sermon] returns is new: it is above
    the AUTOINCREMENT mark and above the id of every row that was in the
    table, also when the insert replaced a row; it becomes the new mark and
    is the id of the row now stored for the record's link. *)
Theorem add_sermon_returns_fresh_id d ts db rowid :
  fst (add_sermon d ts db) = Some rowid ->
  sqlite_sequence db < rowid
  /\ (forall r, r ∈ rows db -> id r < rowid)
  /\ sqlite_sequence (snd (add_sermon d ts db)) = rowid
  /\ exists l, get_default d "message_link" "" = Some l
       /\ id <$> get_sermon_by_link (snd (add_sermon d ts db)) l = Some rowid.
Proof.
  destruct (add_sermon_cases d ts db)
    as [[_ E]|[(_ & _ & E)|(t & de & c & l & Hfree & Hc & E)]];
    [rewrite E; discriminate..|].
  intros Hid. rewrite E in Hid. injection Hid as <-.
  destruct (next_rowid_fresh db) as (Hseq & _ & Hfresh).
  split; [exact Hseq|]. split; [exact Hfresh|]. split; [by rewrite E|].
  exists l. split.
  - unfold not_null_columns in Hc.
    destruct (get_default d "title" ""), (get_default d "description" ""),
      (get_default d "channel" ""), (get_default d "message_link" "");
      congruence.
  - unfold get_sermon_by_link.
    by rewrite (lookup_after_insert _ _ _ _ _ _ _ Hfree Hc).
Qed.





(** X5: on a table with pairwise distinct links that no connection left
    open holds locked, a successful [add_sermon] raises the count by one
    when the link is new and leaves it unchanged when a row with that link
    is replaced. *)
Theorem add_sermon_count d ts db t de c l :
  write_locked db = false ->
  NoDup (message_link <$> rows db) ->
  not_null_columns d = Some (t, de, c, l) ->
  get_sermon_count (snd (add_sermon d ts db))
  = if decide (l ∈ message_link <$> rows db)
    then get_sermon_count db else S (get_sermon_count db).
Proof.
  intros Hfree Hnd Hc. rewrite (add_sermon_ok _ _ _ _ _ _ _ Hfree Hc).
  unfold get_sermon_count. cbn [snd rows]. rewrite length_app. cbn [length].
  pose proof (other_links_length l (rows db) Hnd) as Hlen.
  destruct (decide (l ∈ message_link <$> rows db)); lia.
Qed.

End StoreRuns.

(** ** [CacheManager]: time to live and keys *)

Section CacheLife.
Import CacheManager.
Context {V : Type}.
Implicit Types (files : gmap string (cache_file V)) (key : string) (now : Z).

Lemma string_length_append (a b : string) :
  String.length (a ++ b) = (String.length a + String.length b)%nat.
Proof.
  induction a as [|c a IH]; [reflexivity|].
  change (S (String.length (a ++ b)) = S (String.length a + String.length b)).
  by f_equal.
Qed.

(** Two concatenations with left parts of equal length agree part by
    part. *)
Lemma string_append_split (a a' b b' : string) :
  String.length a = String.length a' ->
  (a ++ b = a' ++ b')%string -> a = a' /\ b = b'.
Proof.
  revert a'. induction a as [|c a IH]; intros [|c' a'] Hlen H; cbn in *;
    try discriminate; [auto|].
  injection H as -> H. injection Hlen as Hlen.
  destruct (IH a' Hlen H) as [-> ->]. auto.
Qed.

Lemma string_append_inv_tail (a a' b : string) :
  (a ++ b = a' ++ b)%string -> a = a'.
Proof.
  intros H. apply (string_append_split a a' b b); [|exact H].
  apply (f_equal String.length) in H. rewrite !string_length_append in H. lia.
Qed.

Lemma cache_path_cases key :
  cache_path key
  = if startswith "/" (key ++ ".json")
    then (key ++ ".json")%string else ("cache/" ++ (key ++ ".json"))%string.
Proof. reflexivity. Qed.

Lemma cache_path_inj key key' : cache_path key = cache_path key' -> key = key'.
Proof.
  rewrite !cache_path_cases.
  destruct (startswith "/" (key ++ ".json")) eqn:E;
    destruct (startswith "/" (key' ++ ".json")) eqn:E'; intros H.
  - by apply string_append_inv_tail in H.
  - destruct (key ++ ".json")%string as [|c r]; [discriminate|].
    cbn in H. injection H as -> _. cbn in E. discriminate.
  - destruct (key' ++ ".json")%string as [|c r]; [discriminate|].
    cbn in H. injection H as <- _. cbn in E'. discriminate.
  - apply string_append_split in H as [_ H]; [|reflexivity].
    by apply string_append_inv_tail in H.
Qed.



Lemma get_after_other_set now now' key key' v files :
  cache_path key <> cache_path key' ->
  get now' key' (set now key v files)
  = (fst (get now' key' files), set now key v (snd (get now' key' files))).
Proof.
  intros Hp.
  unfold get, set. rewrite lookup_insert_ne by exact Hp.
  destruct (files !! cache_path key') as [f|]; [|reflexivity].
  destruct f as [| | |[v' ex']]; try reflexivity.
  destruct ex' as [[|[t'|t' o']]|]; try reflexivity.
  cbv [get_try json_load getitem_expires_at getitem_value fromisoformat
       now_gt Py.bind try_except doc_value doc_expires_at].
  destruct (t' <? now'); cbn [fst snd].
  - f_equal. by rewrite delete_insert_ne.
  - destruct v'; reflexivity.
Qed.

Lemma is_file_name_app (a b : string) :
  is_file_name (a ++ b) = (is_file_name a && is_file_name b)%bool.
Proof.
  induction a as [|c a IH]; [reflexivity|].
  change (is_file_name (String c a ++ b))
    with (negb (Ascii.eqb c "/") && is_file_name (a ++ b))%bool.
  rewrite IH. cbn [is_file_name]. by rewrite andb_assoc.
Qed.

Lemma cache_path_file_name key :
  is_file_name key = true -> cache_path key = ("cache/" ++ key ++ ".json")%string.
Proof.
  intros H. rewrite cache_path_cases.
  destruct key as [|c key]; [reflexivity|].
  cbn [is_file_name] in H. apply andb_prop in H as [Hc _].
  change (startswith "/" (String c key ++ ".json")) with (Ascii.eqb c "/").
  apply negb_true_iff in Hc. by rewrite Hc.
Qed.

(** X7: keys that are file names do not interfere.  The file of such a
    key lies in the cache directory itself, as [cache/<key>.json]; distinct
    keys have distinct files; and a write under one key commutes with a
    read under another: the read returns what it returned without the
    write, and evicts what it evicted without it. *)
Theorem cache_keys_independent now now' key key' v files :
  is_file_name key = true -> is_file_name key' = true ->
  key <> key' ->
  cache_path key = ("cache/" ++ key ++ ".json")%string
  /\ is_file_name (key ++ ".json") = true
  /\ cache_path key <> cache_path key'
  /\ get now' key' (set now key v files)
     = (fst (get now' key' files), set now key v (snd (get now' key' files))).
Proof.
  intros Hk Hk' Hne.
  assert (Hp : cache_path key <> cache_path key').
  { rewrite !cache_path_file_name by assumption. intros H.
    apply string_append_split in H as [_ H]; [|reflexivity].
    by apply string_append_inv_tail in H. }
  split; [by apply cache_path_file_name|].
  split; [rewrite is_file_name_app, Hk; reflexivity|].
  split; [exact Hp | by apply get_after_other_set].
Qed.

End CacheLife.

(** ** [rank_sermons]: cache keys, memoization, size and order of the result *)

Section KeyFacts.
Import utils.

Lemma le_bytes_length n x : length (MD5.le_bytes n x) = n.
Proof. revert x. induction n as [|n IH]; intros x; cbn; [reflexivity|]. by rewrite IH. Qed.

Lemma hex_length bs : String.length (MD5.hex bs) = (2 * length bs)%nat.
Proof.
  induction bs as [|b bs IH]; [reflexivity|].
  change (S (S (String.length (MD5.hex bs))) = (2 * S (length bs))%nat). lia.
Qed.

Lemma string_append_assoc (a b c : string) :
  (a ++ (b ++ c) = (a ++ b) ++ c)%string.
Proof.
  induction a as [|x a IH]; [reflexivity|].
  change (String x (a ++ (b ++ c)) = String x ((a ++ b) ++ c)). by f_equal.
Qed.

(** An MD5 digest is printed on 32 characters. *)
Lemma hexdigest_length query : String.length (MD5.hexdigest query) = 32%nat.
Proof.
  unfold MD5.hexdigest. rewrite hex_length. unfold MD5.digest.
  destruct (fold_left MD5.compress _ MD5.init) as [[[a b] c] d].
  rewrite !length_app, !le_bytes_length. reflexivity.
Qed.

Lemma to_int_not_nil n : Z.to_int n <> Decimal.Pos Decimal.Nil /\ Z.to_int n <> Decimal.Neg Decimal.Nil.
Proof.
  destruct n as [|p|p]; cbn; split; try discriminate;
    intros [= H]; by apply Unsigned.to_uint_nonnil in H.
Qed.

Lemma str_of_int_inj n n' : str_of_int n = str_of_int n' -> n = n'.
Proof.
  unfold str_of_int. intros H. apply DecimalZ.to_int_inj.
  destruct (to_int_not_nil n) as [H1 H2]. destruct (to_int_not_nil n') as [H1' H2'].
  pose proof (NilZero.isi _ H1 H2) as E. pose proof (NilZero.isi _ H1' H2') as E'.
  rewrite H in E. congruence.
Qed.

Lemma cache_key_inj user_id user_id' query query' :
  cache_key user_id query = cache_key user_id' query' ->
  user_id = user_id' /\ MD5.hexdigest query = MD5.hexdigest query'.
Proof.
  unfold cache_key. intros H.
  apply string_append_split in H as [_ H]; [|reflexivity].
  assert (Hlen : String.length (str_of_int user_id ++ "_")
                 = String.length (str_of_int user_id' ++ "_")).
  { apply (f_equal String.length) in H.
    rewrite !string_length_append, !hexdigest_length in H.
    rewrite !string_length_append. lia. }
  assert (H' : ((str_of_int user_id ++ "_") ++ MD5.hexdigest query
                = (str_of_int user_id' ++ "_") ++ MD5.hexdigest query')%string).
  { rewrite <- !string_append_assoc. exact H. }
  apply string_append_split in H' as [Hu Hq]; [|exact Hlen].
  split; [|exact Hq].
  apply str_of_int_inj. by apply string_append_inv_tail in Hu.
Qed.

Lemma le_bytes_range n x : Forall (fun b => 0 <= b < 256) (MD5.le_bytes n x).
Proof.
  revert x. induction n as [|n IH]; intros x; cbn [MD5.le_bytes]; constructor;
    [apply Z.mod_pos_bound; lia|apply IH].
Qed.

Lemma hex_digit_file_name n :
  0 <= n < 16 -> Ascii.eqb (MD5.hex_digit n) "/" = false.
Proof.
  intros Hn. rewrite <- (Z2Nat.id n) by lia.
  assert (Hk : (Z.to_nat n < 16)%nat) by lia.
  revert Hk. generalize (Z.to_nat n) as k. intros k Hk.
  do 16 (destruct k as [|k]; [reflexivity|]). lia.
Qed.

Lemma hex_file_name bs :
  Forall (fun b => 0 <= b < 256) bs -> is_file_name (MD5.hex bs) = true.
Proof.
  induction 1 as [|b bs Hb _ IH]; [reflexivity|].
  cbn [MD5.hex is_file_name]. rewrite IH.
  rewrite !hex_digit_file_name; [reflexivity|..].
  - apply Z.mod_pos_bound. lia.
  - split; [apply Z.div_pos; lia|apply Z.div_lt_upper_bound; lia].
Qed.

Lemma hexdigest_file_name query : is_file_name (MD5.hexdigest query) = true.
Proof.
  unfold MD5.hexdigest, MD5.digest. apply hex_file_name.
  destruct (fold_left MD5.compress _ MD5.init) as [[[a b] c] d].
  rewrite !Forall_app. repeat split; apply le_bytes_range.
Qed.

Lemma string_of_uint_file_name u :
  is_file_name (NilEmpty.string_of_uint u) = true.
Proof. induction u; cbn [NilEmpty.string_of_uint is_file_name]; auto. Qed.

Lemma str_of_int_file_name n : is_file_name (str_of_int n) = true.
Proof.
  unfold str_of_int.
  assert (H : forall u, is_file_name (NilZero.string_of_uint u) = true)
    by (intros [| | | | | | | | | |]; try reflexivity;
        apply (string_of_uint_file_name (_ _))).
  destruct (Z.to_int n); cbn [NilZero.string_of_int is_file_name]; by rewrite H.
Qed.

(** The keys of [rank_sermons] are file names. *)
Lemma cache_key_file_name user_id query :
  is_file_name (cache_key user_id query) = true.
Proof.
  unfold cache_key.
  rewrite !is_file_name_app, str_of_int_file_name, hexdigest_file_name.
  reflexivity.
Qed.

(** X30: the keys under which [rank_sermons] caches are file names:
    [rank_<decimal>_<32 hex digits>] holds no separator, whatever the user
    id and the query, so that the entry of each key is one file of the
    cache directory. *)
Theorem rank_keys_are_file_names user_id query :
  is_file_name (cache_key user_id query) = true
  /\ String.length (MD5.hexdigest query) = 32%nat
  /\ CacheManager.cache_path (cache_key user_id query)
     = ("cache/rank_" ++ str_of_int user_id ++ "_" ++ MD5.hexdigest query
          ++ ".json")%string.
Proof.
  split; [apply cache_key_file_name|]. split; [apply hexdigest_length|].
  rewrite cache_path_file_name by apply cache_key_file_name.
  unfold cache_key. cbn [String.append].
  by rewrite <- !string_append_assoc.
Qed.

(** X8: the cache key determines the user, and the query up to its MD5
    digest: two calls share a key only if they are made for the same user
    id and for queries of equal digest. *)
Theorem cache_key_determines_user user_id user_id' query query' :
  cache_key user_id query = cache_key user_id' query' ->
  user_id = user_id' /\ MD5.hexdigest query = MD5.hexdigest query'.
Proof. apply cache_key_inj. Qed.

End KeyFacts.

Section RankMore.
Import utils ranking.
Variable json_loads : string -> outcome (list json).
Implicit Types (sermons : list Sermon) (e : env) (w : world).

(** X9: a completed ranking is memoized.  After a call that missed the
    cache and whose [try] block completed with a non-empty list, any call
    for the same user and query made within six hours of the write leaves
    the state as it is (no model call, no write); it returns that list
    whatever non-empty candidate list it is given, and the empty list when
    it is given no candidate. *)
Theorem rank_memoizes e1 e2 query sermons1 sermons2 user_id w ranked :
  sermons1 <> [] ->
  cache_miss e1 query user_id w ->
  rank_try json_loads sermons1 (llm_reply e1) = Ret ranked ->
  ranked <> [] ->
  now_get e2 <= now_set e1 + 6 * 3600 * 1000000 ->
  let w1 := snd (rank_sermons json_loads e1 query sermons1 user_id w) in
  rank_sermons json_loads e2 query sermons2 user_id w1
  = (match sermons2 with [] => [] | _ :: _ => ranked end, w1).
Proof.
  intros Hne1 Hmiss Hrun Hranked Hlive w1. subst w1.
  destruct sermons2 as [|s2 sermons2]; [reflexivity|].
  rewrite (rank_sermons_ret _ _ _ _ _ _ _ Hne1 Hmiss Hrun). cbn [snd].
  eapply rank_sermons_hit; [discriminate | exact Hranked | | ].
  - cbn [files]. unfold CacheManager.set. apply lookup_insert_eq.
  - unfold CacheManager.hours, config.CACHE_DURATION_HOURS. lia.
Qed.

Lemma dedup_from_length seen l : (length (dedup_from seen l) <= length l)%nat.
Proof.
  revert seen. induction l as [|s l IH]; intros seen; [reflexivity|].
  cbn [dedup_from length]. destruct (decide (message_link s ∈ seen)).
  - specialize (IH seen). lia.
  - cbn [length]. specialize (IH ({[message_link s]} ∪ seen)). lia.
Qed.

(** X10: on a cache miss [rank_sermons] returns at most as many items as
    it was given candidates, and at most ten when the response of the
    model is not bracket-delimited. *)
Theorem rank_result_size e query sermons user_id w :
  sermons <> [] ->
  cache_miss e query user_id w ->
  let result := fst (rank_sermons json_loads e query sermons user_id w) in
  (length result <= length sermons)%nat
  /\ (forall content, llm_reply e = Ret content -> bracketed content = false ->
        (length result <= 10)%nat).
Proof.
  intros Hne Hmiss result. subst result. split.
  - destruct (rank_try json_loads sermons (llm_reply e)) as [ranked|x] eqn:Hrun.
    + rewrite (rank_sermons_ret _ _ _ _ _ _ _ Hne Hmiss Hrun). cbn [fst].
      destruct (rank_try_ret _ _ _ _ Hrun) as [idxs Hre].
      destruct (reorder_invariant sermons idxs [] ∅ ranked Hre) as [Hsub Hnd];
        [intros s Hs; by apply elem_of_nil in Hs | constructor
        | intros s Hs; by apply elem_of_nil in Hs |].
      rewrite <- (length_fmap message_link ranked), <- (length_fmap message_link sermons).
      apply submseteq_length, NoDup_submseteq; [exact Hnd|].
      intros l (s & -> & Hs)%list_elem_of_fmap. apply list_elem_of_fmap_2. auto.
    + rewrite (rank_sermons_raise _ _ _ _ _ _ Hne Hmiss) by (rewrite Hrun; by eexists).
      cbn [fst]. unfold fallback. apply List.filter_length_le.
  - intros content Hc Hb.
    assert (Hrun := rank_try_unbracketed json_loads sermons content Hb).
    rewrite <- Hc in Hrun.
    rewrite (rank_sermons_ret _ _ _ _ _ _ _ Hne Hmiss Hrun). cbn [fst].
    etransitivity; [apply dedup_from_length|].
    rewrite length_take. lia.
Qed.

Lemma dedup_from_nodup l : forall seen,
  NoDup (message_link <$> l) ->
  (forall s, s ∈ l -> message_link s ∉ seen) ->
  dedup_from seen l = l.
Proof.
  induction l as [|s l IH]; intros seen Hnd Hseen; [reflexivity|].
  rewrite fmap_cons, NoDup_cons in Hnd. destruct Hnd as [Hs Hnd].
  cbn [dedup_from]. destruct (decide (message_link s ∈ seen)) as [Hin|_].
  - exfalso. eapply Hseen; [constructor|exact Hin].
  - f_equal. apply IH; [exact Hnd|].
    intros s' Hs' [Heq|Hin]%elem_of_union.
    + apply elem_of_singleton in Heq. apply Hs. rewrite <- Heq.
      by apply list_elem_of_fmap_2.
    + eapply Hseen; [by constructor|exact Hin].
Qed.

Lemma picked_lookup sermons idxs :
  Forall (fun i => in_range (length sermons) i = true) idxs ->
  Forall2 (fun i s => sermons !! Z.to_nat i = Some s) idxs (picked sermons idxs).
Proof.
  induction 1 as [|i idxs Hi _ IH]; [constructor|].
  cbn [picked]. rewrite Hi.
  destruct (sermons !! Z.to_nat i) as [s|] eqn:Hs.
  - by constructor.
  - exfalso. apply lookup_ge_None in Hs. unfold in_range in Hi.
    apply andb_true_iff in Hi as [H0 H1]. apply Z.leb_le in H0. apply Z.ltb_lt in H1. lia.
Qed.

Lemma picked_nodup sermons idxs :
  NoDup (message_link <$> sermons) ->
  NoDup idxs ->
  Forall (fun i => in_range (length sermons) i = true) idxs ->
  NoDup (message_link <$> picked sermons idxs).
Proof.
  intros Hlinks. induction idxs as [|i idxs IH]; intros Hnd Hall; [constructor|].
  apply NoDup_cons in Hnd as [Hi Hnd]. apply Forall_cons in Hall as [Hri Hall].
  cbn [picked]. rewrite Hri.
  destruct (sermons !! Z.to_nat i) as [s|] eqn:His; [|by apply IH].
  rewrite fmap_cons. apply NoDup_cons. split; [|by apply IH].
  intros (s' & Heq & Hs')%list_elem_of_fmap. apply Hi.
  pose proof (picked_lookup sermons idxs Hall) as H3.
  apply list_elem_of_lookup in Hs' as [k Hk].
  destruct (Forall2_lookup_r _ _ _ _ _ H3 Hk) as (j & Hj & Hjs).
  assert (Hsame : Z.to_nat i = Z.to_nat j).
  { apply (NoDup_lookup (message_link <$> sermons) _ _ (message_link s)); [exact Hlinks| |].
    - by rewrite list_lookup_fmap, His.
    - rewrite list_lookup_fmap, Hjs. cbn. by rewrite Heq. }
  assert (i = j).
  { rewrite Forall_forall in Hall.
    assert (Hrj : in_range (length sermons) j = true)
      by (apply Hall; eapply list_elem_of_lookup_2; eauto).
    unfold in_range in Hri, Hrj.
    apply andb_true_iff in Hri as [Hi0 _]. apply andb_true_iff in Hrj as [Hj0 _].
    apply Z.leb_le in Hi0. apply Z.leb_le in Hj0. lia. }
  subst j. eapply list_elem_of_lookup_2; eauto.
Qed.

(** X11: the answer of the model is followed faithfully.  If the
    candidates have pairwise distinct links and the response decodes to
    distinct in-range integers, then on a cache miss [rank_sermons] returns
    exactly the candidates at those positions, one per index and in the
    order of the indexes. *)
Theorem rank_follows_the_indexes e query sermons user_id w content idxs :
  sermons <> [] ->
  cache_miss e query user_id w ->
  NoDup (message_link <$> sermons) ->
  llm_reply e = Ret content ->
  bracketed content = true ->
  json_loads content = Ret (map JInt idxs) ->
  NoDup idxs ->
  Forall (fun i => 0 <= i < Z.of_nat (length sermons)) idxs ->
  Forall2 (fun i s => sermons !! Z.to_nat i = Some s) idxs
          (fst (rank_sermons json_loads e query sermons user_id w)).
Proof.
  intros Hne Hmiss Hlinks Hc Hb Hl Hnd Hrange.
  assert (Hall : Forall (fun i => in_range (length sermons) i = true) idxs).
  { eapply Forall_impl; [exact Hrange|]. cbn. intros i [H0 H1].
    unfold in_range. apply andb_true_iff. split; [by apply Z.leb_le|by apply Z.ltb_lt]. }
  assert (Hrun := rank_try_ints json_loads sermons content idxs Hb Hl).
  rewrite <- Hc in Hrun.
  rewrite (rank_sermons_ret _ _ _ _ _ _ _ Hne Hmiss Hrun). cbn [fst].
  rewrite dedup_from_nodup.
  - by apply picked_lookup.
  - by apply picked_nodup.
  - intros s _. apply not_elem_of_empty.
Qed.

Lemma falsy_later now now' key
    (fs : gmap string (CacheManager.cache_file (list Sermon))) :
  now <= now' ->
  falsy (fst (CacheManager.get now key fs)) ->
  falsy (fst (CacheManager.get now' key fs)).
Proof.
  intros Hle. unfold CacheManager.get.
  destruct (fs !! CacheManager.cache_path key) as [f|]; [|auto].
  destruct f as [| | |[v ex]]; try (intros _; by left).
  destruct ex as [[|[t|t o]]|]; try (intros _; by left).
  cbv [CacheManager.get_try CacheManager.json_load CacheManager.getitem_expires_at
       CacheManager.getitem_value CacheManager.fromisoformat CacheManager.now_gt
       Py.bind try_except CacheManager.doc_value CacheManager.doc_expires_at].
  destruct (t <? now) eqn:E.
  - assert (E' : (t <? now') = true)
      by (apply Z.ltb_lt; apply Z.ltb_lt in E; lia).
    rewrite E'. auto.
  - destruct (t <? now'); [intros _; by left|]. destruct v; auto.
Qed.

(** X12: a failure is not remembered.  After a call whose [try] block
    raised, the cache still yields nothing for the same user and query, and
    the next call for them calls the model again, whatever non-empty
    candidate list it is given; given no candidate it returns the empty
    list at once, without a model call. *)
Theorem rank_retries_after_failure e1 e2 query sermons1 sermons2 user_id w :
  sermons1 <> [] ->
  cache_miss e1 query user_id w ->
  raises (rank_try json_loads sermons1 (llm_reply e1)) ->
  now_get e1 <= now_get e2 ->
  let w1 := snd (rank_sermons json_loads e1 query sermons1 user_id w) in
  let r2 := rank_sermons json_loads e2 query sermons2 user_id w1 in
  cache_miss e2 query user_id w1
  /\ llm_calls w1 = S (llm_calls w)
  /\ (sermons2 <> [] -> llm_calls (snd r2) = S (S (llm_calls w)))
  /\ (sermons2 = [] -> r2 = ([], w1)).
Proof.
  intros Hne1 Hmiss Hraise Hle w1 r2. subst w1 r2.
  rewrite (rank_sermons_raise _ _ _ _ _ _ Hne1 Hmiss Hraise). cbn [snd].
  assert (Hmiss2 : cache_miss e2 query user_id
            (World (snd (CacheManager.get (now_get e1) (cache_key user_id query) (files w)))
                   (S (llm_calls w)) (cache_sets w))).
  { unfold cache_miss in *. cbn [files].
    rewrite eviction_unobservable by exact Hle. by apply (falsy_later (now_get e1)). }
  split; [exact Hmiss2|]. split; [reflexivity|]. split.
  - intros Hne2. rewrite (rank_sermons_miss _ _ _ _ _ _ Hne2 Hmiss2).
    destruct (rank_try json_loads sermons2 (llm_reply e2)); reflexivity.
  - intros ->. reflexivity.
Qed.

Lemma rank_result_by_lookup e query sermons user_id w :
  fst (rank_sermons json_loads e query sermons user_id w)
  = match sermons with
    | [] => []
    | _ :: _ =>
        match fst (CacheManager.get (now_get e) (cache_key user_id query) (files w)) with
        | Some ((_ :: _) as hit_list) => hit_list
        | _ => match rank_try json_loads sermons (llm_reply e) with
               | Ret ranked => ranked
               | Raise _ => fallback sermons
               end
        end
    end.
Proof.
  unfold rank_sermons. destruct sermons as [|s0 rest]; [reflexivity|].
  destruct (CacheManager.get (now_get e) (cache_key user_id query) (files w))
    as [cached files1].
  cbn [fst]. destruct cached as [[|h hs]|];
    try reflexivity; destruct (rank_try json_loads (s0 :: rest) (llm_reply e)); reflexivity.
Qed.

(** X13: users are isolated.  What [rank_sermons] returns for one user
    does not depend on what the cache holds for another user, whatever the
    queries. *)
Theorem rank_users_isolated e query query' sermons user_id user_id' now v fs calls sets :
  user_id <> user_id' ->
  fst (rank_sermons json_loads e query sermons user_id
         (World (CacheManager.set now (cache_key user_id' query') v fs) calls sets))
  = fst (rank_sermons json_loads e query sermons user_id (World fs calls sets)).
Proof.
  intros Hne. rewrite !rank_result_by_lookup. cbn [files].
  rewrite get_after_other_set; [reflexivity|].
  intros H. apply cache_path_inj, cache_key_inj in H as [H _]. congruence.
Qed.

End RankMore.

(** ** Pagination over several requests *)

Section Paging.
Import utils telegram_bot bot_flow.
Implicit Types (sessions : gmap Z Session) (user_id : Z).

Lemma sermons_in_app a b : sermons_in (a ++ b) = sermons_in a ++ sermons_in b.
Proof. unfold sermons_in. apply flat_map_app. Qed.

Lemma sermons_in_messages batch :
  sermons_in (_send_sermon_recommendations batch) = batch.
Proof.
  unfold sermons_in, _send_sermon_recommendations.
  induction batch as [|s batch IH]; [reflexivity|]. cbn. by rewrite IH.
Qed.

(** One "more" request of a user with a session: the sermons sent are
    the page at the cursor; the list is kept; the cursor moves by five
    unless the page is empty; no other session changes. *)
Lemma handle_more_step user_id sessions ses :
  sessions !! user_id = Some ses ->
  let page := take 5 (drop (index ses) (sermons ses)) in
  sermons_in (fst (_handle_more user_id sessions)) = page
  /\ snd (_handle_more user_id sessions) !! user_id
     = Some {| sermons := sermons ses;
               index := if decide (page = []) then index ses else (index ses + 5)%nat |}
  /\ forall u, u <> user_id ->
       snd (_handle_more user_id sessions) !! u = sessions !! u.
Proof.
  intros Hs page. unfold _handle_more. rewrite Hs.
  rewrite slice_page. fold page.
  destruct page as [|s0 rest] eqn:Hpage; cbn [fst snd].
  - split; [reflexivity|]. split; [|auto].
    rewrite Hs. destruct ses. reflexivity.
  - split.
    + change (sermons_in ([HereAreMore] ++ _send_sermon_recommendations (s0 :: rest)
                            ++ [if (index ses + 5 <? length (sermons ses))%nat
                                then StillMoreAvailable else ThatsAll]) = s0 :: rest).
      rewrite !sermons_in_app, sermons_in_messages.
      destruct (_ <? _)%nat; cbn; by rewrite app_nil_r.
    + split; [apply lookup_insert_eq|].
      intros u Hu. by apply lookup_insert_ne.
Qed.

Lemma more_times_pages k : forall user_id sessions ses,
  sessions !! user_id = Some ses ->
  let replies := fst (more_times k user_id sessions) in
  let sessions' := snd (more_times k user_id sessions) in
  sermons_in replies = take (5 * k) (drop (index ses) (sermons ses))
  /\ (length (sermons ses) <= index ses + 5 * k ->
      sermons_in replies = drop (index ses) (sermons ses))%nat
  /\ (exists c, sessions' !! user_id = Some {| sermons := sermons ses; index := c |}
         /\ (index ses <= c)%nat
         /\ (length (sermons ses) <= index ses + 5 * k -> length (sermons ses) <= c)%nat)
  /\ forall u, u <> user_id -> sessions' !! u = sessions !! u.
Proof.
  induction k as [|k IH]; intros user_id sessions ses Hs replies sessions';
    subst replies sessions'.
  - cbn [more_times fst snd]. rewrite Nat.mul_0_r, take_0.
    split; [reflexivity|]. split.
    + intros H. symmetry. apply drop_ge. lia.
    + split; [|auto]. exists (index ses). rewrite Hs. destruct ses.
      cbn [index sermons]. split; [reflexivity|]. split; lia.
  - cbn [more_times].
    destruct (handle_more_step user_id sessions ses Hs) as (Hsent & Hnext & Hframe).
    destruct (_handle_more user_id sessions) as [replies1 sessions1].
    cbn [fst snd] in Hsent, Hnext, Hframe.
    specialize (IH user_id sessions1 _ Hnext).
    destruct (more_times k user_id sessions1) as [later sessions2].
    cbn [fst snd index sermons] in *.
    destruct IH as (IHsent & _ & (c & Hc & Hle & Hend) & IHframe).
    rewrite sermons_in_app, Hsent, IHsent.
    assert (Htake : take 5 (drop (index ses) (sermons ses))
                    ++ take (5 * k)
                         (drop (if decide (take 5 (drop (index ses) (sermons ses)) = [])
                                then index ses else (index ses + 5)%nat) (sermons ses))
                    = take (5 * S k) (drop (index ses) (sermons ses))).
    { destruct (decide (take 5 (drop (index ses) (sermons ses)) = [])) as [He|Hne].
      - apply take_nil_inv in He as [He|He]; [lia|].
        by rewrite He, !take_nil.
      - rewrite <- (drop_drop (sermons ses) 5 (index ses)), take_take_drop.
        f_equal. lia. }
    split; [exact Htake|]. split.
    + intros H. rewrite Htake. apply take_ge. rewrite length_drop. lia.
    + split.
      * exists c. split; [exact Hc|].
        destruct (decide (take 5 (drop (index ses) (sermons ses)) = [])) as [He|Hne].
        -- split; [lia|]. intros _.
           apply take_nil_inv in He as [He|He]; [lia|].
           apply drop_nil_inv in He. lia.
        -- split; [lia|]. intros H. apply Hend. lia.
      * intros u Hu. rewrite IHframe by exact Hu. by apply Hframe.
Qed.

(** X14: pages follow one another.  After [k] "more" requests in a row,
    the sermons sent are, in order and without repetition or gap, the next
    [5 * k] items of the ranked list from the cursor on, or all the
    remaining ones if fewer are left; the list of the session is kept, the
    cursor never moves back and ends at or past the end of the list once
    everything was sent; other users' sessions are untouched. *)
Theorem more_requests_page_through k user_id sessions ses :
  sessions !! user_id = Some ses ->
  let replies := fst (more_times k user_id sessions) in
  let sessions' := snd (more_times k user_id sessions) in
  sermons_in replies = take (5 * k) (drop (index ses) (sermons ses))
  /\ (length (sermons ses) <= index ses + 5 * k ->
      sermons_in replies = drop (index ses) (sermons ses))%nat
  /\ (exists c, sessions' !! user_id = Some {| sermons := sermons ses; index := c |}
         /\ (index ses <= c)%nat
         /\ (length (sermons ses) <= index ses + 5 * k -> length (sermons ses) <= c)%nat)
  /\ forall u, u <> user_id -> sessions' !! u = sessions !! u.
Proof. apply more_times_pages. Qed.

(** X15: a session is only ever created by a search.  A "more" request
    creates no session, removes none, and alters neither the list of a
    session nor the cursor of another user. *)
Theorem handle_more_keeps_sessions user_id sessions :
  let sessions' := snd (_handle_more user_id sessions) in
  (forall u, sessions' !! u = None <-> sessions !! u = None)
  /\ (forall u ses ses', sessions !! u = Some ses -> sessions' !! u = Some ses' ->
        sermons ses' = sermons ses /\ (index ses <= index ses')%nat
        /\ (u <> user_id -> ses' = ses)).
Proof.
  intros sessions'. subst sessions'.
  destruct (sessions !! user_id) as [ses0|] eqn:Hs.
  - destruct (handle_more_step user_id sessions ses0 Hs) as (_ & Hnext & Hframe).
    split.
    + intros u. destruct (decide (u = user_id)) as [->|Hu].
      * rewrite Hnext, Hs. split; discriminate.
      * by rewrite Hframe.
    + intros u ses ses' Hu Hu'. destruct (decide (u = user_id)) as [->|Hne].
      * rewrite Hnext in Hu'. rewrite Hs in Hu. injection Hu as <-. injection Hu' as <-.
        cbn [sermons index]. split; [reflexivity|]. split; [|congruence].
        destruct (decide _); lia.
      * rewrite Hframe in Hu' by exact Hne. rewrite Hu in Hu'. injection Hu' as <-.
        split; [reflexivity|]. split; [lia|auto].
  - unfold _handle_more. rewrite Hs. cbn [snd]. split; [tauto|].
    intros u ses ses' Hu Hu'. rewrite Hu in Hu'. injection Hu' as <-.
    split; [reflexivity|]. split; [lia|auto].
Qed.

End Paging.

(** ** A whole request: [_process_recommendation], [handle_message],
    [recommend_command] *)

Section Requests.
Import utils telegram_bot bot_flow.
Variable json_loads : string -> outcome (list json).
Implicit Types (rq : request) (st : bot) (user_id : Z) (m : str_methods).

Lemma sermons_shown_app a b : sermons_shown (a ++ b) = sermons_shown a ++ sermons_shown b.
Proof. unfold sermons_shown. apply flat_map_app. Qed.

Lemma sermons_shown_paging replies :
  sermons_shown (map Paging replies) = sermons_in replies.
Proof.
  unfold sermons_shown, sermons_in.
  induction replies as [|r replies IH]; [reflexivity|].
  cbn [map flat_map]. rewrite IH. by destruct r.
Qed.

(** [_process_recommendation] when the ranking is not empty. *)
Lemma process_success rq user_id topic num st hit hits ranked0 ranked w1 :
  search (similarity_search_with_score rq) topic config.TOP_K_SEARCH = hit :: hits ->
  rank_sermons json_loads (ranking rq) topic (hit :: hits) user_id (process st)
    = (ranked0 :: ranked, w1) ->
  _process_recommendation json_loads rq user_id topic num st
  = ([TypingAction; AIResponse (generate_response (response_reply rq))]
       ++ map Paging (_send_sermon_recommendations (take num (ranked0 :: ranked)))
       ++ (if (num <? length (ranked0 :: ranked))%nat then [WantMore] else []),
     Bot (World (files w1) (S (llm_calls w1)) (cache_sets w1))
         (<[user_id := {| sermons := ranked0 :: ranked; index := num |}]>
            (user_sessions st))).
Proof.
  intros Hsearch Hrank. unfold _process_recommendation.
  rewrite Hsearch, Hrank. reflexivity.
Qed.

(** X16: a request that finds nothing starts no session.  When the search
    returns no hit (also because the vector store raised), the bot answers
    that nothing matched and its state is unchanged: no model call, no
    cache access.  When the ranking returns no sermon, it answers that
    nothing relevant was found, and the sessions are unchanged, so that a
    later "more" still pages through the previous search. *)
Theorem process_without_result_keeps_sessions rq user_id topic num st :
  let hits := search (similarity_search_with_score rq) topic config.TOP_K_SEARCH in
  let r := _process_recommendation json_loads rq user_id topic num st in
  (raises (similarity_search_with_score rq topic config.TOP_K_SEARCH) -> hits = [])
  /\ (hits = [] -> r = ([TypingAction; NoMatchingSermons], st))
  /\ (hits <> [] ->
      fst (rank_sermons json_loads (ranking rq) topic hits user_id (process st)) = [] ->
      fst r = [TypingAction; NoRelevantSermons]
      /\ user_sessions (snd r) = user_sessions st
      /\ process (snd r)
         = snd (rank_sermons json_loads (ranking rq) topic hits user_id (process st))).
Proof.
  intros hits r. subst hits r. split; [apply search_absorbs|]. split.
  - intros H. unfold _process_recommendation. by rewrite H.
  - intros Hne Hrank. unfold _process_recommendation.
    destruct (search _ topic config.TOP_K_SEARCH) as [|hit hits]; [congruence|].
    destruct (rank_sermons json_loads (ranking rq) topic (hit :: hits) user_id (process st))
      as [ranked w1].
    cbn [fst snd] in *. subst ranked. auto.
Qed.

(** X17: a request that finds something shows its first [num] sermons
    and starts a session whose cursor is [num]; "more" requests then
    continue from there: after [k] of them the user has been shown, in
    order and without repetition, the first [num + 5 * k] items of the
    ranked list.  The hint that more is available is sent exactly when the
    list is longer than [num]. *)
Theorem process_then_more rq user_id topic num st hit hits ranked0 ranked w1 k :
  search (similarity_search_with_score rq) topic config.TOP_K_SEARCH = hit :: hits ->
  rank_sermons json_loads (ranking rq) topic (hit :: hits) user_id (process st)
    = (ranked0 :: ranked, w1) ->
  let r := _process_recommendation json_loads rq user_id topic num st in
  sermons_shown (fst r) = take num (ranked0 :: ranked)
  /\ user_sessions (snd r) !! user_id
     = Some {| sermons := ranked0 :: ranked; index := num |}
  /\ (forall u, u <> user_id -> user_sessions (snd r) !! u = user_sessions st !! u)
  /\ (WantMore ∈ fst r <-> (num < length (ranked0 :: ranked))%nat)
  /\ sermons_shown (fst r)
       ++ sermons_in (fst (more_times k user_id (user_sessions (snd r))))
     = take (num + 5 * k) (ranked0 :: ranked).
Proof.
  intros Hsearch Hrank r. subst r.
  rewrite (process_success _ _ _ num _ _ _ _ _ _ Hsearch Hrank). cbn [fst snd user_sessions].
  assert (Hshown : sermons_shown
            ([TypingAction; AIResponse (generate_response (response_reply rq))]
               ++ map Paging (_send_sermon_recommendations (take num (ranked0 :: ranked)))
               ++ (if (num <? length (ranked0 :: ranked))%nat then [WantMore] else []))
          = take num (ranked0 :: ranked)).
  { rewrite !sermons_shown_app, sermons_shown_paging, sermons_in_messages.
    destruct (_ <? _)%nat; cbn; by rewrite app_nil_r. }
  split; [exact Hshown|]. split; [apply lookup_insert_eq|].
  split; [intros u Hu; by apply lookup_insert_ne|]. split.
  - destruct (num <? length (ranked0 :: ranked))%nat eqn:E.
    + apply Nat.ltb_lt in E. split; [auto|]. intros _.
      apply elem_of_app. right. apply elem_of_app. right. constructor.
    + apply Nat.ltb_ge in E. split; [|lia]. intros H. exfalso.
      apply elem_of_app in H as [H|H].
      * repeat (apply elem_of_cons in H as [H|H]; [discriminate|]).
        by apply elem_of_nil in H.
      * rewrite app_nil_r in H. apply list_elem_of_In, in_map_iff in H as (x & Hx & _).
        discriminate.
  - rewrite Hshown.
    destruct (more_times_pages k user_id
                (<[user_id := {| sermons := ranked0 :: ranked; index := num |}]>
                   (user_sessions st))
                {| sermons := ranked0 :: ranked; index := num |}) as (Hsent & _).
    { apply lookup_insert_eq. }
    cbn [index sermons] in Hsent. rewrite Hsent. apply take_take_drop.
Qed.

Lemma extract_intent_cases m message :
  extract_intent m message
  = (message,
     match List.find (isdigit m) (split m message) with
     | Some word => match int m word with
                    | Ret n => Nat.min n 20
                    | Raise _ => config.DEFAULT_RECOMMENDATIONS
                    end
     | None => config.DEFAULT_RECOMMENDATIONS
     end).
Proof.
  unfold extract_intent.
  destruct (List.find (isdigit m) (split m message)) as [word|]; [|reflexivity].
  destruct (int m word); reflexivity.
Qed.

Lemma extract_intent_at_most_20 m message :
  (snd (extract_intent m message) <= 20)%nat.
Proof.
  rewrite extract_intent_cases. cbn [snd]. unfold config.DEFAULT_RECOMMENDATIONS.
  destruct (List.find _ _) as [word|]; [|lia].
  destruct (int m word); lia.
Qed.

(** X18: [extract_intent] keeps the whole message as the topic and asks
    for at most 20 sermons.  The count is that of the first word made of
    digits, capped at 20; it is the default 5 when no word is made of
    digits and when [int] rejects that first word; later numbers are
    ignored. *)
Theorem extract_intent_count m message :
  fst (extract_intent m message) = message
  /\ (snd (extract_intent m message) <= 20)%nat
  /\ (Forall (fun w => isdigit m w = false) (split m message) ->
      snd (extract_intent m message) = 5%nat)
  /\ (forall before word after,
        split m message = before ++ word :: after ->
        Forall (fun w => isdigit m w = false) before ->
        isdigit m word = true ->
        (forall n, int m word = Ret n -> snd (extract_intent m message) = Nat.min n 20)
        /\ (raises (int m word) -> snd (extract_intent m message) = 5%nat)).
Proof.
  rewrite extract_intent_cases. cbn [fst snd]. split; [reflexivity|]. split.
  - unfold config.DEFAULT_RECOMMENDATIONS.
    destruct (List.find _ _) as [word|]; [|lia].
    destruct (int m word); lia.
  - split.
    + intros Hall. destruct (List.find _ _) as [word|] eqn:Hf; [|reflexivity].
      apply find_some in Hf as [Hin Hd]. rewrite Forall_forall in Hall.
      apply list_elem_of_In in Hin. rewrite (Hall _ Hin) in Hd. discriminate.
    + intros before word after Hsplit Hbefore Hword.
      assert (Hf : List.find (isdigit m) (split m message) = Some word).
      { rewrite Hsplit. clear Hsplit.
        induction Hbefore as [|w before Hw _ IH]; cbn [app List.find].
        - by rewrite Hword.
        - by rewrite Hw. }
      rewrite Hf. split.
      * intros n ->. reflexivity.
      * intros [x ->]. reflexivity.
Qed.

Lemma process_shows_at_most_num rq user_id topic num st :
  (length (sermons_shown (fst (_process_recommendation json_loads rq user_id topic num st)))
   <= num)%nat.
Proof.
  unfold _process_recommendation.
  destruct (search _ topic config.TOP_K_SEARCH) as [|hit hits]; [cbn; lia|].
  destruct (rank_sermons json_loads (ranking rq) topic (hit :: hits) user_id (process st))
    as [[|ranked0 ranked] w1]; [cbn; lia|].
  cbn [fst]. rewrite !sermons_shown_app, sermons_shown_paging, sermons_in_messages.
  destruct (_ <? _)%nat; cbn [sermons_shown flat_map app]; rewrite app_nil_r;
    rewrite length_take; lia.
Qed.

(** X19: no answer to a text message carries more than 20 sermons, and a
    "more" message (whatever its case and the blanks around it) is served
    from the session alone: it reaches neither the vector store nor the
    model nor the cache. *)
Theorem handle_message_bounds m rq user_id text st :
  let r := handle_message json_loads m rq user_id text st in
  (length (sermons_shown (fst r)) <= 20)%nat
  /\ (is_more_request (lower m (strip m text)) = true ->
      process (snd r) = process st
      /\ fst r = map Paging (fst (_handle_more user_id (user_sessions st)))
      /\ (length (sermons_shown (fst r)) <= 5)%nat).
Proof.
  intros r. subst r. unfold handle_message.
  destruct (is_more_request (lower m (strip m text))).
  - destruct (user_sessions st !! user_id) as [ses|] eqn:Hs.
    + destruct (handle_more_step user_id (user_sessions st) ses Hs) as (Hsent & _).
      destruct (_handle_more user_id (user_sessions st)) as [replies sessions'].
      cbn [fst snd process] in *. rewrite sermons_shown_paging, Hsent, length_take.
      split; [lia|]. intros _. split; [reflexivity|]. split; [reflexivity|lia].
    + unfold _handle_more. rewrite Hs. cbn. split; [lia|]. intros _. repeat split; lia.
  - split; [|discriminate].
    pose proof (extract_intent_at_most_20 m (strip m text)) as Hle.
    destruct (extract_intent m (strip m text)) as [topic num]. cbn [snd] in Hle.
    etransitivity; [apply process_shows_at_most_num|exact Hle].
Qed.

(** X20: [recommend_command] answers a command without arguments with the
    usage message alone and leaves the state as it is; otherwise it shows
    at most 20 sermons.  When the last argument is made of digits that
    [int] rejects, the ValueError leaves the handler and nothing is sent by
    it. *)
Theorem recommend_command_bounds m rq user_id args st :
  (args = [] ->
   recommend_command json_loads m rq user_id args st = Ret ([ProvideTopic], st))
  /\ (forall r, recommend_command json_loads m rq user_id args st = Ret r ->
        (length (sermons_shown (fst r)) <= 20)%nat)
  /\ (forall w, last args = Some w -> isdigit m w = true -> raises (int m w) ->
        raises (recommend_command json_loads m rq user_id args st)).
Proof.
  unfold recommend_command. split; [intros ->; reflexivity|]. split.
  - intros r. destruct (last args) as [w|]; [|intros [= <-]; cbn; lia].
    destruct (isdigit m w).
    + destruct (int m w) as [n|x]; [|discriminate]. cbn [Py.bind]. intros [= <-].
      etransitivity; [apply process_shows_at_most_num|lia].
    + intros [= <-]. etransitivity; [apply process_shows_at_most_num|].
      unfold config.DEFAULT_RECOMMENDATIONS. lia.
  - intros w -> -> [x ->]. cbn. by eexists.
Qed.

End Requests.

(** ** Ingestion: [_is_teaching], [_fallback_extract_metadata] *)

Section Ingestion.
Import rag_ingest.
Implicit Types (m : str_methods) (message : string).

(** X21: [_is_teaching] accepts a message only if it has at least 100
    characters and at least two of the teaching keywords occur in its
    lower-case form; the model is called for exactly those messages, once;
    its answer decides (the upper-cased answer has to contain YES), and
    when the call raises such a message is accepted. *)
Theorem is_teaching_gate m reply message :
  let r := _is_teaching m reply message in
  let eligible :=
    (100 <= text.len message)%nat /\ (2 <= keyword_count (lower m message))%nat in
  (fst r = true -> eligible)
  /\ (eligible -> snd r = 1%nat)
  /\ (~ eligible -> r = (false, O))
  /\ (eligible -> raises reply -> fst r = true)
  /\ (eligible -> forall content, reply = Ret content ->
        fst r = text.contains "YES" (upper m (strip m content))).
Proof.
  intros r eligible. subst r eligible. unfold _is_teaching.
  destruct (text.len message <? 100)%nat eqn:Hlen.
  { apply Nat.ltb_lt in Hlen. cbn [fst snd].
    repeat split; try discriminate; try (intros [H1 H2]; lia). }
  apply Nat.ltb_ge in Hlen.
  destruct (keyword_count (lower m message) <? 2)%nat eqn:Hcount.
  { apply Nat.ltb_lt in Hcount. cbn [fst snd].
    repeat split; try discriminate; try (intros [H1 H2]; lia). }
  apply Nat.ltb_ge in Hcount. cbn [fst snd].
  split; [auto|]. split; [auto|]. split; [intros H; exfalso; apply H; auto|].
  split.
  - intros _ [x ->]. cbv [try_except bind]. by apply Nat.leb_le.
  - intros _ content ->. cbv [try_except bind]. reflexivity.
Qed.

Lemma len_take n s : (text.len (text.take n s) <= n)%nat.
Proof.
  revert n. induction s as [|a s IH]; intros n; [cbn; lia|].
  cbn [text.take]. destruct (text.is_continuation a) eqn:E.
  - cbn [text.len]. rewrite E. apply IH.
  - destruct n as [|n]; [cbn; lia|]. cbn [text.len]. rewrite E.
    specialize (IH n). lia.
Qed.

(** X22: the metadata extracted without the model.  The title has at most
    200 characters.  The theme is "General" exactly when no theme keyword
    occurs in the lower-case message; otherwise it is the name attached to
    the first keyword of the table that occurs, whatever the order of the
    words in the message. *)
Theorem fallback_metadata_title_and_theme m message :
  let title := fst (fst (_fallback_extract_metadata m message)) in
  let theme := snd (_fallback_extract_metadata m message) in
  (text.len title <= 200)%nat
  /\ (Forall (fun kv => text.contains (fst kv) (lower m message) = false) theme_keywords ->
      theme = "General")
  /\ (forall before kv after,
        theme_keywords = before ++ kv :: after ->
        Forall (fun kv' => text.contains (fst kv') (lower m message) = false) before ->
        text.contains (fst kv) (lower m message) = true ->
        theme = snd kv)
  /\ theme ∈ "General" :: map snd theme_keywords.
Proof.
  intros title theme. subst title theme. unfold _fallback_extract_metadata.
  cbn [fst snd]. split.
  - destruct (map (strip m) _) as [|first rest]; [vm_compute; lia|].
    destruct ((text.len (text.take 200 first) <? 20) && (50 <? text.len message))%nat;
      [|apply len_take].
    destruct (text.split_on "." message); apply len_take.
  - set (occurs := fun kv : string * string => text.contains (fst kv) (lower m message)).
    split; [|split].
    + intros Hall. destruct (List.find occurs theme_keywords) as [kv|] eqn:Hf; [|reflexivity].
      apply find_some in Hf as [Hin Hkv]. rewrite Forall_forall in Hall.
      apply list_elem_of_In in Hin. specialize (Hall _ Hin). subst occurs. cbn in *.
      congruence.
    + intros before kv after Htable Hbefore Hkv.
      rewrite Htable. clear Htable.
      induction Hbefore as [|kv' before Hkv' _ IH]; cbn [app List.find].
      * subst occurs. cbn. by rewrite Hkv.
      * subst occurs. cbn in *. by rewrite Hkv'.
    + destruct (List.find occurs theme_keywords) as [kv|] eqn:Hf; [|by left].
      apply find_some in Hf as [Hin _]. right.
      apply list_elem_of_In, in_map. exact Hin.
Qed.

End Ingestion.

(** ** [fix_vector_store.py]: batches and metadata *)

Section FixVectorStore.
Import fix_vector_store.

Lemma concat_batches {A : Type} (l : list A) k :
  concat (map (fun i => slice l i (i + batch_size))
              (map (fun j => (j * batch_size)%nat) (seq 0 k)))
  = take (k * batch_size) l.
Proof.
  induction k as [|k IH]; [by rewrite take_0|].
  rewrite seq_S, !map_app, concat_app, IH. cbn [map concat Nat.add].
  rewrite app_nil_r. unfold slice.
  replace (k * batch_size + batch_size - k * batch_size)%nat with batch_size by lia.
  rewrite take_take_drop. f_equal. lia.
Qed.

Lemma batch_count_covers n : (n <= (n + batch_size - 1) / batch_size * batch_size)%nat.
Proof.
  unfold batch_size.
  pose proof (Nat.div_mod_eq (n + 50 - 1) 50) as H.
  pose proof (Nat.mod_upper_bound (n + 50 - 1) 50). lia.
Qed.

Lemma batch_start_inside n j :
  (j < (n + batch_size - 1) / batch_size)%nat -> (j * batch_size < n)%nat.
Proof.
  unfold batch_size. intros Hj.
  pose proof (Nat.div_mod_eq (n + 50 - 1) 50) as H.
  pose proof (Nat.mod_upper_bound (n + 50 - 1) 50). nia.
Qed.

(** X23: the fix script hands every document to [add_documents] exactly
    once and in order: the batches, put end to end, are the list of
    documents; each batch holds between 1 and 50 documents; and there are
    ceil(n / 50) of them (none for an empty list). *)
Theorem batches_cover_documents {A : Type} (documents : list A) :
  concat (batches documents) = documents
  /\ Forall (fun batch => 1 <= length batch <= 50)%nat (batches documents)
  /\ length (batches documents) = ((length documents + 49) / 50)%nat.
Proof.
  unfold batches, range_step. split; [|split].
  - rewrite concat_batches. apply take_ge, batch_count_covers.
  - apply Forall_forall. intros batch Hb.
    apply list_elem_of_In, in_map_iff in Hb as (i & <- & Hi).
    apply in_map_iff in Hi as (j & <- & Hj). apply in_seq in Hj.
    pose proof (batch_start_inside (length documents) j) as Hin.
    unfold slice. rewrite length_take, length_drop. unfold batch_size in *. lia.
  - rewrite !length_map, length_seq. unfold batch_size. f_equal. lia.
Qed.

(** X24: from the table back to a hit.  A row that the fix script turned
    into a document comes back from [search] with its title, description,
    channel and link; a NULL date or theme comes back as the empty string,
    and the image is never [None]: it is the empty string for a row
    without image.  The score is one minus the distance. *)
Theorem fixed_document_hit (sermon : db_handler.Row) (distance : float) :
  let h := utils.hit (document_of sermon, distance) in
  utils.title h = db_handler.title sermon
  /\ utils.description h = db_handler.description sermon
  /\ utils.channel h = db_handler.channel sermon
  /\ utils.message_link h = db_handler.message_link sermon
  /\ utils.date h = or_empty (db_handler.date sermon)
  /\ utils.theme h = or_empty (db_handler.theme sermon)
  /\ utils.image_url h = Some (or_empty (db_handler.image_url sermon))
  /\ utils.similarity_score h = (1 - distance)%float.
Proof.
  cbv zeta. unfold utils.hit, document_of, utils.dict_get. cbn [utils.metadata].
  repeat split;
    repeat (first [ rewrite lookup_insert_eq | rewrite lookup_insert_ne by discriminate
                  | rewrite lookup_singleton_eq ]);
    reflexivity.
Qed.

End FixVectorStore.

(** ** [main.py]: the retry loop *)

Section Startup.
Import main.

(** X25: the start of the bot.  With the token or the API key unset or
    empty, [main] exits with status 1 before any attempt.  Otherwise it
    makes at most five attempts, each after a network failure of the one
    before, sleeping 5, 10, 15 and 20 seconds in between; it returns when
    an attempt returns or is interrupted, and exits with status 1 on any
    other error, and on the fifth network failure without sleeping
    again. *)
Theorem main_retries_at_most_five token key attempt :
  let ending := fst (fst (main.main token key attempt)) in
  let attempts := snd (fst (main.main token key attempt)) in
  let sleeps := snd (main.main token key attempt) in
  (missing token = true \/ missing key = true ->
   main.main token key attempt = (SysExit 1, O, []))
  /\ (attempts <= 5)%nat
  /\ sleeps = map (fun i => (5 * S i)%nat) (seq 0 (pred attempts))
  /\ (forall i, (S i < attempts)%nat -> attempt i = NetworkFailure)
  /\ (missing token = false -> missing key = false ->
      (1 <= attempts)%nat
      /\ match attempt (pred attempts) with
         | PollingReturned | Interrupted => ending = Returned
         | NetworkFailure => ending = SysExit 1 /\ attempts = 5%nat
         | OtherError => ending = SysExit 1
         end).
Proof.
  cbv zeta. unfold main.main.
  destruct (missing token);
    [cbn [fst snd pred seq map]; repeat split; intros; first [lia|discriminate]|].
  destruct (missing key);
    [cbn [fst snd pred seq map]; repeat split; intros; first [lia|discriminate]|].
  split; [intros [|]; discriminate|].
  cbv [retry_loop max_retries Nat.ltb Nat.leb app].
  destruct (attempt 0%nat) eqn:E0; cbn [fst snd pred seq map];
    try (split; [lia|]; split; [reflexivity|]; split; [intros i Hi; lia|];
         intros _ _; split; [lia|]; rewrite E0; auto).
  destruct (attempt 1%nat) eqn:E1; cbn [fst snd pred seq map];
    try (split; [lia|]; split; [reflexivity|];
         split; [intros [|i] Hi; [exact E0|lia]|];
         intros _ _; split; [lia|]; rewrite E1; auto).
  destruct (attempt 2%nat) eqn:E2; cbn [fst snd pred seq map];
    try (split; [lia|]; split; [reflexivity|];
         split; [intros [|[|i]] Hi; [exact E0|exact E1|lia]|];
         intros _ _; split; [lia|]; rewrite E2; auto).
  destruct (attempt 3%nat) eqn:E3; cbn [fst snd pred seq map];
    try (split; [lia|]; split; [reflexivity|];
         split; [intros [|[|[|i]]] Hi; [exact E0|exact E1|exact E2|lia]|];
         intros _ _; split; [lia|]; rewrite E3; auto).
  destruct (attempt 4%nat) eqn:E4; cbn [fst snd pred seq map];
    (split; [lia|]; split; [reflexivity|];
     split; [intros [|[|[|[|i]]]] Hi; [exact E0|exact E1|exact E2|exact E3|lia]|];
     intros _ _; split; [lia|]; rewrite E4; auto).
Qed.

End Startup.

(** ** [rag_ingest.py]: scraping a channel *)

Section Scraping.
Import db_handler db_runs rag_ingest.
Variable json_loads : string -> outcome utils.json.
Variable m : str_methods.
Variable channel_username : string.

#[local] Notation "'step'" := (scrape_message json_loads m channel_username).

Lemma take_take_le n k s : (n <= k)%nat -> text.take k (text.take n s) = text.take n s.
Proof.
  revert n k. induction s as [|a s IH]; intros n k Hnk; [reflexivity|].
  cbn [text.take]. destruct (text.is_continuation a) eqn:E.
  - cbn [text.take]. rewrite E. by rewrite IH.
  - destruct n as [|n]; [reflexivity|]. destruct k as [|k]; [lia|].
    cbn [text.take]. rewrite E. rewrite IH; [reflexivity|lia].
Qed.

Lemma fallback_title_len message :
  (text.len (fst (fst (_fallback_extract_metadata m message))) <= 200)%nat.
Proof.
  unfold _fallback_extract_metadata. cbn [fst snd].
  destruct (map (strip m) _) as [|first rest]; [vm_compute; lia|].
  destruct ((text.len (text.take 200 first) <? 20) && (50 <? text.len message))%nat;
    [|apply len_take].
  destruct (text.split_on "." message); apply len_take.
Qed.

Lemma fallback_theme_len message :
  (text.len (snd (_fallback_extract_metadata m message)) <= 50)%nat.
Proof.
  unfold _fallback_extract_metadata. cbn [fst snd].
  destruct (List.find _ theme_keywords) as [kv|] eqn:Hf; [|vm_compute; lia].
  apply find_some in Hf as [Hin _].
  assert (Hall : Forall (fun kv => (text.len (snd kv) <= 50)%nat) theme_keywords)
    by (unfold theme_keywords; repeat constructor; vm_compute; lia).
  rewrite Forall_forall in Hall. apply Hall, list_elem_of_In, Hin.
Qed.

Lemma slice_json_len n v p : slice_json n v = inr p -> (sliced_len p <= n)%nat.
Proof.
  destruct v; cbn [slice_json]; intros H; try discriminate;
    injection H as <-; cbn [sliced_len]; [apply len_take|apply firstn_le_length].
Qed.

Ltac run_try H :=
  unfold extract_metadata_try in H;
  repeat match type of H with
         | and_then ?x _ = inr _ =>
             let E := fresh "E" in
             destruct x eqn:E; cbn [and_then] in H; [discriminate|]
         end.

Lemma extract_metadata_unbound message :
  _extract_metadata json_loads m (Raise JSONDecodeError) message
  = inl UnboundLocalError.
Proof. reflexivity. Qed.

Lemma extract_metadata_bounds reply message r :
  _extract_metadata json_loads m reply message = inr r ->
  (sliced_len (fst (fst r)) <= 200)%nat /\ (sliced_len (snd r) <= 50)%nat.
Proof.
  unfold _extract_metadata.
  pose proof (fallback_title_len message) as Ht.
  pose proof (fallback_theme_len message) as Hth.
  destruct (_fallback_extract_metadata m message) as [[t d] th].
  cbn [fst snd] in Ht, Hth.
  destruct (extract_metadata_try json_loads m reply message) as [e|r'] eqn:H.
  - destruct e as [x| | |]; [destruct x|..]; try destruct reply; intros E;
      try discriminate; injection E as <-; cbn [fst snd sliced_len]; by split.
  - intros [= <-]. run_try H. injection H as <-. cbn [fst snd].
    split; eapply slice_json_len; eassumption.
Qed.

Lemma extract_metadata_returns reply message :
  reply <> Raise JSONDecodeError ->
  exists r, _extract_metadata json_loads m reply message = inr r.
Proof.
  intros Hreply. unfold _extract_metadata.
  destruct (extract_metadata_try json_loads m reply message) as [e|r'] eqn:H;
    [|by eexists].
  destruct e as [x| | |]; [destruct x|..]; try (by eexists).
  destruct reply as [content|y]; [by eexists|].
  unfold extract_metadata_try in H. cbn [of_outcome and_then] in H. congruence.
Qed.

Lemma is_teaching_calls reply message :
  (snd (_is_teaching m reply message) <= 1)%nat
  /\ (fst (_is_teaching m reply message) = true ->
      snd (_is_teaching m reply message) = 1%nat).
Proof.
  unfold _is_teaching.
  destruct (text.len message <? 100)%nat; [cbn [fst snd]; split; [lia|discriminate]|].
  destruct (keyword_count (lower m message) <? 2)%nat;
    cbn [fst snd]; split; first [lia|discriminate|reflexivity].
Qed.

Lemma other_links_absent l db :
  get_sermon_by_link db l = None -> other_links l (rows db) = rows db.
Proof.
  unfold get_sermon_by_link, select_by_link, other_links.
  induction (rows db) as [|r rs IH]; [reflexivity|].
  cbn [List.filter]. destruct (String.eqb (message_link r) l); [discriminate|].
  cbn [negb]. intros H. by rewrite IH.
Qed.

Lemma get_sermon_by_link_later l db db' row :
  rows db `prefix_of` rows db' ->
  get_sermon_by_link db l = Some row -> get_sermon_by_link db' l = Some row.
Proof.
  intros [k Hk]. unfold get_sermon_by_link, select_by_link. rewrite Hk.
  rewrite List.filter_app.
  destruct (List.filter _ (rows db)) as [|r rs]; [discriminate|]. by intros H.
Qed.

Lemma add_scraped_cases d ts db :
  get_sermon_by_link db (sd_message_link d) = None ->
  add_scraped d ts db = (None, db)
  \/ exists t de th,
       sd_title d = PStr t /\ sd_description d = PStr de /\ sd_theme d = PStr th
       /\ write_locked db = false
       /\ add_scraped d ts db
          = (Some (next_rowid db),
             {| rows := rows db ++ [scraped_row d t de th ts (next_rowid db)];
                sqlite_sequence := next_rowid db;
                write_locked := false |}).
Proof.
  intros Hnew. unfold add_scraped.
  destruct (sd_title d) as [t|] eqn:Et; [|by left].
  destruct (sd_description d) as [de|] eqn:Ede; [|by left].
  destruct (sd_theme d) as [th|] eqn:Eth; [|by left].
  destruct (write_locked db) eqn:Hlock; [left; by apply add_sermon_locked|].
  right. exists t, de, th. repeat split.
  erewrite add_sermon_ok; [|exact Hlock|reflexivity].
  rewrite (other_links_absent _ _ Hnew). reflexivity.
Qed.

Lemma add_scraped_consistent d ts db :
  consistent db -> consistent (snd (add_scraped d ts db)).
Proof.
  intros H. unfold add_scraped.
  destruct (sd_title d), (sd_description d), (sd_theme d);
    first [by apply add_sermon_consistent | exact H].
Qed.

(** One turn of the loop leaves the table, the list and the number of
    metadata calls as they were; or it collects one dict after one call of
    each kind; or its metadata call raises JSONDecodeError and nothing is
    collected. *)
Lemma scrape_message_cases st msg :
  (table (step st msg) = table st /\ sermons (step st msg) = sermons st
   /\ metadata_calls (step st msg) = metadata_calls st
   /\ (teaching_calls st <= teaching_calls (step st msg) <= S (teaching_calls st))%nat)
  \/ (exists d,
       get_sermon_by_link (table st) (message_link_of channel_username msg) = None
       /\ metadata_reply msg <> Raise JSONDecodeError
       /\ sermons (step st msg) = sermons st ++ [d]
       /\ metadata_calls (step st msg) = S (metadata_calls st)
       /\ teaching_calls (step st msg) = S (teaching_calls st)
       /\ table (step st msg) = snd (add_scraped d (stored_at msg) (table st))
       /\ sd_message_link d = message_link_of channel_username msg
       /\ sd_channel d = channel_username
       /\ sd_date d = msg_date msg
       /\ sd_image_url d = (if msg_photo msg
                            then Some (message_link_of channel_username msg) else None)
       /\ (sliced_len (sd_title d) <= 200)%nat
       /\ (sliced_len (sd_theme d) <= 50)%nat)
  \/ (get_sermon_by_link (table st) (message_link_of channel_username msg) = None
      /\ metadata_reply msg = Raise JSONDecodeError
      /\ table (step st msg) = table st /\ sermons (step st msg) = sermons st
      /\ metadata_calls (step st msg) = S (metadata_calls st)
      /\ teaching_calls (step st msg) = S (teaching_calls st)).
Proof.
  unfold scrape_message.
  destruct (msg_text msg) as [[|a message_text]|] eqn:Etext;
    [left; repeat split; lia| |left; repeat split; lia].
  pose proof (is_teaching_calls (teaching_reply msg) (String a message_text)) as [Hle Hone].
  destruct (_is_teaching m (teaching_reply msg) (String a message_text))
    as [teaching calls]. cbn [fst snd] in Hle, Hone.
  destruct teaching; [|left; cbn [table sermons metadata_calls teaching_calls];
                        repeat split; lia].
  rewrite (Hone eq_refl). unfold _extract_sermon_data.
  destruct (get_sermon_by_link (table st) (message_link_of channel_username msg))
    as [row|] eqn:Hlink.
  { left. cbn [table sermons metadata_calls teaching_calls]. repeat split; lia. }
  destruct (_extract_metadata json_loads m (metadata_reply msg) (String a message_text))
    as [err|[[t de] th]] eqn:Hmeta.
  - (* the metadata call raised JSONDecodeError *)
    right. right. cbn [table sermons metadata_calls teaching_calls].
    split; [reflexivity|]. split; [|repeat split; lia].
    destruct (metadata_reply msg) as [content|[]] eqn:Hreply; try reflexivity;
      exfalso;
      (destruct (extract_metadata_returns (metadata_reply msg) (String a message_text))
         as [r Hr]; [rewrite Hreply; discriminate|]);
      rewrite Hreply in Hr; congruence.
  - pose proof (extract_metadata_bounds _ _ _ Hmeta) as [Ht Hth].
    cbn [fst snd] in Ht, Hth.
    right. left. eexists. cbn [table sermons metadata_calls teaching_calls].
    split; [reflexivity|]. split.
    { intros Hreply. rewrite Hreply, extract_metadata_unbound in Hmeta. discriminate. }
    split; [reflexivity|].
    cbn [sd_message_link sd_channel sd_date sd_image_url sd_title sd_theme].
    repeat split; first [lia|assumption|reflexivity].
Qed.

Lemma scrape_message_rows st msg :
  rows (table st) `prefix_of` rows (table (step st msg))
  /\ (length (rows (table (step st msg))) + length (sermons st)
      <= length (rows (table st)) + length (sermons (step st msg)))%nat
  /\ (consistent (table st) -> consistent (table (step st msg))).
Proof.
  destruct (scrape_message_cases st msg)
    as [(-> & -> & _)|[(d & Hnew & _ & -> & _ & _ & -> & Hl & _)|(_ & _ & -> & -> & _)]];
    [split; [reflexivity|split; [lia|auto]]| |split; [reflexivity|split; [lia|auto]]].
  split; [|split; [|apply add_scraped_consistent]].
  - rewrite <- Hl in Hnew.
    destruct (add_scraped_cases d (stored_at msg) (table st) Hnew)
      as [->|(t & de & th & _ & _ & _ & _ & ->)]; cbn [snd rows];
      [reflexivity|by eexists].
  - rewrite <- Hl in Hnew.
    destruct (add_scraped_cases d (stored_at msg) (table st) Hnew)
      as [->|(t & de & th & _ & _ & _ & _ & ->)]; cbn [snd rows];
      rewrite !length_app; cbn [length]; lia.
Qed.

Lemma scrape_message_calls st msg :
  sermons st `prefix_of` sermons (step st msg)
  /\ (metadata_calls st + length (sermons (step st msg))
      <= metadata_calls (step st msg) + length (sermons st))%nat
  /\ (metadata_reply msg <> Raise JSONDecodeError ->
      metadata_calls (step st msg) + length (sermons st)
      = metadata_calls st + length (sermons (step st msg)))%nat
  /\ (teaching_calls st <= teaching_calls (step st msg) <= S (teaching_calls st))%nat.
Proof.
  destruct (scrape_message_cases st msg)
    as [(_ & -> & -> & Ht)
       |[(d & _ & _ & -> & -> & -> & _)|(_ & Hraise & _ & -> & -> & ->)]].
  - split; [reflexivity|]. split; [lia|]. split; [lia|exact Ht].
  - rewrite length_app. cbn [length].
    split; [by eexists|]. split; [lia|]. split; lia.
  - split; [reflexivity|]. split; [lia|]. split; [by intros []|lia].
Qed.

(** What a run of events keeps. *)
Lemma scrape_run_invariant events st :
  let st' := fold_left (scrape_event json_loads m channel_username) events st in
  rows (table st) `prefix_of` rows (table st')
  /\ sermons st `prefix_of` sermons st'
  /\ (metadata_calls st + length (sermons st')
      <= metadata_calls st' + length (sermons st))%nat
  /\ (Forall (fun msg => metadata_reply msg <> Raise JSONDecodeError)
             (messages_of events) ->
      metadata_calls st' + length (sermons st)
      = metadata_calls st + length (sermons st'))%nat
  /\ (teaching_calls st <= teaching_calls st'
      <= teaching_calls st + length (messages_of events))%nat
  /\ (length (rows (table st')) + length (sermons st)
      <= length (rows (table st)) + length (sermons st'))%nat
  /\ (consistent (table st) -> consistent (table st')).
Proof.
  cbv zeta. revert st. induction events as [|ev events IH]; intros st.
  { cbn [fold_left messages_of length].
    split; [reflexivity|]. split; [reflexivity|].
    split; [lia|]. split; [lia|]. split; [lia|]. split; [lia|auto]. }
  cbn [fold_left].
  destruct (IH (scrape_event json_loads m channel_username st ev))
    as (Hrows & Hserm & Hmeta & Hexact & Hteach & Hlen & Hcons).
  destruct ev as [msg|]; cbn [scrape_event] in *.
  - destruct (scrape_message_rows st msg) as (Hrows1 & Hlen1 & Hcons1).
    destruct (scrape_message_calls st msg) as (Hserm1 & Hmeta1 & Hexact1 & Hteach1).
    change (messages_of (Yields msg :: events)) with (msg :: messages_of events).
    cbn [length].
    split; [by etrans|]. split; [by etrans|].
    split; [lia|]. split.
    { intros [Hmsg Hall]%Forall_cons. specialize (Hexact Hall).
      specialize (Hexact1 Hmsg). lia. }
    split; [lia|]. split; [lia|auto].
  - change (messages_of (Collects :: events)) with (messages_of events).
    cbn [table sermons metadata_calls teaching_calls collected rows] in *.
    split; [exact Hrows|]. split; [exact Hserm|].
    split; [lia|]. split; [exact Hexact|]. split; [lia|]. split; [lia|].
    intros H. apply Hcons. exact H.
Qed.

Lemma fold_left_yields msgs st :
  fold_left (scrape_event json_loads m channel_username) (map Yields msgs) st
  = fold_left step msgs st.
Proof.
  revert st. induction msgs as [|msg msgs IH]; intros st; [reflexivity|].
  cbn [map fold_left scrape_event]. apply IH.
Qed.

Lemma messages_of_read limit events :
  (length (messages_of (read limit events)) <= Nat.min limit (length (messages_of events)))%nat
  /\ messages_of (read limit events) `prefix_of` messages_of events.
Proof.
  revert limit. induction events as [|[msg|] events IH]; intros limit.
  - cbn. split; [lia|reflexivity].
  - destruct limit as [|limit]; cbn [read].
    + cbn [messages_of length]. split; [lia|]. by eexists.
    + change (messages_of (Yields msg :: read limit events))
        with (msg :: messages_of (read limit events)).
      change (messages_of (Yields msg :: events)) with (msg :: messages_of events).
      destruct (IH limit) as [Hlen [k Hk]]. cbn [length]. split; [lia|].
      exists k. by rewrite Hk at 1.
  - cbn [read].
    change (messages_of (Collects :: read limit events))
      with (messages_of (read limit events)).
    change (messages_of (Collects :: events)) with (messages_of events).
    apply IH.
Qed.

(** X26: a turn of the loop of [scrape_channel] never replaces a stored
    row, although [add_sermon] is an INSERT OR REPLACE.  Either the table
    is left as it was, or the link of the message was not stored and one row
    is appended for it: under a fresh id, with the channel, the link
    [https://t.me/<channel without @>/<id>], a title of at most 200
    characters and a theme of at most 50.  The list grows by at most one
    dict, and only after a metadata call; the call is made once for each
    dict appended, and once more without any dict exactly when it raised
    JSONDecodeError: then [_extract_metadata] raises, and the turn leaves
    the table and the list as they were. *)
Theorem scrape_message_only_appends st msg :
  let link := message_link_of channel_username msg in
  let st' := scrape_message json_loads m channel_username st msg in
  (table st' = table st
   \/ exists row,
        get_sermon_by_link (table st) link = None
        /\ rows (table st') = rows (table st) ++ [row]
        /\ sqlite_sequence (table st') = id row
        /\ id row = next_rowid (table st)
        /\ message_link row = link
        /\ channel row = channel_username
        /\ date row = msg_date msg
        /\ image_url row = (if msg_photo msg then Some link else None)
        /\ created_at row = stored_at msg
        /\ (text.len (title row) <= 200)%nat
        /\ (exists th, theme row = Some th /\ (text.len th <= 50)%nat))
  /\ (metadata_calls st + length (sermons st')
      <= metadata_calls st' + length (sermons st)
      <= S (metadata_calls st + length (sermons st')))%nat
  /\ (metadata_calls st' + length (sermons st)
      = S (metadata_calls st + length (sermons st')) ->
      metadata_reply msg = Raise JSONDecodeError
      /\ table st' = table st /\ sermons st' = sermons st)%nat
  /\ (metadata_reply msg = Raise JSONDecodeError ->
      table st' = table st /\ sermons st' = sermons st)
  /\ (table st' <> table st -> length (sermons st') = S (length (sermons st))).
Proof.
  cbv zeta.
  destruct (scrape_message_cases st msg)
    as [(Ht & Hs & Hm & _)
       |[(d & Hnew & Hreply & Hs & Hm & _ & Ht & Hl & Hc & Hd & Hi & Hlen & Hlen')
        |(Hnew & Hreply & Ht & Hs & Hm & _)]].
  { rewrite Ht, Hs, Hm. split; [by left|]. split; [lia|]. split; [lia|].
    split; [done|]. by intros []. }
  2:{ rewrite Ht, Hs, Hm. split; [by left|]. split; [lia|]. split; [done|].
      split; [done|]. by intros []. }
  rewrite Hs, Hm, length_app. cbn [length].
  split; [|split; [lia|split; [lia|split; [done|intros _; lia]]]].
  rewrite Ht. rewrite <- Hl in Hnew.
  destruct (add_scraped_cases d (stored_at msg) (table st) Hnew)
    as [->|(t & de & th & Et & _ & Eth & _ & ->)]; [by left|].
  right. eexists. split; [rewrite <- Hl; exact Hnew|].
  cbn [snd rows sqlite_sequence]. split; [reflexivity|].
  rewrite Et in Hlen. rewrite Eth in Hlen'.
  cbn [scraped_row id message_link channel date image_url created_at title theme
       sliced_len] in *.
  repeat split; try assumption. by exists th.
Qed.

(** X27: a message that was stored is never processed again.  Once a turn
    of the loop has stored a row for a message, whatever is scraped in
    between, a later turn for a message with the same id leaves the table
    and the list as they are and does not call the metadata model. *)
Theorem scrape_skips_what_it_stored st msg between msg' :
  let st1 := scrape_message json_loads m channel_username st msg in
  let st2 := fold_left (scrape_message json_loads m channel_username) between st1 in
  let st3 := scrape_message json_loads m channel_username st2 msg' in
  table st1 <> table st ->
  msg_id msg' = msg_id msg ->
  table st3 = table st2 /\ sermons st3 = sermons st2
  /\ metadata_calls st3 = metadata_calls st2.
Proof.
  cbv zeta. intros Hstored Hid.
  assert (Hlink : message_link_of channel_username msg'
                  = message_link_of channel_username msg)
    by (unfold message_link_of; by rewrite Hid).
  assert (exists row, get_sermon_by_link (table (step st msg))
                        (message_link_of channel_username msg) = Some row)
    as [row Hrow].
  { destruct (scrape_message_cases st msg)
      as [(Ht & _)|[(d & Hnew & _ & _ & _ & _ & Ht & Hl & _)|(_ & _ & Ht & _)]];
      [contradiction| |contradiction].
    rewrite Ht in Hstored |- *. rewrite <- Hl in Hnew |- *.
    destruct (add_scraped_cases d (stored_at msg) (table st) Hnew)
      as [E|(t & de & th & _ & _ & _ & _ & E)]; rewrite E in Hstored |- *;
      [by destruct Hstored|].
    eexists. unfold get_sermon_by_link, select_by_link in *. cbn [snd rows].
    rewrite List.filter_app.
    destruct (List.filter _ (rows (table st))) as [|r rs]; [|discriminate].
    cbn [app List.filter scraped_row message_link]. rewrite String.eqb_refl.
    reflexivity. }
  destruct (scrape_run_invariant (map Yields between) (step st msg)) as (Hprefix & _).
  rewrite fold_left_yields in Hprefix.
  pose proof (get_sermon_by_link_later _ _ _ _ Hprefix Hrow) as Hlater.
  destruct (scrape_message_cases (fold_left step between (step st msg)) msg')
    as [(Ht & Hs & Hm & _)|[(d & Hnew & _)|(Hnew & _)]]; [by repeat split|..];
    rewrite Hlink in Hnew; congruence.
Qed.

(** X28: a run of [scrape_channel], the collector running at any time.
    At most [limit] messages are read.  The rows stored before are all
    kept, in place; the metadata model was called at least once for each
    dict of the list, and exactly once when no metadata call raised
    JSONDecodeError; the table grew by at most as many rows as the list
    has dicts; the classification model was called at most once a message
    read; and the constraints of the table hold afterwards if they held
    before.  If the iteration ends with an exception the function returns
    the empty list, though the table has been written all the same. *)
Theorem scrape_channel_run limit events failure db :
  let returned := fst (scrape_channel json_loads m channel_username limit events failure db) in
  let st := snd (scrape_channel json_loads m channel_username limit events failure db) in
  rows db `prefix_of` rows (table st)
  /\ (length (sermons st) <= metadata_calls st)%nat
  /\ (Forall (fun msg => metadata_reply msg <> Raise JSONDecodeError)
             (messages_of events) ->
      metadata_calls st = length (sermons st))
  /\ (length (rows (table st)) <= length (rows db) + length (sermons st))%nat
  /\ (teaching_calls st <= Nat.min limit (length (messages_of events)))%nat
  /\ (consistent db -> consistent (table st))
  /\ returned = (if failure then [] else sermons st)
  /\ st = snd (scrape_channel json_loads m channel_username limit events false db).
Proof.
  cbv zeta. unfold scrape_channel. cbn [fst snd].
  destruct (scrape_run_invariant (read limit events) (Scrape db [] O O))
    as (Hrows & _ & Hmeta & Hexact & Hteach & Hlen & Hcons).
  destruct (messages_of_read limit events) as [Hread [k Hk]].
  cbn [table sermons metadata_calls teaching_calls length] in *.
  split; [exact Hrows|]. split; [lia|]. split.
  { intros Hall. rewrite Hk in Hall. apply Forall_app in Hall as [Hall _].
    specialize (Hexact Hall). lia. }
  split; [lia|]. split; [lia|]. split; [exact Hcons|]. by split.
Qed.

(** X29: what [_extract_metadata] does with the model's answer.  When the
    model call raises JSONDecodeError the function raises UnboundLocalError
    (its handler reads [content], which is not bound yet) and returns
    nothing; in every other case it returns a triple, whose title has at
    most 200 and whose theme at most 50 characters (or items).  The answer
    is used only if it decodes to an object: when the call raises another
    exception, when the decoder raises, and when the decoded value is not
    an object, the triple is that of [_fallback_extract_metadata].  For an
    object without the three keys the defaults are used: the title
    "Untitled Sermon", the first 500 characters of the message as they
    are, the theme "General". *)
Theorem extract_metadata_shape reply message :
  let result := _extract_metadata json_loads m reply message in
  let fallback :=
    (PStr (fst (fst (_fallback_extract_metadata m message))),
     PStr (snd (fst (_fallback_extract_metadata m message))),
     PStr (snd (_fallback_extract_metadata m message))) in
  let decoded content := json_loads (unfence m (strip m content)) in
  (reply = Raise JSONDecodeError <-> result = inl UnboundLocalError)
  /\ (reply <> Raise JSONDecodeError -> exists r, result = inr r)
  /\ (forall r, result = inr r ->
      (sliced_len (fst (fst r)) <= 200)%nat /\ (sliced_len (snd r) <= 50)%nat)
  /\ (forall e, reply = Raise e -> e <> JSONDecodeError -> result = inr fallback)
  /\ (forall content, reply = Ret content ->
      (raises (decoded content) -> result = inr fallback)
      /\ (forall v, decoded content = Ret v ->
          (forall items, v <> utils.JObj items) -> result = inr fallback)
      /\ (forall items, decoded content = Ret (utils.JObj items) ->
          Forall (fun kv => fst kv ∉ ["title"; "description"; "theme"]) items ->
          result = inr (PStr "Untitled Sermon", PStr (text.take 500 message),
                        PStr "General"))).
Proof.
  cbv zeta.
  split; [|split; [apply extract_metadata_returns
                  |split; [apply extract_metadata_bounds|]]].
  { split; [intros ->; reflexivity|]. intros H.
    destruct reply as [content|[]]; try reflexivity; exfalso;
      (edestruct (extract_metadata_returns) as [r Hr];
       [|rewrite Hr in H; discriminate]); discriminate. }
  unfold _extract_metadata, extract_metadata_try.
  destruct (_fallback_extract_metadata m message) as [[ft fd] fth]. cbn [fst snd].
  split; [intros e -> He; destruct e; try reflexivity; by destruct He|].
  intros content ->. cbn [of_outcome and_then]. repeat split.
  - intros [e ->]. cbn [of_outcome and_then]. by destruct e.
  - intros v -> Hv. cbn [of_outcome and_then].
    destruct v; try reflexivity. by destruct (Hv l).
  - intros items -> Hkeys. cbn [of_outcome and_then json_get].
    assert (Hfind : forall key, key ∈ ["title"; "description"; "theme"] ->
              List.find (fun kv : string * utils.json => String.eqb (fst kv) key) items
              = None).
    { intros key Hkey. induction Hkeys as [|kv items Hkv _ IH]; [reflexivity|].
      cbn [List.find]. destruct (String.eqb (fst kv) key) eqn:E; [|exact IH].
      apply String.eqb_eq in E. subst key. contradiction. }
    rewrite !Hfind by set_solver. cbn [slice_json and_then].
    rewrite (take_take_le 500 1000) by lia. reflexivity.
Qed.

End Scraping.

(** ** The further properties on concrete runs *)

Lemma add_sermon_returns_fresh_id_witness :
  db_handler.sqlite_sequence
    (snd (db_handler.add_sermon (sample.scrape "Faith, revised") "2024-01-02 00:00:00"
            sample_runs.db1)) = 2.
Proof.
  destruct (add_sermon_returns_fresh_id (sample.scrape "Faith, revised")
              "2024-01-02 00:00:00" sample_runs.db1 2) as (_ & _ & H & _).
  - reflexivity.
  - exact H.
Defined.


(** A record whose title is [None] is refused; the table is kept, but the
    database is left locked: a record that would be stored is refused as
    well, until the collector has run. *)
Example add_sermon_rejects_exactly_none_example :
  let db2 := snd (db_handler.add_sermon sample_runs.untitled "2024-01-02 00:00:00"
                    sample_runs.db1) in
  db_handler.add_sermon sample_runs.untitled "2024-01-02 00:00:00" sample_runs.db1
  = (None, db_handler.left_open sample_runs.db1)
  /\ db_handler.add_sermon (sample.scrape "Hope") "2024-01-03 00:00:00" db2 = (None, db2)
  /\ fst (db_handler.add_sermon (sample.scrape "Hope") "2024-01-03 00:00:00"
            (db_handler.collected db2)) = Some 2.
Proof. cbv zeta. repeat split. Qed.

Lemma add_sermon_count_witness :
  db_handler.get_sermon_count
    (snd (db_handler.add_sermon (sample.scrape "Faith, revised") "2024-01-02 00:00:00"
            sample_runs.db1)) = 1%nat.
Proof.
  rewrite (add_sermon_count (sample.scrape "Faith, revised") "2024-01-02 00:00:00"
             sample_runs.db1 "Faith, revised" "A teaching." "@pst_tara"
             "https://t.me/pst_tara/1").
  - reflexivity.
  - reflexivity.
  - vm_compute. repeat constructor. intros H. by apply elem_of_nil in H.
  - reflexivity.
Defined.

Lemma cache_keys_independent_witness :
  fst (CacheManager.get 100 "b" (CacheManager.set 0 "a" 7%nat sample.files0)) = None.
Proof.
  destruct (cache_keys_independent (V := nat) 0 100 "a" "b" 7%nat sample.files0)
    as (_ & _ & _ & H).
  - reflexivity.
  - reflexivity.
  - discriminate.
  - rewrite H. reflexivity.
Defined.

Lemma cache_key_determines_user_witness : (42 : Z) = 42.
Proof.
  destruct (cache_key_determines_user 42 42 "faith" "faith") as (H & _).
  - reflexivity.
  - exact H.
Defined.

Lemma rank_memoizes_witness :
  let w1 := snd (utils.rank_sermons json_ints.loads (sample.env_of (Ret "[2, 0]")) "faith"
                   sample.candidates 42 sample.world0) in
  utils.rank_sermons json_ints.loads (sample.env_of (Raise RuntimeError)) "faith"
    [sample.old_hit] 42 w1
  = ([sample.c2; sample.c0], w1)
  /\ utils.rank_sermons json_ints.loads (sample.env_of (Raise RuntimeError)) "faith"
       [] 42 w1
     = ([], w1).
Proof.
  cbv zeta. split.
  - rewrite (rank_memoizes json_ints.loads (sample.env_of (Ret "[2, 0]"))
               (sample.env_of (Raise RuntimeError)) "faith" sample.candidates
               [sample.old_hit] 42 sample.world0 [sample.c2; sample.c0]).
    + reflexivity.
    + discriminate.
    + left. reflexivity.
    + vm_compute. reflexivity.
    + discriminate.
    + vm_compute. discriminate.
  - rewrite (rank_memoizes json_ints.loads (sample.env_of (Ret "[2, 0]"))
               (sample.env_of (Raise RuntimeError)) "faith" sample.candidates
               [] 42 sample.world0 [sample.c2; sample.c0]).
    + reflexivity.
    + discriminate.
    + left. reflexivity.
    + vm_compute. reflexivity.
    + discriminate.
    + vm_compute. discriminate.
Defined.

Lemma rank_result_size_witness :
  (length (fst (utils.rank_sermons json_ints.loads (sample.env_of (Ret "[2, 0, 2, 7]"))
                  "faith" sample.candidates 42 sample.world0)) <= 3)%nat.
Proof.
  destruct (rank_result_size json_ints.loads (sample.env_of (Ret "[2, 0, 2, 7]"))
              "faith" sample.candidates 42 sample.world0) as (H & _).
  - discriminate.
  - left. reflexivity.
  - exact H.
Defined.

Lemma rank_follows_the_indexes_witness :
  Forall2 (fun i s => sample.candidates !! Z.to_nat i = Some s) [2; 0]
    (fst (utils.rank_sermons json_ints.loads (sample.env_of (Ret "[2, 0]")) "faith"
            sample.candidates 42 sample.world0)).
Proof.
  apply (rank_follows_the_indexes json_ints.loads (sample.env_of (Ret "[2, 0]"))
           "faith" sample.candidates 42 sample.world0 "[2, 0]" [2; 0]).
  - discriminate.
  - left. reflexivity.
  - vm_compute. repeat constructor; intros H;
      repeat (apply elem_of_cons in H as [H|H]; [discriminate|]);
      by apply elem_of_nil in H.
  - reflexivity.
  - reflexivity.
  - vm_compute. reflexivity.
  - repeat constructor; intros H;
      repeat (apply elem_of_cons in H as [H|H]; [discriminate|]);
      by apply elem_of_nil in H.
  - repeat constructor; cbn; lia.
Defined.

Lemma rank_retries_after_failure_witness :
  let w1 := snd (utils.rank_sermons json_ints.loads (sample.env_of (Raise RuntimeError))
                   "faith" sample.candidates 42 sample.world0) in
  utils.llm_calls
    (snd (utils.rank_sermons json_ints.loads (sample.env_of (Ret "[0]")) "faith"
            sample.candidates 42 w1)) = 2%nat
  /\ utils.rank_sermons json_ints.loads (sample.env_of (Ret "[0]")) "faith" [] 42 w1
     = ([], w1).
Proof.
  cbv zeta. split.
  - destruct (rank_retries_after_failure json_ints.loads
                (sample.env_of (Raise RuntimeError)) (sample.env_of (Ret "[0]"))
                "faith" sample.candidates sample.candidates 42 sample.world0)
      as (_ & _ & H & _).
    + discriminate.
    + left. reflexivity.
    + eexists. reflexivity.
    + reflexivity.
    + apply H. discriminate.
  - destruct (rank_retries_after_failure json_ints.loads
                (sample.env_of (Raise RuntimeError)) (sample.env_of (Ret "[0]"))
                "faith" sample.candidates [] 42 sample.world0)
      as (_ & _ & _ & H).
    + discriminate.
    + left. reflexivity.
    + eexists. reflexivity.
    + reflexivity.
    + apply H. reflexivity.
Defined.

Lemma rank_users_isolated_witness :
  fst (utils.rank_sermons json_ints.loads (sample.env_of (Ret "[0]")) "faith"
         sample.candidates 7 (sample.world_cached [sample.old_hit]))
  = [sample.c0].
Proof.
  unfold sample.world_cached.
  rewrite (rank_users_isolated json_ints.loads (sample.env_of (Ret "[0]")) "faith"
             "faith" sample.candidates 7 42 0 [sample.old_hit] ∅ 1 1).
  - vm_compute. reflexivity.
  - discriminate.
Defined.

Lemma more_requests_page_through_witness :
  bot_flow.sermons_in (fst (bot_flow.more_times 2 42 sample.sessions5))
  = map sample.numbered [6; 7; 8; 9].
Proof.
  destruct (more_requests_page_through 2 42 sample.sessions5
              {| telegram_bot.sermons := sample.nine; telegram_bot.index := 5 |})
    as (H & _).
  - reflexivity.
  - cbv zeta in H. rewrite H. reflexivity.
Defined.

Lemma process_then_more_witness :
  let r := bot_flow._process_recommendation json_ints.loads sample_runs.request2 42
             "faith" 1 sample_runs.bot0 in
  utils.title <$> bot_flow.sermons_shown (fst r) = ["Trusting God"]
  /\ utils.title <$>
       (bot_flow.sermons_shown (fst r)
          ++ bot_flow.sermons_in
               (fst (bot_flow.more_times 1 42 (bot_flow.user_sessions (snd r)))))
     = ["Trusting God"; "Faith that moves"].
Proof.
  destruct (process_then_more json_ints.loads sample_runs.request2 42 "faith" 1
              sample_runs.bot0
              (utils.hit (sample_runs.doc "Faith that moves" "https://t.me/pst_tara/1", 0.125%float))
              [utils.hit (sample_runs.doc "Trusting God" "https://t.me/pst_tara/3", 0.25%float)]
              (utils.hit (sample_runs.doc "Trusting God" "https://t.me/pst_tara/3", 0.25%float))
              [utils.hit (sample_runs.doc "Faith that moves" "https://t.me/pst_tara/1", 0.125%float)]
              (snd (utils.rank_sermons json_ints.loads (sample.env_of (Ret "[1, 0]")) "faith"
                      sample_runs.hits2 42 sample.world0))
              1) as (H1 & _ & _ & _ & H2).
  - reflexivity.
  - apply injective_projections; [vm_compute; reflexivity | reflexivity].
  - cbv zeta in *. split.
    + rewrite H1. reflexivity.
    + rewrite H2. reflexivity.
Defined.

(** The count asked for by a message: capped at 20, taken from the first
    number, 5 by default. *)
Example extract_intent_examples :
  bot_flow.extract_intent ascii_text.methods "send 30 sermons on the 7 seals"
  = ("send 30 sermons on the 7 seals", 20%nat)
  /\ bot_flow.extract_intent ascii_text.methods "3 sermons on Matthew 24"
     = ("3 sermons on Matthew 24", 3%nat)
  /\ bot_flow.extract_intent ascii_text.methods "I need hope" = ("I need hope", 5%nat).
Proof. repeat split; vm_compute; reflexivity. Qed.

(** A message that only looks like a search is one, "  Show More " is a
    paging request; with the vector store down both are answered. *)
Example handle_message_examples :
  fst (bot_flow.handle_message json_ints.loads ascii_text.methods
         (bot_flow.Request sample_runs.down_store (sample.env_of (Ret "[0]")) (Ret "x"))
         42 "  Show More " sample_runs.bot0)
  = [bot_flow.Paging telegram_bot.PleaseSearchFirst]
  /\ bot_flow.handle_message json_ints.loads ascii_text.methods
       (bot_flow.Request sample_runs.down_store (sample.env_of (Ret "[0]")) (Ret "x"))
       42 "more about faith" sample_runs.bot0
     = ([bot_flow.TypingAction; bot_flow.NoMatchingSermons], sample_runs.bot0).
Proof. split; vm_compute; reflexivity. Qed.

Example is_teaching_examples :
  rag_ingest._is_teaching ascii_text.methods (Ret "Yes.") sample_scrape.teaching_text
  = (true, 1%nat)
  /\ rag_ingest._is_teaching ascii_text.methods (Ret "no") sample_scrape.teaching_text
     = (false, 1%nat)
  /\ rag_ingest._is_teaching ascii_text.methods (Raise RuntimeError)
       sample_scrape.teaching_text = (true, 1%nat)
  /\ rag_ingest._is_teaching ascii_text.methods (Ret "YES") sample_scrape.notice_text
     = (false, O)
  /\ rag_ingest._is_teaching ascii_text.methods (Ret "YES") "Faith and prayer."
     = (false, O).
Proof. vm_compute. repeat split. Qed.

Example unfence_examples :
  rag_ingest.unfence ascii_text.methods sample_scrape.fenced_empty_object = "{}"
  /\ rag_ingest.unfence ascii_text.methods "{} ``" = "{}"
  /\ text.split_str "```" sample_scrape.fenced_empty_object
     = [""; ("json" ++ String text.newline "{}" ++ String text.newline "")%string; ""]
  /\ text.split_str "ab" "xabyababz" = ["x"; "y"; ""; "z"]
  /\ text.drop 4 "json{}" = "{}".
Proof. vm_compute. repeat split. Qed.

Example scrape_channel_example :
  let st := snd sample_scrape.run in
  db_handler.message_link <$> db_handler.rows (rag_ingest.table st)
  = ["https://t.me/pst_tara/42"; "https://t.me/pst_tara/44"]
  /\ db_handler.id <$> db_handler.rows (rag_ingest.table st) = [1; 2]
  /\ db_handler.title <$> db_handler.rows (rag_ingest.table st)
     = ["Untitled Sermon"; sample_scrape.teaching_text]
  /\ db_handler.theme <$> db_handler.rows (rag_ingest.table st)
     = [Some "General"; Some "Faith"]
  /\ db_handler.image_url <$> db_handler.rows (rag_ingest.table st)
     = [Some "https://t.me/pst_tara/42"; None]
  /\ length (fst sample_scrape.run) = 2%nat
  /\ rag_ingest.teaching_calls st = 4%nat
  /\ rag_ingest.metadata_calls st = 3%nat.
Proof. vm_compute. repeat split. Qed.

(** When the metadata call raises JSONDecodeError, [_extract_metadata]
    raises and the message is dropped after the call. *)
Example extract_metadata_unbound_example :
  rag_ingest._extract_metadata sample_scrape.decoder ascii_text.methods
    (Raise JSONDecodeError) sample_scrape.teaching_text
  = inl rag_ingest.UnboundLocalError
  /\ rag_ingest._extract_sermon_data sample_scrape.decoder ascii_text.methods
       (db_runs._init_db None) "@pst_tara" sample_scrape.msg45
       sample_scrape.teaching_text
     = (None, 1%nat)
  /\ (exists r,
        rag_ingest._extract_metadata sample_scrape.decoder ascii_text.methods
          (Raise RuntimeError) sample_scrape.teaching_text = inr r).
Proof. split; [reflexivity|]. split; [vm_compute; reflexivity|]. eexists. reflexivity. Qed.

Lemma scrape_skips_what_it_stored_witness :
  rag_ingest.table
    (rag_ingest.scrape_message sample_scrape.decoder ascii_text.methods "@pst_tara"
       (fold_left
          (rag_ingest.scrape_message sample_scrape.decoder ascii_text.methods "@pst_tara")
          [sample_scrape.msg43; sample_scrape.msg44]
          (rag_ingest.scrape_message sample_scrape.decoder ascii_text.methods "@pst_tara"
             sample_scrape.start sample_scrape.msg42))
       sample_scrape.msg42_again)
  = rag_ingest.table
      (fold_left
         (rag_ingest.scrape_message sample_scrape.decoder ascii_text.methods "@pst_tara")
         [sample_scrape.msg43; sample_scrape.msg44]
         (rag_ingest.scrape_message sample_scrape.decoder ascii_text.methods "@pst_tara"
            sample_scrape.start sample_scrape.msg42)).
Proof.
  destruct (scrape_skips_what_it_stored sample_scrape.decoder ascii_text.methods
              "@pst_tara" sample_scrape.start sample_scrape.msg42
              [sample_scrape.msg43; sample_scrape.msg44] sample_scrape.msg42_again)
    as (H & _ & _).
  - vm_compute. discriminate.
  - reflexivity.
  - exact H.
Defined.

Example batches_example :
  map (@length nat) (fix_vector_store.batches (seq 0 120)) = [50; 50; 20]%nat
  /\ fix_vector_store.batches (seq 0 100)
     = [seq 0 50; seq 50 50]
  /\ fix_vector_store.batches (@nil nat) = [].
Proof. vm_compute. repeat split. Qed.

Example main_examples :
  main.main (Some "token") (Some "key") (fun _ => main.NetworkFailure)
  = (main.SysExit 1, 5%nat, [5; 10; 15; 20]%nat)
  /\ main.main (Some "token") (Some "key")
       (fun i => if (i <? 2)%nat then main.NetworkFailure else main.PollingReturned)
     = (main.Returned, 3%nat, [5; 10]%nat)
  /\ main.main (Some "token") (Some "key") (fun _ => main.OtherError)
     = (main.SysExit 1, 1%nat, [])
  /\ main.main (Some "") (Some "key") (fun _ => main.PollingReturned)
     = (main.SysExit 1, O, [])
  /\ main.main (Some "token") None (fun _ => main.PollingReturned)
     = (main.SysExit 1, O, []).
Proof. vm_compute. repeat split. Qed.
